(** * Verification of the leapp integration-test harness

    A shallow embedding of [integration-tests/features/environment.py]:
    the command runner, the virtual machine helper with its
    [contextlib.ExitStack] of teardown callbacks, the scenario hooks,
    [MigrationInfo.from_vm_list] and the HTTP response helper.

    Python objects that are mutated in place become explicit state;
    exceptions become the [Raises] outcome of a small state-and-error
    monad.  A raised exception keeps the mutations made before it, as
    in Python.  The outside world (exit statuses of spawned commands,
    HTTP replies, the monotonic clock) is given by oracles that every
    theorem quantifies over. *)

From Stdlib Require Import ZArith.
From stdpp Require Import base option list strings gmap pretty.

Open Scope string_scope.
Open Scope list_scope.

(** ** Exceptions and the state-and-error monad *)

(** The exceptions that the modelled code can raise.  [CalledProcessError]
    carries the exit status and the command, as [subprocess] builds it. *)
Inductive exn : Type :=
| KeyError (key : string)
| ValueError (msg : string)
| IndexError
| AttributeError (attr : string)
| CalledProcessError (returncode : Z) (cmd : list string)
| AssertionError (msg : string).

Inductive outcome (A : Type) : Type :=
| Returns (a : A)
| Raises (e : exn).
Arguments Returns {A} a.
Arguments Raises {A} e.

Definition M (St A : Type) : Type := St -> outcome A * St.

Definition ret {St A : Type} (a : A) : M St A := fun s => (Returns a, s).

Definition raise {St A : Type} (e : exn) : M St A := fun s => (Raises e, s).

Definition bind {St A B : Type} (m : M St A) (k : A -> M St B) : M St B :=
  fun s =>
    match m s with
    | (Returns a, s') => k a s'
    | (Raises e, s') => (Raises e, s')
    end.

Notation "x <- m ;; k" := (bind m (fun x => k))
  (at level 100, m at next level, right associativity).
Notation "m ;;; k" := (bind m (fun _ => k))
  (at level 100, right associativity).

Definition succeeded {A : Type} (r : outcome A) : bool :=
  match r with Returns _ => true | Raises _ => false end.

(** ** The outside world *)

(** One spawned process: the command line and the working directory
    ([None] when [cwd] is not passed). *)
Record Call : Type := mkCall { call_cmd : list string; call_cwd : option string }.

(** What a finished process hands back to [subprocess]. *)
Record Completed : Type :=
  mkCompleted { returncode : Z; stdout : string; stderr : string }.

(** The observable effects so far: the processes spawned, the URLs
    requested, how often the monotonic clock was read, and the lines
    printed, each in order of occurrence. *)
Record World : Type := mkWorld {
  spawned : list Call;
  requested : list string;
  clock_reads : nat;
  printed : list string
}.

Definition fresh_world : World := mkWorld [] [] 0 [].

#[global] Instance Call_eq_dec : EqDecision Call.
Proof. solve_decision. Defined.

Definition print (line : string) : M World unit :=
  fun w => (Returns tt,
            mkWorld (spawned w) (requested w) (clock_reads w) (printed w ++ [line])).

(** [repr] of a list of plain words, as ["{}".format(cmd)] renders the
    command lines used here (no quotes or escapes occur in them). *)
Definition repr_str (s : string) : string := "'" +:+ s +:+ "'".

Definition repr_list (l : list string) : string :=
  "[" +:+ String.concat ", " (map repr_str l) +:+ "]".

Section Command.

(** The exit status and output of a command, given the processes
    spawned before it. *)
Variable spawn : list Call -> Call -> Completed.

(** [subprocess.check_output(cmd, cwd=..., stderr=PIPE)] up to the
    exit-status test: run the process and record that it was run. *)
Definition subprocess_run (cmd : list string) (cwd : option string)
  : M World Completed :=
  fun w =>
    let c := mkCall cmd cwd in
    (Returns (spawn (spawned w) c),
     mkWorld (spawned w ++ [c]) (requested w) (clock_reads w) (printed w)).

Definition _run_command (cmd : list string) (work_dir : string)
           (ignore_errors : bool) : M World string :=
  print ("  Running " +:+ repr_list cmd +:+ " in " +:+ work_dir) ;;;
  p <- subprocess_run cmd (Some work_dir) ;;
  if decide (returncode p = 0%Z) then ret (stdout p)
  else if ignore_errors then ret (stdout p)
  else
    print "=== stdout for failed command ===" ;;;
    print (stdout p) ;;;
    print "=== stderr for failed command ===" ;;;
    print (stderr p) ;;;
    raise (CalledProcessError (returncode p) cmd).

End Command.

(** ** [contextlib.ExitStack]

    The stack is the list of registered callbacks, oldest first.
    [callback] appends; [close] pops and calls them from the newest to
    the oldest.  A callback that raises does not stop the unwinding:
    the exception is kept, the remaining callbacks still run, and the
    exception raised last is re-raised once the stack is empty.  The
    callbacks act on a state [S] that does not contain the stack
    itself: none of the callbacks registered in this program touches
    the stack it is registered on. *)
Module ExitStack.
Section ExitStack.

Context {S A : Type}.
Variable invoke : A -> M S unit.

Definition callback (cb : A) : M (list A * S) unit :=
  fun '(stack, s) => (Returns tt, (stack ++ [cb], s)).

Fixpoint unwind (todo : list A) (pending : option exn) (s : S)
  : option exn * S :=
  match todo with
  | [] => (pending, s)
  | cb :: todo' =>
      match invoke cb s with
      | (Returns _, s') => unwind todo' pending s'
      | (Raises e, s') => unwind todo' (Some e) s'
      end
  end.

Definition close : M (list A * S) unit :=
  fun '(stack, s) =>
    match unwind (rev stack) None s with
    | (None, s') => (Returns tt, ([], s'))
    | (Some e, s') => (Raises e, ([], s'))
    end.

(** A sequence of [callback] registrations, in the order given. *)
Fixpoint register_all (cbs : list A) : M (list A * S) unit :=
  match cbs with
  | [] => ret tt
  | cb :: cbs' => callback cb ;;; register_all cbs'
  end.

(** Instrumentation: the same callbacks, each noting that it ran. *)
Definition traced (cb : A) : M (S * list A) unit :=
  fun '(s, ran) =>
    let '(r, s') := invoke cb s in (r, (s', ran ++ [cb])).

End ExitStack.
End ExitStack.

(** ** Local VM management *)

Definition _VM_HOSTNAME_PREFIX : string := "leapp-tests-".

Module VirtualMachineHelper.

(** A callback registered on the helper's resource manager: the bound
    method and its argument. *)
Inductive teardown : Type :=
| Halt (name : string)
| Destroy (name : string).

Definition teardown_name (cb : teardown) : string :=
  match cb with Halt name => name | Destroy name => name end.

(** The helper object: [_machines] maps the names used in scenario
    steps to hostnames, [_resource_manager] is its [ExitStack]. *)
Record t : Type := mk {
  _machines : gmap string string;
  _resource_manager : list teardown
}.

(** [__init__] *)
Definition init : t := mk ∅ [].

Section Methods.

(** [_VM_DEFS]: hostname to definition directory, built at import
    time from the entries of the [vmdefs] directory. *)
Variable _VM_DEFS : gmap string string.
Variable spawn : list Call -> Call -> Completed.

(** The methods below the resource manager act on the name map and
    the world. *)
Definition in_world {X A : Type} (m : M World A) : M (X * World) A :=
  fun '(x, w) => let '(r, w') := m w in (r, (x, w')).

(** [self._machines.pop(name)] *)
Definition machines_pop (name : string) : M (gmap string string * World) string :=
  fun '(machines, w) =>
    match machines !! name with
    | Some hostname => (Returns hostname, (delete name machines, w))
    | None => (Raises (KeyError name), (machines, w))
    end.

(** [self._machines[name] = hostname] *)
Definition machines_set (name hostname : string)
  : M (gmap string string * World) unit :=
  fun '(machines, w) => (Returns tt, (<[name := hostname]> machines, w)).

Definition _run_vagrant (hostname : string) (args : list string)
           (ignore_errors : bool) : M World string :=
  match _VM_DEFS !! hostname with
  | None => raise (KeyError hostname)
  | Some vm_dir => _run_command spawn ("vagrant" :: args) vm_dir ignore_errors
  end.

Definition _vm_up (name hostname : string)
  : M (gmap string string * World) string :=
  result <- in_world (_run_vagrant hostname ["up"] false) ;;
  in_world (print ("Started " +:+ hostname +:+ " VM instance")) ;;;
  machines_set name hostname ;;;
  ret result.

Definition _vm_halt (name : string) : M (gmap string string * World) string :=
  hostname <- machines_pop name ;;
  result <- in_world (_run_vagrant hostname ["halt"] true) ;;
  in_world (print ("Suspended " +:+ hostname +:+ " VM instance")) ;;;
  ret result.

Definition _vm_destroy (name : string) : M (gmap string string * World) string :=
  hostname <- machines_pop name ;;
  result <- in_world (_run_vagrant hostname ["destroy"] true) ;;
  in_world (print ("Destroyed " +:+ hostname +:+ " VM instance")) ;;;
  ret result.

(** Calling a registered callback; its return value is dropped. *)
Definition invoke (cb : teardown) : M (gmap string string * World) unit :=
  match cb with
  | Halt name => _vm_halt name ;;; ret tt
  | Destroy name => _vm_destroy name ;;; ret tt
  end.

(** Running a method of the name map, or of the resource manager, on
    the whole object. *)
Definition on_machines {A : Type} (m : M (gmap string string * World) A)
  : M (t * World) A :=
  fun '(self, w) =>
    let '(r, (machines, w')) := m (_machines self, w) in
    (r, (mk machines (_resource_manager self), w')).

Definition on_resource_manager {A : Type}
           (m : M (list teardown * (gmap string string * World)) A)
  : M (t * World) A :=
  fun '(self, w) =>
    let '(r, (stack, (machines, w'))) :=
      m (_resource_manager self, (_machines self, w)) in
    (r, (mk machines stack, w')).

Definition ensure_local_vm (name definition : string) (destroy : bool)
  : M (t * World) unit :=
  let hostname := _VM_HOSTNAME_PREFIX +:+ definition in
  (if decide (is_Some (_VM_DEFS !! hostname)) then ret tt
   else raise (ValueError ("Unknown VM image: " +:+ definition))) ;;;
  (if destroy then on_machines (_vm_destroy hostname) ;;; ret tt
   else ret tt) ;;;
  on_machines (_vm_up name hostname) ;;;
  if destroy then on_resource_manager (ExitStack.callback (Destroy name))
  else on_resource_manager (ExitStack.callback (Halt name)).

Definition get_hostname (name : string) : M (t * World) string :=
  fun '(self, w) =>
    match _machines self !! name with
    | Some hostname => (Returns hostname, (self, w))
    | None => (Raises (KeyError name), (self, w))
    end.

Definition close : M (t * World) unit :=
  on_resource_manager (ExitStack.close invoke).

(** Sequences of operations on one helper.  An operation that raises
    keeps its effects on the helper and the world; the sequence goes
    on, as a scenario runner does between steps and hooks. *)
Inductive op : Type :=
| EnsureVM (name definition : string) (destroy : bool)
| HostnameOf (name : string)
| CloseAll.

Definition run_op (o : op) (s : t * World) : t * World :=
  match o with
  | EnsureVM name definition destroy =>
      snd (ensure_local_vm name definition destroy s)
  | HostnameOf name => snd (get_hostname name s)
  | CloseAll => snd (close s)
  end.

Definition run_ops (ops : list op) (s : t * World) : t * World :=
  foldl (fun s o => run_op o s) s ops.

(** A scenario's acquisitions without [destroy], one call of
    [ensure_local_vm] per (name, definition) pair in the order given;
    the first call that raises ends the sequence. *)
Fixpoint acquire_all (vms : list (string * string)) : M (t * World) unit :=
  match vms with
  | [] => ret tt
  | (name, definition) :: vms' =>
      ensure_local_vm name definition false ;;; acquire_all vms'
  end.

(** The command a teardown callback will issue, if its name is
    registered and its hostname has a definition. *)
Definition teardown_call (machines : gmap string string) (cb : teardown)
  : option Call :=
  match machines !! teardown_name cb with
  | None => None
  | Some hostname =>
      match _VM_DEFS !! hostname with
      | None => None
      | Some vm_dir =>
          Some (mkCall ["vagrant"; match cb with
                                   | Halt _ => "halt"
                                   | Destroy _ => "destroy"
                                   end] (Some vm_dir))
      end
  end.

(** The lines a teardown callback will print. *)
Definition teardown_lines (machines : gmap string string) (cb : teardown)
  : list string :=
  match machines !! teardown_name cb with
  | None => []
  | Some hostname =>
      match _VM_DEFS !! hostname, cb with
      | None, _ => []
      | Some vm_dir, Halt _ =>
          ["  Running " +:+ repr_list ["vagrant"; "halt"] +:+ " in " +:+ vm_dir;
           "Suspended " +:+ hostname +:+ " VM instance"]
      | Some vm_dir, Destroy _ =>
          ["  Running " +:+ repr_list ["vagrant"; "destroy"] +:+ " in " +:+ vm_dir;
           "Destroyed " +:+ hostname +:+ " VM instance"]
      end
  end.

(** Every registered callback names a distinct registered machine
    whose hostname has a definition. *)
Definition teardowns_resolvable (self : t) : bool :=
  bool_decide (NoDup (map teardown_name (_resource_manager self)))
  && forallb (fun cb => bool_decide (is_Some (teardown_call (_machines self) cb)))
             (_resource_manager self).

End Methods.

(** Every name in the name map has a teardown callback registered for
    it on the resource manager. *)
Definition teardown_registered (self : t) : Prop :=
  forall name : string,
    is_Some (_machines self !! name) ->
    exists cb, cb ∈ _resource_manager self /\ teardown_name cb = name.

(** Every hostname in the name map is a key of [_VM_DEFS]. *)
Definition hostnames_known (_VM_DEFS : gmap string string) (self : t) : Prop :=
  forall name hostname : string,
    _machines self !! name = Some hostname -> is_Some (_VM_DEFS !! hostname).

(** A call that the helper may issue: [vagrant up], [vagrant halt] or
    [vagrant destroy], run from the directory of a VM definition. *)
Definition vagrant_call (_VM_DEFS : gmap string string) (c : Call) : Prop :=
  exists sub hostname vm_dir,
    c = mkCall ["vagrant"; sub] (Some vm_dir)
    /\ sub ∈ ["up"; "halt"; "destroy"]
    /\ _VM_DEFS !! hostname = Some vm_dir.
End VirtualMachineHelper.

(** ** Leapp commands *)

Module MigrationInfo.

(** One record of the [machines] listing printed by
    [leapp-tool list-machines --shallow]. *)
Record machine : Type := mkMachine { hostname : string; ip : list string }.

Record t : Type := mk {
  local_vm_count : nat;
  source_ip : option string;
  target_ip : option string
}.

(** [machine["ip"][0]] *)
Definition first_ip (m : machine) : outcome string :=
  match ip m with
  | addr :: _ => Returns addr
  | [] => Raises IndexError
  end.

(** The [for] loop of [from_vm_list]: the two variables it updates are
    the accumulator, and [break] ends the recursion. *)
Fixpoint scan (source_host target_host : string) (machines : list machine)
         (source_ip target_ip : option string)
  : outcome (option string * option string) :=
  match machines with
  | [] => Returns (source_ip, target_ip)
  | m :: rest =>
      match (if decide (hostname m = source_host)
             then match first_ip m with
                  | Returns a => Returns (Some a)
                  | Raises e => Raises e
                  end
             else Returns source_ip) with
      | Raises e => Raises e
      | Returns source_ip' =>
          match (if decide (hostname m = target_host)
                 then match first_ip m with
                      | Returns a => Returns (Some a)
                      | Raises e => Raises e
                      end
                 else Returns target_ip) with
          | Raises e => Raises e
          | Returns target_ip' =>
              if bool_decide (source_ip' ≠ None) && bool_decide (target_ip' ≠ None)
              then Returns (source_ip', target_ip')
              else scan source_host target_host rest source_ip' target_ip'
          end
      end
  end.

Definition from_vm_list (machines : list machine) (source_host target_host : string)
  : outcome t :=
  let vm_count := length machines in
  match scan source_host target_host machines None None with
  | Returns (source_ip, target_ip) => Returns (mk vm_count source_ip target_ip)
  | Raises e => Raises e
  end.

End MigrationInfo.

Module MigrationHelper.
Section Methods.

Variable spawn : list Call -> Call -> Completed.

(** [_LEAPP_TOOL] and [_REPO_DIR]: the path of [leapp-tool.py] and of
    the repository, both derived from the location of the module
    file. *)
Variables _LEAPP_TOOL _REPO_DIR : string.

(** [json.loads(leapp_output)["machines"]]: the parser of the standard
    library followed by the subscript.  It gives the records when the
    text has the shape of a listing and raises otherwise. *)
Variable loads_machines : string -> outcome (list MigrationInfo.machine).

(** An outcome that needs no state. *)
Definition lift {St A : Type} (r : outcome A) : M St A := fun s => (r, s).

Definition _run_leapp (args : list string) : M World string :=
  _run_command spawn (["sudo"; "/usr/bin/python2"; _LEAPP_TOOL] ++ args)
               _REPO_DIR false.

Definition _convert_vm_to_macrocontainer (source_host target_host : string)
  : M World string :=
  result <- _run_leapp ["migrate-machine"; "-t"; target_host; source_host] ;;
  print ("Redeployed " +:+ source_host +:+ " as macrocontainer on "
                       +:+ target_host) ;;;
  ret result.

Definition _get_migration_host_info (source_host target_host : string)
  : M World MigrationInfo.t :=
  leapp_output <- _run_leapp ["list-machines"; "--shallow"] ;;
  machines <- lift (loads_machines leapp_output) ;;
  lift (MigrationInfo.from_vm_list machines source_host target_host).

(** The helper holds a reference to the VM helper; its methods run on
    that object and the world. *)
Definition redeploy_as_macrocontainer (source_vm target_vm : string)
  : M (VirtualMachineHelper.t * World) MigrationInfo.t :=
  source_host <- VirtualMachineHelper.get_hostname source_vm ;;
  target_host <- VirtualMachineHelper.get_hostname target_vm ;;
  VirtualMachineHelper.in_world
    (_convert_vm_to_macrocontainer source_host target_host) ;;;
  VirtualMachineHelper.in_world
    (_get_migration_host_info source_host target_host).

End Methods.
End MigrationHelper.

(** ** Service status checking *)

Module RequestsHelper.

(** What the code reads of a [requests.Response]. *)
Record response : Type := mkResponse { status_code : Z; text : string }.

Section Methods.

(** The value type of [time.monotonic()] and of [wait_for_connection],
    with the addition and the comparison the code applies to them,
    and the text ["{}".format] gives a wait. *)
Context {Time : Type}.
Variable add : Time -> Time -> Time.
Variable ge : Time -> Time -> bool.
Variable format : Time -> string.

(** The reading of the clock at its [n]-th call, and the reply to
    the [n]-th request ([None]: [requests.get] raised). *)
Variable monotonic : nat -> Time.
Variable http_get : nat -> string -> option response.

Definition time_monotonic (w : World) : Time * World :=
  (monotonic (clock_reads w),
   mkWorld (spawned w) (requested w) (S (clock_reads w)) (printed w)).

(** [requests.get(service_url)] inside [try ... except Exception]. *)
Definition requests_get (url : string) (w : World) : option response * World :=
  (http_get (length (requested w)) url,
   mkWorld (spawned w) (requested w ++ [url]) (clock_reads w) (printed w)).

(** The [while True] loop of [get_response].  [fuel] bounds the
    number of attempts; [None] means the bound was reached with the
    loop still running. *)
Fixpoint poll (fuel : nat) (service_url fail_msg : string) (deadline : Time)
         (w : World) : option (outcome response * World) :=
  match fuel with
  | O => None
  | S fuel' =>
      match requests_get service_url w with
      | (Some r, w1) => Some (Returns r, w1)
      | (None, w1) =>
          let '(now, w2) := time_monotonic w1 in
          if ge now deadline then Some (Raises (AssertionError fail_msg), w2)
          else poll fuel' service_url fail_msg deadline w2
      end
  end.

Definition get_response (fuel : nat) (service_url : string)
           (wait_for_connection : option Time) (w : World)
  : option (outcome response * World) :=
  let '(start, w0) := time_monotonic w in
  match wait_for_connection with
  | None => poll fuel service_url "No response from service" start w0
  | Some wait =>
      poll fuel service_url
           ("No response from service within " +:+ format wait +:+ " seconds")
           (add start wait) w0
  end.

(** An element of [urls_to_check]: a string, or a pair of a string and
    a wait (a pair whose wait is [None] behaves as the string alone). *)
Inductive url_to_check : Type :=
| Url (service_url : string)
| UrlWait (service_url : string) (wait_for_connection : Time).

Definition url_of_check (u : url_to_check) : string :=
  match u with Url service_url => service_url | UrlWait service_url _ => service_url end.

Definition wait_of_check (u : url_to_check) : option Time :=
  match u with Url _ => None | UrlWait _ wait => Some wait end.

(** The [for] loop of [get_responses], with the dictionary built so
    far. *)
Fixpoint get_responses_loop (fuel : nat) (urls_to_check : list url_to_check)
         (responses : gmap string response) (w : World)
  : option (outcome (gmap string response) * World) :=
  match urls_to_check with
  | [] => Some (Returns responses, w)
  | u :: rest =>
      match get_response fuel (url_of_check u) (wait_of_check u) w with
      | None => None
      | Some (Raises e, w1) => Some (Raises e, w1)
      | Some (Returns r, w1) =>
          get_responses_loop fuel rest (<[url_of_check u := r]> responses) w1
      end
  end.

Definition get_responses (fuel : nat) (urls_to_check : list url_to_check)
           (w : World) : option (outcome (gmap string response) * World) :=
  get_responses_loop fuel urls_to_check ∅ w.

(** [assert_that(actual, equal_to(expected), reason)]: the
    [AssertionError] is represented by its [reason]; the description
    of the two values that hamcrest appends is left out. *)
Definition assert_that_equal_to {A : Type} `{EqDecision A}
           (actual expected : A) (reason : string) : M World unit :=
  if decide (actual = expected) then ret tt
  else raise (AssertionError reason).

Definition url_of (address tcp_port : string) : string :=
  "http://" +:+ address +:+ ":" +:+ tcp_port.

(** [tcp_port] is the port as ["{}".format] renders it. *)
Definition compare_redeployed_response (fuel : nat)
           (original_ip redeployed_ip tcp_port : string) (status : Z)
           (wait_for_target : option Time) (w : World)
  : option (outcome unit * World) :=
  let original_url := url_of original_ip tcp_port in
  match get_response fuel original_url None w with
  | None => None
  | Some (Raises e, w1) => Some (Raises e, w1)
  | Some (Returns original_response, w1) =>
      match (print ("Response received from " +:+ original_url) ;;;
             assert_that_equal_to (status_code original_response) status
                                  "Original status") w1 with
      | (Raises e, w2) => Some (Raises e, w2)
      | (Returns _, w2) =>
          let original_status := status_code original_response in
          let redeployed_url := url_of redeployed_ip tcp_port in
          match get_response fuel redeployed_url wait_for_target w2 with
          | None => None
          | Some (Raises e, w3) => Some (Raises e, w3)
          | Some (Returns redeployed_response, w3) =>
              Some ((print ("Response received from " +:+ redeployed_url) ;;;
                     assert_that_equal_to (status_code redeployed_response)
                                          original_status "Redeployed status" ;;;
                     assert_that_equal_to (text redeployed_response)
                                          (text original_response)
                                          "Same response") w3)
          end
      end
  end.

End Methods.
End RequestsHelper.

(** ** Test execution hooks *)

Module Hooks.

(** A callback registered on one of the two stacks of the context:
    the bound method [close] of the helper object at address [id]. *)
Inductive cleanup : Type :=
| HelperClose (id : nat).

(** The [context] object of the scenario runner.  Helper objects live
    in [objects] and are referred to by their index, so that the
    callback registered on the process-wide stack and
    [context.vm_helper] denote the same object.  An attribute that was
    not assigned yet is [None]. *)
Record context : Type := mk {
  _global_cleanup : option (list cleanup);
  scenario_cleanup : option (list cleanup);
  vm_helper : option nat;
  objects : list VirtualMachineHelper.t
}.


Section Hooks.

Variable _VM_DEFS : gmap string string.
Variable spawn : list Call -> Call -> Completed.

(** Calling a method of the helper object at address [id]. *)
Definition on_object {A : Type} (id : nat) (m : M (VirtualMachineHelper.t * World) A)
  : M (list VirtualMachineHelper.t * World) A :=
  fun '(objs, w) =>
    match objs !! id with
    | Some self => let '(r, (self', w')) := m (self, w) in (r, (<[id := self']> objs, w'))
    | None => (Raises (AttributeError "vm_helper"), (objs, w))
    end.

Definition invoke (cb : cleanup) : M (list VirtualMachineHelper.t * World) unit :=
  match cb with
  | HelperClose id => on_object id (VirtualMachineHelper.close _VM_DEFS spawn)
  end.

Definition on_objects {A : Type} (m : M (list VirtualMachineHelper.t * World) A)
  : M (context * World) A :=
  fun '(ctx, w) =>
    let '(r, (objs, w')) := m (objects ctx, w) in
    (r, (mk (_global_cleanup ctx) (scenario_cleanup ctx) (vm_helper ctx) objs, w')).

(** [subprocess.check_output(cmd)]: a non-zero exit status raises. *)
Definition check_output (cmd : list string) : M World string :=
  p <- subprocess_run spawn cmd None ;;
  if decide (returncode p = 0%Z) then ret (stdout p)
  else raise (CalledProcessError (returncode p) cmd).

Definition before_all : M (context * World) unit :=
  VirtualMachineHelper.in_world
    (check_output ["sudo"; "echo"; "Elevated permissions needed"]) ;;;
  fun '(ctx, w) =>
    (Returns tt, (mk (Some []) (scenario_cleanup ctx) (vm_helper ctx) (objects ctx), w)).

Definition before_scenario : M (context * World) unit :=
  fun '(ctx, w) =>
    let id := length (objects ctx) in
    let objs := objects ctx ++ [VirtualMachineHelper.init] in
    match _global_cleanup ctx with
    | None =>
        (Raises (AttributeError "_global_cleanup"),
         (mk None (Some []) (Some id) objs, w))
    | Some stack =>
        (Returns tt, (mk (Some (stack ++ [HelperClose id])) (Some []) (Some id) objs, w))
    end.

Definition after_scenario : M (context * World) unit :=
  fun '(ctx, w) =>
    match scenario_cleanup ctx with
    | None => (Raises (AttributeError "scenario_cleanup"), (ctx, w))
    | Some stack =>
        let '(r, (stack', (objs, w'))) :=
          ExitStack.close invoke (stack, (objects ctx, w)) in
        (r, (mk (_global_cleanup ctx) (Some stack') (vm_helper ctx) objs, w'))
    end.

Definition after_all : M (context * World) unit :=
  fun '(ctx, w) =>
    match _global_cleanup ctx with
    | None => (Raises (AttributeError "_global_cleanup"), (ctx, w))
    | Some stack =>
        let '(r, (stack', (objs, w'))) :=
          ExitStack.close invoke (stack, (objects ctx, w)) in
        (r, (mk (Some stack') (scenario_cleanup ctx) (vm_helper ctx) objs, w'))
    end.

(** What a feature step may do with the context: acquire a VM
    through [context.vm_helper], or opt in to eager cleanup with
    [context.scenario_cleanup.callback(context.vm_helper.close)]. *)
Inductive step : Type :=
| EnsureLocalVM (name definition : string) (destroy : bool)
| EagerCleanup.

Definition run_step (st : step) : M (context * World) unit :=
  fun '(ctx, w) =>
    match vm_helper ctx with
    | None => (Raises (AttributeError "vm_helper"), (ctx, w))
    | Some id =>
        match st with
        | EnsureLocalVM name definition destroy =>
            on_objects
              (on_object id (VirtualMachineHelper.ensure_local_vm
                               _VM_DEFS spawn name definition destroy))
              (ctx, w)
        | EagerCleanup =>
            match scenario_cleanup ctx with
            | None => (Raises (AttributeError "scenario_cleanup"), (ctx, w))
            | Some stack =>
                (Returns tt,
                 (mk (_global_cleanup ctx) (Some (stack ++ [HelperClose id]))
                     (vm_helper ctx) (objects ctx), w))
            end
        end
    end.

(** The steps of a scenario run in order; the first one that raises
    ends the scenario. *)
Fixpoint run_steps (steps : list step) : M (context * World) unit :=
  match steps with
  | [] => ret tt
  | st :: steps' => run_step st ;;; run_steps steps'
  end.

(** One scenario as the runner drives it: the scenario-start hook,
    the steps, and the scenario-end hook whether or not the steps
    passed.  The result is the outcome of the steps. *)
Definition run_scenario (steps : list step) (s : context * World)
  : outcome unit * (context * World) :=
  let '(_, s1) := before_scenario s in
  let '(r, s2) := run_steps steps s1 in
  let '(_, s3) := after_scenario s2 in
  (r, s3).

(** The scenarios of a run, one after the other, between the
    run-start and the run-end hook. *)
Definition run_scenarios (scenarios : list (list step)) (s : context * World)
  : context * World :=
  foldl (fun s steps => snd (run_scenario steps s)) s scenarios.

End Hooks.
End Hooks.

(** ** Counting the commands a VM definition received *)

(** The [vagrant] sub-commands issued in directory [vm_dir]. *)
Definition is_vagrant (sub vm_dir : string) (c : Call) : bool :=
  bool_decide (c = mkCall ["vagrant"; sub] (Some vm_dir)).

Definition count_vagrant (sub vm_dir : string) (calls : list Call) : nat :=
  length (filter (fun c => is_vagrant sub vm_dir c = true) calls).

(** The world after [vagrant sub] was run from [vm_dir] with
    [ignore_errors=True] and [line] was printed. *)
Definition after_teardown (sub vm_dir line : string) (w : World) : World :=
  mkWorld (spawned w ++ [mkCall ["vagrant"; sub] (Some vm_dir)])
          (requested w) (clock_reads w)
          (printed w ++ ["  Running " +:+ repr_list ["vagrant"; sub]
                                      +:+ " in " +:+ vm_dir; line]).

(** The world after [vagrant up] was run from [vm_dir] and succeeded. *)
Definition after_up (hostname vm_dir : string) (w : World) : World :=
  mkWorld (spawned w ++ [mkCall ["vagrant"; "up"] (Some vm_dir)])
          (requested w) (clock_reads w)
          (printed w ++ ["  Running " +:+ repr_list ["vagrant"; "up"]
                                      +:+ " in " +:+ vm_dir;
                         "Started " +:+ hostname +:+ " VM instance"]).

(** The elevation check of [before_all]. *)
Definition sudo_check : Call :=
  mkCall ["sudo"; "echo"; "Elevated permissions needed"] None.

(** The world after [attempts] further requests for [url] and [reads]
    further readings of the clock. *)
Definition after_attempts (attempts reads : nat) (url : string) (w : World) : World :=
  mkWorld (spawned w) (requested w ++ replicate attempts url)
          (clock_reads w + reads) (printed w).

(** The world after one more line was printed. *)
Definition with_line (line : string) (w : World) : World :=
  mkWorld (spawned w) (requested w) (clock_reads w) (printed w ++ [line]).

(** The state of the context between hooks of a run: the process-wide
    stack holds the [close] of every helper created so far, oldest
    first, and every helper has a teardown callback for each of its
    names. *)
Definition context_consistent (ctx : Hooks.context) : Prop :=
  Hooks._global_cleanup ctx
  = Some (map Hooks.HelperClose (seq 0 (length (Hooks.objects ctx))))
  /\ Forall VirtualMachineHelper.teardown_registered (Hooks.objects ctx).

(** The helper object after its [close]: nothing registered. *)
Definition released : VirtualMachineHelper.t := VirtualMachineHelper.mk ∅ [].

(** ** Sample environments *)

(** Two VM definitions, and three backends: one on which every command
    succeeds, one on which every command exits with status 1, and one
    on which exactly [vagrant halt] and [vagrant destroy] fail. *)
Definition sample_defs : gmap string string :=
  {[ "leapp-tests-d1" := "/vmdefs/d1"; "leapp-tests-d2" := "/vmdefs/d2" ]}.

Definition all_succeed : list Call -> Call -> Completed :=
  fun _ _ => mkCompleted 0 "done" "".

Definition all_fail : list Call -> Call -> Completed :=
  fun _ _ => mkCompleted 1 "" "failed".

Definition teardowns_fail : list Call -> Call -> Completed :=
  fun _ c =>
    if bool_decide (call_cmd c = ["vagrant"; "halt"])
       || bool_decide (call_cmd c = ["vagrant"; "destroy"])
    then mkCompleted 1 "" "failed"
    else mkCompleted 0 "done" "".

(** A clock that advances by one second per reading, and two web
    services: the original answers at once; the redeployed one refuses
    the first two requests made and then answers, either with the same
    body or with another one. *)
Definition sample_clock (n : nat) : Z := Z.of_nat n.

Definition sample_service (redeployed_body : string) (n : nat) (url : string)
  : option RequestsHelper.response :=
  if decide (url = "http://10.0.0.1:80") then
    Some (RequestsHelper.mkResponse 200 "hello")
  else if decide (n < 3) then None
  else Some (RequestsHelper.mkResponse 200 redeployed_body).

(** A service that never answers. *)
Definition no_service (n : nat) (url : string) : option RequestsHelper.response :=
  None.

(** * Properties *)

(** ** The exit stack *)

Section ExitStackFacts.

Context {S A : Type}.
Variable invoke : A -> M S unit.

Lemma unwind_app (l1 l2 : list A) (pending : option exn) (s : S) :
  ExitStack.unwind invoke (l1 ++ l2) pending s =
  let '(pending', s') := ExitStack.unwind invoke l1 pending s in
  ExitStack.unwind invoke l2 pending' s'.
Proof.
  revert pending s.
  induction l1 as [|cb l1 IH]; intros pending s; simpl.
  - reflexivity.
  - destruct (invoke cb s) as [[[]|e] s']; apply IH.
Qed.

(** Unwinding with the instrumented callbacks notes each callback of
    the list to do, in that order, whether or not it raises. *)
Lemma unwind_traced_ran (todo : list A) (pending : option exn) (s : S)
      (ran : list A) :
  snd (snd (ExitStack.unwind (ExitStack.traced invoke) todo pending (s, ran)))
  = ran ++ todo.
Proof.
  revert pending s ran.
  induction todo as [|cb todo IH]; intros pending s ran; simpl.
  - by rewrite app_nil_r.
  - destruct (invoke cb s) as [[[]|e] s']; rewrite IH, <- app_assoc; done.
Qed.

(** The instrumentation does not change what the callbacks do. *)
Lemma unwind_traced_state (todo : list A) (pending : option exn) (s : S)
      (ran : list A) :
  let '(p, (s', _)) :=
    ExitStack.unwind (ExitStack.traced invoke) todo pending (s, ran) in
  ExitStack.unwind invoke todo pending s = (p, s').
Proof.
  revert pending s ran.
  induction todo as [|cb todo IH]; intros pending s ran; simpl.
  - reflexivity.
  - destruct (invoke cb s) as [[[]|e] s']; apply IH.
Qed.

Lemma register_all_spec (cbs stack : list A) (s : S) :
  ExitStack.register_all cbs (stack, s) = (Returns tt, (stack ++ cbs, s)).
Proof.
  revert stack.
  induction cbs as [|cb cbs IH]; intros stack; simpl.
  - by rewrite app_nil_r.
  - unfold bind; simpl. rewrite IH, <- app_assoc. done.
Qed.

Lemma close_stack_empty (stack : list A) (s : S) :
  fst (snd (ExitStack.close invoke (stack, s))) = [].
Proof.
  unfold ExitStack.close.
  by destruct (ExitStack.unwind invoke (rev stack) None s) as [[e|] s'].
Qed.

Lemma close_empty (s : S) :
  ExitStack.close invoke ([], s) = (Returns tt, ([], s)).
Proof. reflexivity. Qed.

End ExitStackFacts.

(** C3.  After any sequence of [callback] registrations on an empty
    stack, [close] runs exactly the registered callbacks, in the
    reverse of the order of registration, and leaves the stack empty;
    a second [close] of the same stack returns without running
    anything.  The callbacks are arbitrary and may raise. *)
Theorem close_runs_in_reverse_order_once
        {S A : Type} (invoke : A -> M S unit) (cbs : list A) (s : S) :
  let registered :=
    snd (ExitStack.register_all cbs ([], (s, @nil A))) in
  let first := ExitStack.close (ExitStack.traced invoke) registered in
  let second := ExitStack.close (ExitStack.traced invoke) (snd first) in
  fst registered = cbs
  /\ fst (snd first) = []
  /\ snd (snd (snd first)) = rev cbs
  /\ second = (Returns tt, snd first).
Proof.
  simpl. rewrite register_all_spec. simpl.
  unfold ExitStack.close.
  pose proof (unwind_traced_ran invoke (rev cbs) None s []) as Hran.
  destruct (ExitStack.unwind (ExitStack.traced invoke) (rev cbs) None (s, []))
    as [[e|] [s' ran]]; simpl in *; subst ran; auto.
Qed.

(** ** The virtual machine helper *)

Ltac unfold_monad :=
  unfold bind, ret, raise, print, subprocess_run,
    VirtualMachineHelper.in_world, VirtualMachineHelper.on_machines,
    VirtualMachineHelper.on_resource_manager,
    VirtualMachineHelper.machines_pop, VirtualMachineHelper.machines_set,
    ExitStack.callback in *.

Section HelperFacts.

Variable _VM_DEFS : gmap string string.
Variable spawn : list Call -> Call -> Completed.

Abbreviation _run_vagrant := (VirtualMachineHelper._run_vagrant _VM_DEFS spawn).
Abbreviation _vm_up := (VirtualMachineHelper._vm_up _VM_DEFS spawn).
Abbreviation _vm_halt := (VirtualMachineHelper._vm_halt _VM_DEFS spawn).
Abbreviation _vm_destroy := (VirtualMachineHelper._vm_destroy _VM_DEFS spawn).
Abbreviation invoke := (VirtualMachineHelper.invoke _VM_DEFS spawn).
Abbreviation ensure_local_vm := (VirtualMachineHelper.ensure_local_vm _VM_DEFS spawn).
Abbreviation close := (VirtualMachineHelper.close _VM_DEFS spawn).

(** With [ignore_errors=True] the command runner returns the
    captured output whatever the exit status. *)
Lemma run_command_ignoring (cmd : list string) (work_dir : string) (w : World) :
  _run_command spawn cmd work_dir true w =
  (Returns (stdout (spawn (spawned w) (mkCall cmd (Some work_dir)))),
   mkWorld (spawned w ++ [mkCall cmd (Some work_dir)])
           (requested w) (clock_reads w)
           (printed w ++ ["  Running " +:+ repr_list cmd +:+ " in " +:+ work_dir])).
Proof.
  unfold _run_command. unfold_monad. simpl.
  by destruct (decide _).
Qed.

Lemma vm_halt_registered (name hostname vm_dir : string)
      (machines : gmap string string) (w : World) :
  machines !! name = Some hostname ->
  _VM_DEFS !! hostname = Some vm_dir ->
  _vm_halt name (machines, w) =
  (Returns (stdout (spawn (spawned w) (mkCall ["vagrant"; "halt"] (Some vm_dir)))),
   (delete name machines,
    after_teardown "halt" vm_dir ("Suspended " +:+ hostname +:+ " VM instance") w)).
Proof.
  intros Hname Hdef.
  unfold VirtualMachineHelper._vm_halt, VirtualMachineHelper._run_vagrant.
  unfold_monad. rewrite Hname, Hdef, run_command_ignoring.
  unfold after_teardown. cbn [spawned requested clock_reads printed].
  by rewrite <- app_assoc.
Qed.

Lemma vm_destroy_registered (name hostname vm_dir : string)
      (machines : gmap string string) (w : World) :
  machines !! name = Some hostname ->
  _VM_DEFS !! hostname = Some vm_dir ->
  _vm_destroy name (machines, w) =
  (Returns (stdout (spawn (spawned w) (mkCall ["vagrant"; "destroy"] (Some vm_dir)))),
   (delete name machines,
    after_teardown "destroy" vm_dir ("Destroyed " +:+ hostname +:+ " VM instance") w)).
Proof.
  intros Hname Hdef.
  unfold VirtualMachineHelper._vm_destroy, VirtualMachineHelper._run_vagrant.
  unfold_monad. rewrite Hname, Hdef, run_command_ignoring.
  unfold after_teardown. cbn [spawned requested clock_reads printed].
  by rewrite <- app_assoc.
Qed.

(** A name that is not registered: [pop] raises before anything is
    run. *)
Lemma vm_destroy_unregistered (name : string)
      (machines : gmap string string) (w : World) :
  machines !! name = None ->
  _vm_destroy name (machines, w) = (Raises (KeyError name), (machines, w)).
Proof.
  intros Hname. unfold VirtualMachineHelper._vm_destroy. unfold_monad.
  by rewrite Hname.
Qed.

Lemma vm_halt_unregistered (name : string)
      (machines : gmap string string) (w : World) :
  machines !! name = None ->
  _vm_halt name (machines, w) = (Raises (KeyError name), (machines, w)).
Proof.
  intros Hname. unfold VirtualMachineHelper._vm_halt. unfold_monad.
  by rewrite Hname.
Qed.

(** Whatever a teardown callback does, the name map afterwards is
    the one before without the callback's name. *)
Lemma invoke_machines (cb : VirtualMachineHelper.teardown)
      (machines : gmap string string) (w : World) :
  fst (snd (invoke cb (machines, w))) =
  delete (VirtualMachineHelper.teardown_name cb) machines.
Proof.
  destruct cb as [name|name]; simpl;
    unfold VirtualMachineHelper._vm_halt, VirtualMachineHelper._vm_destroy,
      VirtualMachineHelper._run_vagrant; unfold_monad;
    (destruct (machines !! name) as [hostname|] eqn:Hname;
     [|by rewrite delete_id]);
    (destruct (_VM_DEFS !! hostname) as [vm_dir|]; [|done]);
    by rewrite run_command_ignoring.
Qed.

End HelperFacts.

Lemma omap_agree {A B : Type} (f g : A -> option B) (l : list A) :
  Forall (fun x => f x = g x) l -> omap f l = omap g l.
Proof.
  induction 1 as [|x l Hx _ IH]; simpl; [done|].
  rewrite Hx. destruct (g x); [f_equal|]; exact IH.
Qed.

Lemma flat_map_agree {A B : Type} (f g : A -> list B) (l : list A) :
  Forall (fun x => f x = g x) l -> flat_map f l = flat_map g l.
Proof.
  induction 1 as [|x l Hx _ IH]; simpl; [done|]. by rewrite Hx, IH.
Qed.

Section TeardownFacts.

Variable _VM_DEFS : gmap string string.
Variable spawn : list Call -> Call -> Completed.

Abbreviation teardown_call := (VirtualMachineHelper.teardown_call _VM_DEFS).
Abbreviation teardown_lines := (VirtualMachineHelper.teardown_lines _VM_DEFS).
Abbreviation teardown_name := VirtualMachineHelper.teardown_name.

Lemma teardown_call_delete (machines : gmap string string) (name : string)
      (cb : VirtualMachineHelper.teardown) :
  teardown_name cb ≠ name ->
  teardown_call (delete name machines) cb = teardown_call machines cb
  /\ teardown_lines (delete name machines) cb = teardown_lines machines cb.
Proof.
  intros Hne.
  unfold VirtualMachineHelper.teardown_call, VirtualMachineHelper.teardown_lines.
  by rewrite lookup_delete_ne.
Qed.

(** A resolvable callback returns, runs its command and prints its
    lines, whatever the exit status of the command. *)
Lemma invoke_resolvable (cb : VirtualMachineHelper.teardown)
      (machines : gmap string string) (w : World) (c : Call) :
  teardown_call machines cb = Some c ->
  exists w',
    VirtualMachineHelper.invoke _VM_DEFS spawn cb (machines, w)
    = (Returns tt, (delete (teardown_name cb) machines, w'))
    /\ spawned w' = spawned w ++ [c]
    /\ printed w' = printed w ++ teardown_lines machines cb.
Proof.
  unfold VirtualMachineHelper.teardown_call, VirtualMachineHelper.teardown_lines.
  destruct (machines !! teardown_name cb) as [hostname|] eqn:Hname; [|done].
  destruct (_VM_DEFS !! hostname) as [vm_dir|] eqn:Hdef; [|done].
  intros [= <-].
  destruct cb as [name|name]; simpl in *; unfold bind.
  - rewrite (vm_halt_registered _ _ _ _ _ _ _ Hname Hdef).
    eexists; split; [reflexivity|]. done.
  - rewrite (vm_destroy_registered _ _ _ _ _ _ _ Hname Hdef).
    eexists; split; [reflexivity|]. done.
Qed.

Lemma unwind_resolvable (todo : list VirtualMachineHelper.teardown) :
  forall (machines : gmap string string) (w : World) (pending : option exn),
    NoDup (map teardown_name todo) ->
    Forall (fun cb => is_Some (teardown_call machines cb)) todo ->
    exists w',
      ExitStack.unwind (VirtualMachineHelper.invoke _VM_DEFS spawn) todo pending
                       (machines, w)
      = (pending, (foldl (fun m cb => delete (teardown_name cb) m) machines todo, w'))
      /\ spawned w' = spawned w ++ omap (teardown_call machines) todo
      /\ printed w' = printed w ++ flat_map (teardown_lines machines) todo.
Proof.
  induction todo as [|cb todo IH]; intros machines w pending Hnodup Hall.
  - exists w. simpl. by rewrite !app_nil_r.
  - simpl in Hnodup. apply NoDup_cons in Hnodup as [Hfresh Hnodup].
    apply Forall_cons in Hall as [[c Hc] Hall].
    destruct (invoke_resolvable cb machines w c Hc) as (w1 & Hrun & Hsp & Hpr).
    assert (Hrest : Forall (fun cb' => teardown_name cb' ≠ teardown_name cb) todo).
    { apply Forall_forall. intros cb' Hin Heq. apply Hfresh.
      rewrite <- Heq. by apply list_elem_of_fmap_2. }
    destruct (IH (delete (teardown_name cb) machines) w1 pending Hnodup)
      as (w2 & Hunwind & Hsp2 & Hpr2).
    { rewrite Forall_forall in Hall, Hrest. apply Forall_forall.
      intros cb' Hin.
      destruct (teardown_call_delete machines _ cb' (Hrest cb' Hin)) as [-> _].
      by apply Hall. }
    exists w2. simpl. rewrite Hrun, Hunwind, Hsp2, Hpr2, Hsp, Hpr, Hc.
    repeat split.
    + rewrite <- app_assoc. simpl. do 2 f_equal.
      apply omap_agree. eapply Forall_impl; [exact Hrest|].
      intros cb' Hne. by destruct (teardown_call_delete machines _ cb' Hne).
    + rewrite <- app_assoc. f_equal. f_equal.
      apply flat_map_agree. eapply Forall_impl; [exact Hrest|].
      intros cb' Hne. by destruct (teardown_call_delete machines _ cb' Hne).
Qed.

End TeardownFacts.

(** A teardown callback returns or raises [KeyError]: the exit status
    of its command never becomes an exception. *)
Lemma invoke_outcome (defs : gmap string string)
      (spawn : list Call -> Call -> Completed)
      (cb : VirtualMachineHelper.teardown)
      (machines : gmap string string) (w : World) :
  fst (VirtualMachineHelper.invoke defs spawn cb (machines, w)) = Returns tt
  \/ exists key,
      fst (VirtualMachineHelper.invoke defs spawn cb (machines, w))
      = Raises (KeyError key).
Proof.
  destruct cb as [name|name]; simpl;
    unfold VirtualMachineHelper._vm_halt, VirtualMachineHelper._vm_destroy,
      VirtualMachineHelper._run_vagrant; unfold_monad;
    (destruct (machines !! name) as [hostname|]; [|right; by eexists]);
    (destruct (defs !! hostname) as [vm_dir|]; [|right; by eexists]);
    rewrite run_command_ignoring; by left.
Qed.

Lemma unwind_pending (defs : gmap string string)
      (spawn : list Call -> Call -> Completed)
      (todo : list VirtualMachineHelper.teardown) :
  forall (pending : option exn) (machines : gmap string string) (w : World),
    pending = None \/ (exists key, pending = Some (KeyError key)) ->
    fst (ExitStack.unwind (VirtualMachineHelper.invoke defs spawn)
                          todo pending (machines, w)) = None
    \/ exists key,
        fst (ExitStack.unwind (VirtualMachineHelper.invoke defs spawn)
                              todo pending (machines, w))
        = Some (KeyError key).
Proof.
  induction todo as [|cb todo IH]; intros pending machines w Hpending; simpl.
  - exact Hpending.
  - pose proof (invoke_outcome defs spawn cb machines w) as Hcb.
    destruct (VirtualMachineHelper.invoke _ _ _ _) as [[[]|e] [m1 w1]];
      simpl in Hcb.
    + by apply IH.
    + apply IH. right. destruct Hcb as [Hcb|[key Hcb]]; [done|].
      exists key. by injection Hcb as ->.
Qed.

Lemma omap_all_some {A B : Type} (f : A -> option B) (l : list A) :
  Forall (fun x => is_Some (f x)) l -> map Some (omap f l) = map f l.
Proof.
  induction 1 as [|x l [y Hy] _ IH]; simpl; [done|].
  rewrite Hy. simpl. f_equal. exact IH.
Qed.

Lemma teardowns_resolvable_spec (defs : gmap string string)
      (self : VirtualMachineHelper.t) :
  VirtualMachineHelper.teardowns_resolvable defs self = true ->
  NoDup (map VirtualMachineHelper.teardown_name
             (rev (VirtualMachineHelper._resource_manager self)))
  /\ Forall (fun cb => is_Some (VirtualMachineHelper.teardown_call
                                  defs (VirtualMachineHelper._machines self) cb))
            (rev (VirtualMachineHelper._resource_manager self)).
Proof.
  unfold VirtualMachineHelper.teardowns_resolvable.
  intros [Hnodup Hall]%andb_true_iff.
  apply bool_decide_eq_true in Hnodup. split.
  - rewrite map_rev. by apply NoDup_ListNoDup, NoDup_rev, NoDup_ListNoDup.
  - apply Forall_rev, Forall_forall. intros cb Hin.
    rewrite forallb_forall in Hall.
    apply list_elem_of_In, Hall, bool_decide_eq_true in Hin. done.
Qed.

(** What a teardown callback does to the helper and the world does
    not depend on how its command completes: the output is dropped
    and the exit status is never looked at again. *)
Lemma invoke_any_backend (defs : gmap string string)
      (spawn spawn' : list Call -> Call -> Completed)
      (cb : VirtualMachineHelper.teardown)
      (machines : gmap string string) (w : World) :
  VirtualMachineHelper.invoke defs spawn cb (machines, w)
  = VirtualMachineHelper.invoke defs spawn' cb (machines, w).
Proof.
  destruct cb as [name|name]; simpl;
    unfold VirtualMachineHelper._vm_halt, VirtualMachineHelper._vm_destroy,
      VirtualMachineHelper._run_vagrant; unfold_monad;
    (destruct (machines !! name) as [hostname|]; [|done]);
    (destruct (defs !! hostname) as [vm_dir|]; [|done]);
    by rewrite !run_command_ignoring.
Qed.

Lemma unwind_any_backend (defs : gmap string string)
      (spawn spawn' : list Call -> Call -> Completed)
      (todo : list VirtualMachineHelper.teardown) :
  forall (pending : option exn) (s : gmap string string * World),
    ExitStack.unwind (VirtualMachineHelper.invoke defs spawn) todo pending s
    = ExitStack.unwind (VirtualMachineHelper.invoke defs spawn') todo pending s.
Proof.
  induction todo as [|cb todo IH]; intros pending [machines w]; simpl; [done|].
  rewrite (invoke_any_backend defs spawn spawn').
  destruct (VirtualMachineHelper.invoke _ _ _ _) as [[[]|e] s1]; apply IH.
Qed.

(** C4, as stated, fails on its second half.  A teardown action that
    fails is raised to the caller of the unwinding: after the name
    ["a"] was acquired twice, the second halt finds the name already
    removed, and [close] re-raises its [KeyError] once every action has
    run.  And a command that fails is not logged: the lines printed by
    [close] are the same on a backend where [vagrant halt] and
    [vagrant destroy] exit with status 1 as on one where they
    succeed. *)
Lemma close_reraises_key_error_and_logs_no_failure :
  let acquired :=
    VirtualMachineHelper.run_ops
      sample_defs all_succeed
      [VirtualMachineHelper.EnsureVM "a" "d1" false;
       VirtualMachineHelper.EnsureVM "a" "d2" false]
      (VirtualMachineHelper.init, fresh_world) in
  let self :=
    VirtualMachineHelper.mk
      {[ "src" := "leapp-tests-d1"; "dst" := "leapp-tests-d2" ]}
      [VirtualMachineHelper.Halt "src"; VirtualMachineHelper.Destroy "dst"] in
  VirtualMachineHelper._resource_manager (fst acquired)
  = [VirtualMachineHelper.Halt "a"; VirtualMachineHelper.Halt "a"]
  /\ fst (VirtualMachineHelper.close sample_defs all_succeed acquired)
     = Raises (KeyError "a")
  /\ printed (snd (snd (VirtualMachineHelper.close sample_defs teardowns_fail
                                                   (self, fresh_world))))
     = printed (snd (snd (VirtualMachineHelper.close sample_defs all_succeed
                                                     (self, fresh_world))))
  /\ ~ (forall (defs : gmap string string) (spawn : list Call -> Call -> Completed)
               (s : VirtualMachineHelper.t * World),
          fst (VirtualMachineHelper.close defs spawn s) = Returns tt).
Proof.
  intros acquired self.
  assert (Hraises : fst (VirtualMachineHelper.close sample_defs all_succeed acquired)
                    = Raises (KeyError "a")) by (vm_compute; reflexivity).
  split; [vm_compute; reflexivity|]. split; [exact Hraises|].
  split; [vm_compute; reflexivity|].
  intros Hclaim. rewrite (Hclaim sample_defs all_succeed acquired) in Hraises.
  discriminate Hraises.
Qed.

(** C4, amended.  Closing an exit stack runs every registered callback,
    in reverse order of registration, also when callbacks raise on the
    way: nothing is skipped.  Closing a helper returns normally or
    raises the [KeyError] of a callback whose name was no longer
    registered; the exit status of a [vagrant halt] or
    [vagrant destroy] command that ran is never raised, and nothing of
    it is logged: the result of [close], the helper, the commands run
    and the lines printed are the same whatever the commands hand
    back.  On a helper whose callbacks name distinct registered
    machines, [close] returns normally: each callback issues its
    command and prints its two lines. *)
Theorem close_runs_every_teardown_and_ignores_command_failures
        {S A : Type} (invoke : A -> M S unit) (stack : list A) (s : S)
        (defs : gmap string string) (spawn : list Call -> Call -> Completed)
        (any : VirtualMachineHelper.t) (w0 : World)
        (self : VirtualMachineHelper.t) (w : World)
        (Hres : VirtualMachineHelper.teardowns_resolvable defs self = true) :
  snd (snd (snd (ExitStack.close (ExitStack.traced invoke) (stack, (s, [])))))
  = rev stack
  /\ (fst (VirtualMachineHelper.close defs spawn (any, w0)) = Returns tt
      \/ exists key : string,
          fst (VirtualMachineHelper.close defs spawn (any, w0))
          = Raises (KeyError key))
  /\ (forall spawn' : list Call -> Call -> Completed,
         VirtualMachineHelper.close defs spawn' (any, w0)
         = VirtualMachineHelper.close defs spawn (any, w0))
  /\ exists (self' : VirtualMachineHelper.t) (w' : World) (calls : list Call),
      VirtualMachineHelper.close defs spawn (self, w) = (Returns tt, (self', w'))
      /\ VirtualMachineHelper._resource_manager self' = []
      /\ spawned w' = spawned w ++ calls
      /\ map Some calls
         = map (VirtualMachineHelper.teardown_call
                  defs (VirtualMachineHelper._machines self))
               (rev (VirtualMachineHelper._resource_manager self))
      /\ printed w'
         = printed w
           ++ flat_map (VirtualMachineHelper.teardown_lines
                          defs (VirtualMachineHelper._machines self))
                       (rev (VirtualMachineHelper._resource_manager self)).
Proof.
  split.
  - unfold ExitStack.close.
    pose proof (unwind_traced_ran invoke (rev stack) None s []) as Hran.
    by destruct (ExitStack.unwind _ _ _ _) as [[e|] [s' ran]]; simpl in *.
  - split; [|split].
    { unfold VirtualMachineHelper.close, VirtualMachineHelper.on_resource_manager,
        ExitStack.close.
      pose proof (unwind_pending defs spawn
                    (rev (VirtualMachineHelper._resource_manager any)) None
                    (VirtualMachineHelper._machines any) w0 (or_introl eq_refl))
        as Hpending.
      destruct (ExitStack.unwind _ _ _ _) as [[e|] [m1 w1]]; simpl in *;
        [|by left].
      destruct Hpending as [Hp|[key Hp]]; [done|].
      right. exists key. by injection Hp as ->. }
    { intros spawn'.
      unfold VirtualMachineHelper.close, VirtualMachineHelper.on_resource_manager,
        ExitStack.close.
      by rewrite (unwind_any_backend defs spawn' spawn). }
    destruct (teardowns_resolvable_spec defs self Hres) as [Hnodup Hall].
    destruct (unwind_resolvable defs spawn _ (VirtualMachineHelper._machines self)
                                w None Hnodup Hall)
      as (w' & Hunwind & Hsp & Hpr).
    eexists _, w', _.
    unfold VirtualMachineHelper.close, VirtualMachineHelper.on_resource_manager,
      ExitStack.close.
    rewrite Hunwind. split; [reflexivity|].
    split; [reflexivity|]. split; [exact Hsp|].
    split; [by apply omap_all_some | exact Hpr].
Qed.

Lemma close_runs_every_teardown_and_ignores_command_failures_witness :
  let self :=
    VirtualMachineHelper.mk
      {[ "src" := "leapp-tests-d1"; "dst" := "leapp-tests-d2" ]}
      [VirtualMachineHelper.Halt "src"; VirtualMachineHelper.Destroy "dst"] in
  let stale :=
    VirtualMachineHelper.mk
      {[ "a" := "leapp-tests-d2" ]}
      [VirtualMachineHelper.Halt "a"; VirtualMachineHelper.Halt "a"] in
  let raising (cb : nat) : M unit unit :=
    if Nat.even cb then raise IndexError else ret tt in
  VirtualMachineHelper.teardowns_resolvable sample_defs self = true
  /\ snd (snd (snd (ExitStack.close (ExitStack.traced raising)
                                    ([1; 2; 3], (tt, [])))))
     = [3; 2; 1]
  /\ (fst (VirtualMachineHelper.close sample_defs all_fail (stale, fresh_world))
      = Returns tt
      \/ exists key : string,
          fst (VirtualMachineHelper.close sample_defs all_fail (stale, fresh_world))
          = Raises (KeyError key))
  /\ (forall spawn' : list Call -> Call -> Completed,
         VirtualMachineHelper.close sample_defs spawn' (stale, fresh_world)
         = VirtualMachineHelper.close sample_defs all_fail (stale, fresh_world))
  /\ exists self' w' calls,
      VirtualMachineHelper.close sample_defs all_fail (self, fresh_world)
      = (Returns tt, (self', w'))
      /\ VirtualMachineHelper._resource_manager self' = []
      /\ spawned w' = spawned fresh_world ++ calls
      /\ map Some calls
         = [Some (mkCall ["vagrant"; "destroy"] (Some "/vmdefs/d2"));
            Some (mkCall ["vagrant"; "halt"] (Some "/vmdefs/d1"))]
      /\ printed w'
         = ["  Running ['vagrant', 'destroy'] in /vmdefs/d2";
            "Destroyed leapp-tests-d2 VM instance";
            "  Running ['vagrant', 'halt'] in /vmdefs/d1";
            "Suspended leapp-tests-d1 VM instance"].
Proof.
  intros self stale raising.
  split; [vm_compute; reflexivity|].
  exact (close_runs_every_teardown_and_ignores_command_failures
           raising [1; 2; 3] tt sample_defs all_fail stale fresh_world
           self fresh_world eq_refl).
Defined.

(** C1 (the code departs from the claim).  On a fresh helper,
    [ensure_local_vm] with [destroy=True] for a known definition does
    not succeed: the preliminary [_vm_destroy(hostname)] looks the
    hostname up in the still empty name map, so [pop] raises
    [KeyError] before any command is run, and neither the helper nor
    the world changes.  The [ignore_errors=True] of the destroy
    command is never reached. *)
Theorem ensure_destroy_on_fresh_helper_raises
        (defs : gmap string string) (spawn : list Call -> Call -> Completed)
        (name definition : string) (w : World)
        (Hknown : is_Some (defs !! (_VM_HOSTNAME_PREFIX +:+ definition))) :
  VirtualMachineHelper.ensure_local_vm
    defs spawn name definition true (VirtualMachineHelper.init, w)
  = (Raises (KeyError (_VM_HOSTNAME_PREFIX +:+ definition)),
     (VirtualMachineHelper.init, w)).
Proof.
  unfold VirtualMachineHelper.ensure_local_vm.
  unfold bind at 1. destruct (decide _) as [_|Hno]; [|done].
  unfold ret at 1. unfold bind at 1 2.
  unfold VirtualMachineHelper.on_machines at 1.
  cbn [VirtualMachineHelper._machines VirtualMachineHelper.init].
  by rewrite vm_destroy_unregistered.
Qed.

Lemma ensure_destroy_on_fresh_helper_raises_witness :
  is_Some (sample_defs !! (_VM_HOSTNAME_PREFIX +:+ "d2"))
  /\ VirtualMachineHelper.ensure_local_vm
       sample_defs all_succeed "dst" "d2" true
       (VirtualMachineHelper.init, fresh_world)
     = (Raises (KeyError "leapp-tests-d2"),
        (VirtualMachineHelper.init, fresh_world)).
Proof.
  assert (Hknown : is_Some (sample_defs !! (_VM_HOSTNAME_PREFIX +:+ "d2")))
    by (vm_compute; eauto).
  split; [exact Hknown|].
  exact (ensure_destroy_on_fresh_helper_raises
           sample_defs all_succeed "dst" "d2" fresh_world Hknown).
Defined.

Section RegistryFacts.

Variable _VM_DEFS : gmap string string.
Variable spawn : list Call -> Call -> Completed.

Abbreviation ensure_local_vm := (VirtualMachineHelper.ensure_local_vm _VM_DEFS spawn).
Abbreviation get_hostname := VirtualMachineHelper.get_hostname.
Abbreviation close := (VirtualMachineHelper.close _VM_DEFS spawn).
Abbreviation run_ops := (VirtualMachineHelper.run_ops _VM_DEFS spawn).

(** [_vm_up] registers the name exactly when the command succeeds. *)
Lemma vm_up_cases (name hostname : string) (machines : gmap string string)
      (w : World) :
  let '(r, (machines', _)) :=
    VirtualMachineHelper._vm_up _VM_DEFS spawn name hostname (machines, w) in
  (succeeded r = true /\ machines' = <[name := hostname]> machines)
  \/ (succeeded r = false /\ machines' = machines).
Proof.
  unfold VirtualMachineHelper._vm_up, VirtualMachineHelper._run_vagrant.
  destruct (_VM_DEFS !! hostname) as [vm_dir|]; unfold_monad; [|by right].
  unfold _run_command; unfold_monad; simpl.
  destruct (decide _); simpl; [by left | by right].
Qed.

Lemma vm_destroy_machines (name : string) (machines : gmap string string)
      (w : World) :
  fst (snd (VirtualMachineHelper._vm_destroy _VM_DEFS spawn name (machines, w)))
  = delete name machines.
Proof.
  pose proof (invoke_machines _VM_DEFS spawn
                (VirtualMachineHelper.Destroy name) machines w) as H.
  simpl in H. unfold bind in H.
  by destruct (VirtualMachineHelper._vm_destroy _ _ _ _) as [[out|e] [m' w']].
Qed.

(** What [ensure_local_vm] leaves behind.  When it returns, the name
    is mapped to the hostname of the definition and a callback for
    the name is the newest on the stack; when it raises, the stack
    is as before.  Either way no other name was added to the map. *)
Lemma ensure_local_vm_cases (name definition : string) (destroy : bool)
      (self : VirtualMachineHelper.t) (w : World) :
  let hostname := _VM_HOSTNAME_PREFIX +:+ definition in
  let before :=
    if destroy then delete hostname (VirtualMachineHelper._machines self)
    else VirtualMachineHelper._machines self in
  let '(r, (self', _)) := ensure_local_vm name definition destroy (self, w) in
  (r = Returns tt
   /\ VirtualMachineHelper._machines self' = <[name := hostname]> before
   /\ VirtualMachineHelper._resource_manager self'
      = VirtualMachineHelper._resource_manager self
        ++ [if destroy then VirtualMachineHelper.Destroy name
            else VirtualMachineHelper.Halt name])
  \/ (succeeded r = false
      /\ (VirtualMachineHelper._machines self' = VirtualMachineHelper._machines self
          \/ VirtualMachineHelper._machines self' = before)
      /\ VirtualMachineHelper._resource_manager self'
         = VirtualMachineHelper._resource_manager self).
Proof.
  intros hostname before. destruct self as [machines stack].
  unfold VirtualMachineHelper.ensure_local_vm. fold hostname.
  unfold_monad. cbn [VirtualMachineHelper._machines VirtualMachineHelper._resource_manager].
  destruct (decide _) as [_|_]; [|right; simpl; auto].
  destruct destroy; subst before.
  - pose proof (vm_destroy_machines hostname machines w) as Hdel.
    destruct (VirtualMachineHelper._vm_destroy _ _ _ _) as [[out|e] [m1 w1]];
      simpl in Hdel; subst m1; [|right; simpl; auto].
    pose proof (vm_up_cases name hostname (delete hostname machines) w1) as Hup.
    destruct (VirtualMachineHelper._vm_up _ _ _ _ _) as [[out'|e] [m2 w2]];
      destruct Hup as [[Hr ->]|[Hr ->]]; try discriminate;
      [left | right]; simpl; auto.
  - pose proof (vm_up_cases name hostname machines w) as Hup.
    destruct (VirtualMachineHelper._vm_up _ _ _ _ _) as [[out'|e] [m2 w2]];
      destruct Hup as [[Hr ->]|[Hr ->]]; try discriminate;
      [left | right]; simpl; auto.
Qed.

End RegistryFacts.

Section InvariantFacts.

Variable _VM_DEFS : gmap string string.
Variable spawn : list Call -> Call -> Completed.

Abbreviation teardown_registered := VirtualMachineHelper.teardown_registered.

Lemma unwind_machines (todo : list VirtualMachineHelper.teardown) :
  forall (machines : gmap string string) (w : World) (pending : option exn),
    fst (snd (ExitStack.unwind (VirtualMachineHelper.invoke _VM_DEFS spawn)
                               todo pending (machines, w)))
    = foldl (fun m cb => delete (VirtualMachineHelper.teardown_name cb) m)
            machines todo.
Proof.
  induction todo as [|cb todo IH]; intros machines w pending; simpl; [done|].
  pose proof (invoke_machines _VM_DEFS spawn cb machines w) as Hcb.
  destruct (VirtualMachineHelper.invoke _ _ _ _) as [[[]|e] [m1 w1]];
    simpl in Hcb; subst m1; apply IH.
Qed.

Lemma lookup_foldl_delete (todo : list VirtualMachineHelper.teardown) :
  forall (machines : gmap string string) (name : string),
    foldl (fun m cb => delete (VirtualMachineHelper.teardown_name cb) m)
          machines todo !! name
    = if decide (name ∈ map VirtualMachineHelper.teardown_name todo)
      then None else machines !! name.
Proof.
  induction todo as [|cb todo IH]; intros machines name; cbn [foldl map].
  - case_decide as Hin; [by apply elem_of_nil in Hin | done].
  - rewrite IH.
    destruct (decide (name ∈ map _ todo)) as [Hin|Hnin].
    + rewrite decide_True; [done|]. by apply elem_of_cons; right.
    + destruct (decide (name = VirtualMachineHelper.teardown_name cb)) as [->|Hne].
      * rewrite lookup_delete_eq, decide_True; [done|]. by apply elem_of_cons; left.
      * rewrite lookup_delete_ne by done. rewrite decide_False; [done|].
        intros [?|?]%elem_of_cons; done.
Qed.

(** [close] leaves the stack empty and removes the name of every
    callback from the map. *)
Lemma close_helper (self : VirtualMachineHelper.t) (w : World) :
  fst (snd (VirtualMachineHelper.close _VM_DEFS spawn (self, w)))
  = VirtualMachineHelper.mk
      (foldl (fun m cb => delete (VirtualMachineHelper.teardown_name cb) m)
             (VirtualMachineHelper._machines self)
             (rev (VirtualMachineHelper._resource_manager self)))
      [].
Proof.
  unfold VirtualMachineHelper.close, VirtualMachineHelper.on_resource_manager,
    ExitStack.close.
  pose proof (unwind_machines (rev (VirtualMachineHelper._resource_manager self))
                              (VirtualMachineHelper._machines self) w None) as Hm.
  destruct (ExitStack.unwind _ _ _ _) as [[e|] [m1 w1]];
    simpl in Hm; subst m1; reflexivity.
Qed.

Lemma close_releases (self : VirtualMachineHelper.t) (w : World) :
  teardown_registered self ->
  VirtualMachineHelper._machines
    (fst (snd (VirtualMachineHelper.close _VM_DEFS spawn (self, w)))) = ∅
  /\ VirtualMachineHelper._resource_manager
       (fst (snd (VirtualMachineHelper.close _VM_DEFS spawn (self, w)))) = [].
Proof.
  intros Hinv. rewrite close_helper.
  cbn [VirtualMachineHelper._machines VirtualMachineHelper._resource_manager].
  split; [|done].
  apply map_eq; intros name. rewrite lookup_empty, lookup_foldl_delete.
  case_decide as Hnin; [done|].
  destruct (VirtualMachineHelper._machines self !! name) as [hostname|] eqn:Hname;
    [|done].
  exfalso; apply Hnin.
  destruct (Hinv name) as (cb & Hin & <-); [by rewrite Hname|].
  apply list_elem_of_fmap_2, list_elem_of_In, in_rev.
  rewrite rev_involutive. by apply list_elem_of_In.
Qed.

Lemma ensure_local_vm_preserves (name definition : string) (destroy : bool)
      (self : VirtualMachineHelper.t) (w : World) :
  teardown_registered self ->
  teardown_registered
    (fst (snd (VirtualMachineHelper.ensure_local_vm
                 _VM_DEFS spawn name definition destroy (self, w)))).
Proof.
  intros Hinv.
  pose proof (ensure_local_vm_cases _VM_DEFS spawn name definition destroy self w)
    as Hcases. simpl in Hcases.
  destruct (VirtualMachineHelper.ensure_local_vm _ _ _ _ _ _) as [r [self' w']].
  simpl. intros n Hn.
  assert (Hweaken : forall m,
             (m = VirtualMachineHelper._machines self
              \/ m = (if destroy
                      then delete (_VM_HOSTNAME_PREFIX +:+ definition)
                                  (VirtualMachineHelper._machines self)
                      else VirtualMachineHelper._machines self)) ->
             is_Some (m !! n) ->
             exists cb, cb ∈ VirtualMachineHelper._resource_manager self
                        /\ VirtualMachineHelper.teardown_name cb = n).
  { intros m Hm Hsome. apply Hinv.
    destruct Hm as [->| ->]; [done|]. destruct destroy; [|done].
    apply lookup_delete_is_Some in Hsome as [_ ?]. done. }
  destruct Hcases as [(_ & Hm & Hstack)|(_ & Hm & Hstack)]; rewrite Hstack.
  - rewrite Hm in Hn. destruct (decide (n = name)) as [->|Hne].
    + exists (if destroy then VirtualMachineHelper.Destroy name
              else VirtualMachineHelper.Halt name).
      split; [apply elem_of_app; right; apply list_elem_of_singleton; done|].
      by destruct destroy.
    + rewrite lookup_insert_ne in Hn by done.
      destruct (Hweaken _ (or_intror eq_refl) Hn) as (cb & Hin & Hcb).
      exists cb. split; [apply elem_of_app; by left | done].
  - destruct Hm as [Hm|Hm]; rewrite Hm in Hn.
    + exact (Hweaken _ (or_introl eq_refl) Hn).
    + exact (Hweaken _ (or_intror eq_refl) Hn).
Qed.

Lemma get_hostname_state (name : string) (s : VirtualMachineHelper.t * World) :
  snd (VirtualMachineHelper.get_hostname name s) = s.
Proof.
  destruct s as [self w]. unfold VirtualMachineHelper.get_hostname.
  by destruct (_ !! name).
Qed.

Lemma run_op_preserves (o : VirtualMachineHelper.op)
      (s : VirtualMachineHelper.t * World) :
  teardown_registered (fst s) ->
  teardown_registered (fst (VirtualMachineHelper.run_op _VM_DEFS spawn o s)).
Proof.
  intros Hinv. destruct s as [self w].
  destruct o as [name definition destroy|name|]; unfold VirtualMachineHelper.run_op.
  - by apply ensure_local_vm_preserves.
  - by rewrite get_hostname_state.
  - destruct (close_releases self w Hinv) as [Hm _].
    intros n Hn. rewrite Hm, lookup_empty in Hn. by destruct Hn.
Qed.

Lemma run_ops_preserve (ops : list VirtualMachineHelper.op) :
  forall s : VirtualMachineHelper.t * World,
    teardown_registered (fst s) ->
    teardown_registered (fst (VirtualMachineHelper.run_ops _VM_DEFS spawn ops s)).
Proof.
  induction ops as [|o ops IH]; intros s Hinv; simpl; [done|].
  by apply IH, run_op_preserves.
Qed.

End InvariantFacts.

(** C5, as stated, fails: a name that is acquired again with another
    definition is mapped to another hostname.  After
    [ensure_local_vm("a", "d1")] the name ["a"] denotes
    ["leapp-tests-d1"], after [ensure_local_vm("a", "d2")] it denotes
    ["leapp-tests-d2"]; both calls succeed.  Closing the helper then
    halts only the second machine: the first one was started, is
    never halted or destroyed, and no callback is left for it. *)
Lemma reacquired_name_changes_hostname :
  ~ (forall (ops1 ops2 : list VirtualMachineHelper.op) (name h h' : string),
        VirtualMachineHelper._machines
          (fst (VirtualMachineHelper.run_ops
                  sample_defs all_succeed ops1
                  (VirtualMachineHelper.init, fresh_world))) !! name = Some h ->
        VirtualMachineHelper._machines
          (fst (VirtualMachineHelper.run_ops
                  sample_defs all_succeed (ops1 ++ ops2)
                  (VirtualMachineHelper.init, fresh_world))) !! name = Some h' ->
        h' = h)
  /\ (let s :=
        VirtualMachineHelper.run_ops
          sample_defs all_succeed
          [VirtualMachineHelper.EnsureVM "a" "d1" false;
           VirtualMachineHelper.EnsureVM "a" "d2" false;
           VirtualMachineHelper.CloseAll]
          (VirtualMachineHelper.init, fresh_world) in
      count_vagrant "up" "/vmdefs/d1" (spawned (snd s)) = 1
      /\ count_vagrant "halt" "/vmdefs/d1" (spawned (snd s)) = 0
      /\ count_vagrant "destroy" "/vmdefs/d1" (spawned (snd s)) = 0
      /\ VirtualMachineHelper._resource_manager (fst s) = []).
Proof.
  split.
  - intros Hstable.
    specialize (Hstable [VirtualMachineHelper.EnsureVM "a" "d1" false]
                        [VirtualMachineHelper.EnsureVM "a" "d2" false]
                        "a" "leapp-tests-d1" "leapp-tests-d2").
    assert (Heq : "leapp-tests-d2" = "leapp-tests-d1")
      by (apply Hstable; vm_compute; reflexivity).
    discriminate Heq.
  - vm_compute. auto.
Qed.

(** C5, amended.  In every state reached by a sequence of
    [ensure_local_vm], [get_hostname] and [close] calls on a fresh
    helper: every name in the name map has a teardown callback
    registered for it; [get_hostname] changes nothing; a successful
    [ensure_local_vm] maps its name to the hostname of its definition,
    replacing an earlier mapping of that name; an [ensure_local_vm]
    without [destroy] leaves the mapping of every other name as it
    was; and [close] empties both the name map and the stack. *)
Theorem registry_invariant
        (defs : gmap string string) (spawn : list Call -> Call -> Completed)
        (ops : list VirtualMachineHelper.op) (w : World) :
  let s := VirtualMachineHelper.run_ops defs spawn ops (VirtualMachineHelper.init, w) in
  VirtualMachineHelper.teardown_registered (fst s)
  /\ (forall name : string, snd (VirtualMachineHelper.get_hostname name s) = s)
  /\ (forall (name definition : string) (destroy : bool),
         fst (VirtualMachineHelper.ensure_local_vm
                defs spawn name definition destroy s) = Returns tt ->
         fst (VirtualMachineHelper.get_hostname
                name
                (snd (VirtualMachineHelper.ensure_local_vm
                        defs spawn name definition destroy s)))
         = Returns (_VM_HOSTNAME_PREFIX +:+ definition))
  /\ (forall name name' definition : string,
         name <> name' ->
         VirtualMachineHelper._machines
           (fst (snd (VirtualMachineHelper.ensure_local_vm
                        defs spawn name' definition false s))) !! name
         = VirtualMachineHelper._machines (fst s) !! name)
  /\ VirtualMachineHelper._machines
       (fst (snd (VirtualMachineHelper.close defs spawn s))) = ∅
  /\ VirtualMachineHelper._resource_manager
       (fst (snd (VirtualMachineHelper.close defs spawn s))) = [].
Proof.
  intros s.
  assert (Hinv : VirtualMachineHelper.teardown_registered (fst s)).
  { apply run_ops_preserve. intros name Hname. simpl in Hname.
    rewrite lookup_empty in Hname. by destruct Hname. }
  destruct s as [self w0]. simpl in Hinv.
  split; [exact Hinv|]. split; [intros name; apply get_hostname_state|].
  split; [|split; [|by apply close_releases]].
  - intros name definition destroy.
    pose proof (ensure_local_vm_cases defs spawn name definition destroy self w0)
      as Hcases. simpl in Hcases.
    destruct (VirtualMachineHelper.ensure_local_vm _ _ _ _ _ _) as [r [self' w']].
    simpl. intros ->.
    destruct Hcases as [(_ & Hm & _)|(Hr & _)]; [|discriminate Hr].
    by rewrite Hm, lookup_insert_eq.
  - intros name name' definition Hne.
    pose proof (ensure_local_vm_cases defs spawn name' definition false self w0)
      as Hcases. simpl in Hcases.
    destruct (VirtualMachineHelper.ensure_local_vm _ _ _ _ _ _) as [r [self' w']].
    simpl.
    destruct Hcases as [(_ & Hm & _)|(_ & [Hm|Hm] & _)]; rewrite Hm; [|done..].
    by rewrite lookup_insert_ne.
Qed.

Lemma registry_invariant_witness :
  let s :=
    VirtualMachineHelper.run_ops
      sample_defs all_succeed [VirtualMachineHelper.EnsureVM "a" "d1" false]
      (VirtualMachineHelper.init, fresh_world) in
  let r := VirtualMachineHelper.ensure_local_vm
             sample_defs all_succeed "b" "d2" false s in
  fst r = Returns tt
  /\ fst (VirtualMachineHelper.get_hostname "b" (snd r)) = Returns "leapp-tests-d2"
  /\ "a" <> "b"
  /\ VirtualMachineHelper._machines (fst (snd r)) !! "a"
     = VirtualMachineHelper._machines (fst s) !! "a".
Proof.
  intros s r.
  destruct (registry_invariant
              sample_defs all_succeed
              [VirtualMachineHelper.EnsureVM "a" "d1" false] fresh_world)
    as (_ & _ & Hensure & Hframe & _).
  assert (Hr : fst r = Returns tt) by (vm_compute; reflexivity).
  assert (Hne : "a" <> "b") by discriminate.
  split; [exact Hr|]. split; [exact (Hensure "b" "d2" false Hr)|].
  split; [exact Hne|]. exact (Hframe "a" "b" "d2" Hne).
Defined.

(** ** The scenario hooks *)

Section HookFacts.

Variable _VM_DEFS : gmap string string.
Variable spawn : list Call -> Call -> Completed.

(** Acquiring a VM without [destroy] when [vagrant up] succeeds. *)
Lemma ensure_local_vm_up (name definition vm_dir : string)
      (self : VirtualMachineHelper.t) (w : World) :
  _VM_DEFS !! (_VM_HOSTNAME_PREFIX +:+ definition) = Some vm_dir ->
  returncode (spawn (spawned w) (mkCall ["vagrant"; "up"] (Some vm_dir))) = 0%Z ->
  VirtualMachineHelper.ensure_local_vm _VM_DEFS spawn name definition false (self, w)
  = (Returns tt,
     (VirtualMachineHelper.mk
        (<[name := _VM_HOSTNAME_PREFIX +:+ definition]>
           (VirtualMachineHelper._machines self))
        (VirtualMachineHelper._resource_manager self
         ++ [VirtualMachineHelper.Halt name]),
      after_up (_VM_HOSTNAME_PREFIX +:+ definition) vm_dir w)).
Proof.
  intros Hdef Hup.
  unfold VirtualMachineHelper.ensure_local_vm, VirtualMachineHelper._vm_up,
    VirtualMachineHelper._run_vagrant.
  rewrite Hdef. unfold _run_command. unfold_monad.
  rewrite decide_True by eauto.
  cbn [VirtualMachineHelper._machines VirtualMachineHelper._resource_manager
       spawned requested clock_reads printed].
  rewrite decide_True by exact Hup.
  unfold after_up. cbn [spawned requested clock_reads printed].
  by rewrite <- app_assoc.
Qed.



End HookFacts.



Section ScenarioEndFacts.

Variable _VM_DEFS : gmap string string.
Variable spawn : list Call -> Call -> Completed.




End ScenarioEndFacts.




(** ** The migration listing *)

Section ListingFacts.

Variables source_host target_host : string.

Abbreviation scan := (MigrationInfo.scan source_host target_host).

(** One iteration of the loop on a record that has an address. *)
Lemma scan_cons_address (m : MigrationInfo.machine) (rest : list MigrationInfo.machine)
      (addr : string) (addrs : list string) (source_ip target_ip : option string) :
  MigrationInfo.ip m = addr :: addrs ->
  scan (m :: rest) source_ip target_ip =
  let source_ip' :=
    if decide (MigrationInfo.hostname m = source_host) then Some addr else source_ip in
  let target_ip' :=
    if decide (MigrationInfo.hostname m = target_host) then Some addr else target_ip in
  if bool_decide (source_ip' ≠ None) && bool_decide (target_ip' ≠ None)
  then Returns (source_ip', target_ip')
  else scan rest source_ip' target_ip'.
Proof.
  intros Hip. simpl. unfold MigrationInfo.first_ip. rewrite Hip.
  by do 2 case_decide.
Qed.

(** With an address in every record the loop never raises. *)
Lemma scan_total (machines : list MigrationInfo.machine) :
  Forall (fun m => MigrationInfo.ip m ≠ []) machines ->
  forall source_ip target_ip : option string,
    exists found, scan machines source_ip target_ip = Returns found.
Proof.
  induction 1 as [|m rest Hm _ IH]; intros source_ip target_ip.
  - by eexists.
  - destruct (MigrationInfo.ip m) as [|addr addrs] eqn:Hip; [done|].
    rewrite (scan_cons_address m rest addr addrs _ _ Hip). simpl.
    destruct (_ && _); [by eexists | apply IH].
Qed.

(** When no record carries the target hostname and every record that
    carries the source hostname has an address, the target address
    stays absent and the source address is the first address of the
    last record that carries the source hostname. *)
Lemma scan_target_absent (machines : list MigrationInfo.machine) :
  Forall (fun m => MigrationInfo.hostname m = source_host -> MigrationInfo.ip m ≠ [])
         machines ->
  Forall (fun m => MigrationInfo.hostname m ≠ target_host) machines ->
  forall source_ip : option string,
    exists source_ip',
      scan machines source_ip None = Returns (source_ip', None)
      /\ (Forall (fun m => MigrationInfo.hostname m ≠ source_host) machines ->
          source_ip' = source_ip)
      /\ (forall pre m post,
             machines = pre ++ m :: post ->
             MigrationInfo.hostname m = source_host ->
             Forall (fun m' => MigrationInfo.hostname m' ≠ source_host) post ->
             source_ip' = head (MigrationInfo.ip m)).
Proof.
  induction 1 as [|m0 rest Hm0 _ IH]; intros Habsent source_ip.
  - exists source_ip. split; [done|]. split; [done|].
    intros [|??] ?? Heq; discriminate Heq.
  - apply Forall_cons in Habsent as [Hno Habsent].
    destruct (decide (MigrationInfo.hostname m0 = source_host)) as [Hs|Hns].
    + destruct (MigrationInfo.ip m0) as [|addr addrs] eqn:Hip; [by destruct Hm0|].
      rewrite (scan_cons_address m0 rest addr addrs _ _ Hip). simpl.
      rewrite (decide_True (P := MigrationInfo.hostname m0 = source_host)) by done.
      rewrite (decide_False (P := MigrationInfo.hostname m0 = target_host)) by done.
      rewrite (bool_decide_eq_false_2 (None ≠ None)) by (intros Hnn; by apply Hnn).
      rewrite andb_false_r.
      destruct (IH Habsent (Some addr)) as (source_ip' & Hscan & Hnone & Hlast).
      exists source_ip'. split; [exact Hscan|]. split.
      * by intros [Hne Hrest]%Forall_cons.
      * intros [|m1 pre] m post Heq Hhost Hpost; simplify_eq/=.
        -- rewrite (Hnone Hpost). by rewrite Hip.
        -- by eapply Hlast.
    + cbn [MigrationInfo.scan].
      rewrite (decide_False (P := MigrationInfo.hostname m0 = source_host)) by done.
      rewrite (decide_False (P := MigrationInfo.hostname m0 = target_host)) by done.
      rewrite (bool_decide_eq_false_2 (None ≠ None)) by (intros Hnn; by apply Hnn).
      rewrite andb_false_r.
      destruct (IH Habsent source_ip) as (source_ip' & Hscan & Hnone & Hlast).
      exists source_ip'. split; [exact Hscan|]. split.
      * intros [Hne Hrest]%Forall_cons. by apply Hnone.
      * intros [|m1 pre] m post Heq Hhost Hpost; simplify_eq/=.
        by eapply Hlast.
Qed.

(** Scanning a prefix that leaves an address open continues with the
    rest of the listing. *)
Lemma scan_app_open (pre rest : list MigrationInfo.machine) :
  forall source_ip target_ip source_ip' target_ip',
    scan pre source_ip target_ip = Returns (source_ip', target_ip') ->
    source_ip' = None \/ target_ip' = None ->
    scan (pre ++ rest) source_ip target_ip = scan rest source_ip' target_ip'.
Proof.
  induction pre as [|m pre IH]; intros source_ip target_ip source_ip' target_ip'.
  - simpl. by intros [= -> ->] _.
  - simpl.
    destruct (if decide (MigrationInfo.hostname m = source_host) then _ else _)
      as [s1|e]; [|done].
    destruct (if decide (MigrationInfo.hostname m = target_host) then _ else _)
      as [t1|e]; [|done].
    destruct (bool_decide (s1 ≠ None) && bool_decide (t1 ≠ None)) eqn:Hboth.
    + intros [= -> ->] Hopen.
      apply andb_true_iff in Hboth as [Hs%bool_decide_eq_true Ht%bool_decide_eq_true].
      by destruct Hopen.
    + apply IH.
Qed.

(** A record that carries one of the two hostnames and has no address
    makes the loop raise as soon as it is reached. *)
Lemma scan_cons_empty (m : MigrationInfo.machine) (rest : list MigrationInfo.machine)
      (source_ip target_ip : option string) :
  MigrationInfo.ip m = [] ->
  MigrationInfo.hostname m = source_host \/ MigrationInfo.hostname m = target_host ->
  scan (m :: rest) source_ip target_ip = Raises IndexError.
Proof.
  intros Hip Hmatch. simpl. unfold MigrationInfo.first_ip. rewrite Hip.
  destruct (decide (MigrationInfo.hostname m = source_host)) as [|Hns]; [done|].
  destruct Hmatch as [|Ht]; [done|]. by rewrite decide_True.
Qed.

(** When no record carries the target hostname the loop never ends
    early, so a record that carries the source hostname and has no
    address is always reached. *)
Lemma scan_target_absent_raises (machines : list MigrationInfo.machine) :
  Forall (fun m => MigrationInfo.hostname m ≠ target_host) machines ->
  Exists (fun m => MigrationInfo.hostname m = source_host /\ MigrationInfo.ip m = [])
         machines ->
  forall source_ip : option string,
    scan machines source_ip None = Raises IndexError.
Proof.
  induction machines as [|m0 rest IH]; intros Habsent Hbad source_ip.
  - by apply Exists_nil in Hbad.
  - apply Forall_cons in Habsent as [Hno Habsent].
    destruct (decide (MigrationInfo.hostname m0 = source_host)) as [Hs|Hns].
    + destruct (MigrationInfo.ip m0) as [|addr addrs] eqn:Hip.
      * apply scan_cons_empty; [exact Hip|by left].
      * rewrite (scan_cons_address m0 rest addr addrs _ _ Hip). simpl.
        rewrite (decide_False (P := MigrationInfo.hostname m0 = target_host)) by done.
        rewrite (bool_decide_eq_false_2 (None ≠ None)) by (intros Hnn; by apply Hnn).
        rewrite andb_false_r.
        apply IH; [exact Habsent|].
        apply Exists_cons in Hbad as [[_ Hempty]|Hbad]; [|exact Hbad].
        rewrite Hip in Hempty. discriminate Hempty.
    + cbn [MigrationInfo.scan].
      rewrite (decide_False (P := MigrationInfo.hostname m0 = source_host)) by done.
      rewrite (decide_False (P := MigrationInfo.hostname m0 = target_host)) by done.
      rewrite (bool_decide_eq_false_2 (None ≠ None)) by (intros Hnn; by apply Hnn).
      rewrite andb_false_r.
      apply IH; [exact Habsent|].
      by apply Exists_cons in Hbad as [[Hs _]|Hbad].
Qed.

End ListingFacts.

(** C6, as stated, fails: a listing without the target hostname can
    make [from_vm_list] fail.  With a record that carries the source
    hostname and has no address, the lookup of its first address
    raises [IndexError], although no record carries the target
    hostname. *)
Lemma from_vm_list_absent_target_can_raise :
  let machines := [MigrationInfo.mkMachine "a" []] in
  Forall (fun m => MigrationInfo.hostname m ≠ "b") machines
  /\ MigrationInfo.from_vm_list machines "a" "b" = Raises IndexError
  /\ ~ (forall (machines : list MigrationInfo.machine) (source_host target_host : string),
          Forall (fun m => MigrationInfo.hostname m ≠ target_host) machines ->
          exists info,
            MigrationInfo.from_vm_list machines source_host target_host = Returns info
            /\ MigrationInfo.target_ip info = None).
Proof.
  intros machines.
  assert (Habsent : Forall (fun m => MigrationInfo.hostname m ≠ "b") machines)
    by (repeat constructor; discriminate).
  split; [exact Habsent|]. split; [reflexivity|].
  intros Hclaim. destruct (Hclaim machines "a" "b" Habsent) as (info & Hret & _).
  discriminate Hret.
Qed.

(** C6, amended.  [from_vm_list] on the listing [a -> 1.1.1.1],
    [b -> 2.2.2.2] with source ["a"] and target ["b"] gives count 2 and
    the two addresses.  For every listing in which no record carries
    the target hostname: if every record that carries the source
    hostname has an address, [from_vm_list] returns a result whose
    target address is absent, whose count is the number of records,
    and whose source address is the first address of the last record
    carrying the source hostname (absent when there is none); if some
    record that carries the source hostname has no address, it raises
    [IndexError].  Whenever it returns, the count is the number of
    records. *)
Theorem from_vm_list_example_and_absent_target
        (machines : list MigrationInfo.machine) (source_host target_host : string)
        (Habsent : Forall (fun m => MigrationInfo.hostname m ≠ target_host) machines) :
  MigrationInfo.from_vm_list
    [MigrationInfo.mkMachine "a" ["1.1.1.1"]; MigrationInfo.mkMachine "b" ["2.2.2.2"]]
    "a" "b"
  = Returns (MigrationInfo.mk 2 (Some "1.1.1.1") (Some "2.2.2.2"))
  /\ (Forall (fun m => MigrationInfo.hostname m = source_host ->
                       MigrationInfo.ip m ≠ []) machines ->
      exists info,
        MigrationInfo.from_vm_list machines source_host target_host = Returns info
        /\ MigrationInfo.local_vm_count info = length machines
        /\ MigrationInfo.target_ip info = None
        /\ (Forall (fun m => MigrationInfo.hostname m ≠ source_host) machines ->
            MigrationInfo.source_ip info = None)
        /\ (forall pre m post,
               machines = pre ++ m :: post ->
               MigrationInfo.hostname m = source_host ->
               Forall (fun m' => MigrationInfo.hostname m' ≠ source_host) post ->
               MigrationInfo.source_ip info = head (MigrationInfo.ip m)))
  /\ (Exists (fun m => MigrationInfo.hostname m = source_host
                       /\ MigrationInfo.ip m = []) machines ->
      MigrationInfo.from_vm_list machines source_host target_host = Raises IndexError)
  /\ (forall l s t info,
         MigrationInfo.from_vm_list l s t = Returns info ->
         MigrationInfo.local_vm_count info = length l).
Proof.
  split; [reflexivity|]. split; [|split].
  - intros Hsource.
    destruct (scan_target_absent source_host target_host machines Hsource Habsent None)
      as (source_ip' & Hscan & Hnone & Hlast).
    unfold MigrationInfo.from_vm_list. rewrite Hscan.
    eexists. split; [reflexivity|]. simpl. auto.
  - intros Hbad. unfold MigrationInfo.from_vm_list.
    by rewrite (scan_target_absent_raises source_host target_host machines
                  Habsent Hbad None).
  - intros l s t info. unfold MigrationInfo.from_vm_list.
    destruct (MigrationInfo.scan s t l None None) as [[a b]|e]; [|done].
    by intros [= <-].
Qed.

Lemma from_vm_list_example_and_absent_target_witness :
  let machines :=
    [MigrationInfo.mkMachine "a" ["10.0.0.1"; "10.0.0.2"];
     MigrationInfo.mkMachine "c" [];
     MigrationInfo.mkMachine "a" ["10.0.0.4"]] in
  let broken :=
    [MigrationInfo.mkMachine "a" ["10.0.0.1"]; MigrationInfo.mkMachine "a" []] in
  Forall (fun m => MigrationInfo.hostname m ≠ "b") machines
  /\ Forall (fun m => MigrationInfo.hostname m ≠ "b") broken
  /\ (exists info,
         MigrationInfo.from_vm_list machines "a" "b" = Returns info
         /\ MigrationInfo.local_vm_count info = 3
         /\ MigrationInfo.target_ip info = None
         /\ MigrationInfo.source_ip info = Some "10.0.0.4")
  /\ MigrationInfo.from_vm_list broken "a" "b" = Raises IndexError.
Proof.
  intros machines broken.
  assert (Habsent : Forall (fun m => MigrationInfo.hostname m ≠ "b") machines)
    by (repeat constructor; discriminate).
  assert (Habsent' : Forall (fun m => MigrationInfo.hostname m ≠ "b") broken)
    by (repeat constructor; discriminate).
  split; [exact Habsent|]. split; [exact Habsent'|]. split.
  - destruct (from_vm_list_example_and_absent_target machines "a" "b" Habsent)
      as (_ & Hreturns & _).
    destruct Hreturns as (info & Hret & Hcount & Htarget & _ & Hlast).
    { repeat constructor; simpl; discriminate. }
    exists info. split; [exact Hret|]. split; [exact Hcount|]. split; [exact Htarget|].
    exact (Hlast [MigrationInfo.mkMachine "a" ["10.0.0.1"; "10.0.0.2"];
                  MigrationInfo.mkMachine "c" []]
                 (MigrationInfo.mkMachine "a" ["10.0.0.4"]) []
                 eq_refl eq_refl (List.Forall_nil _)).
  - destruct (from_vm_list_example_and_absent_target broken "a" "b" Habsent')
      as (_ & _ & Hraises & _).
    apply Hraises. apply Exists_cons_tl, Exists_cons_hd. by split.
Defined.

(** C10, as stated, fails on its second half: a record that carries
    the source hostname and has no address does not lead to an absent
    address; the lookup of its first address raises [IndexError]. *)
Lemma from_vm_list_empty_addresses_raises :
  MigrationInfo.from_vm_list [MigrationInfo.mkMachine "a" []] "a" "b"
  = Raises IndexError
  /\ ~ (exists info,
           MigrationInfo.from_vm_list [MigrationInfo.mkMachine "a" []] "a" "b"
           = Returns info).
Proof.
  split; [reflexivity|]. intros [info Hinfo]. discriminate Hinfo.
Qed.

(** C10, amended.  On a listing in which every record has an address
    the first-address lookups are in bounds and [from_vm_list] returns
    a result.  A record without an address that carries the source or
    the target hostname makes [from_vm_list] raise [IndexError]
    whenever the scan reaches it, that is, whenever the records before
    it leave one of the two addresses open. *)
Theorem from_vm_list_total_on_addresses_raises_on_empty
        (machines pre post : list MigrationInfo.machine) (m : MigrationInfo.machine)
        (source_host target_host : string) (info : MigrationInfo.t)
        (Hwf : Forall (fun m => MigrationInfo.ip m ≠ []) machines)
        (Hpre : MigrationInfo.from_vm_list pre source_host target_host = Returns info)
        (Hopen : MigrationInfo.source_ip info = None
                 \/ MigrationInfo.target_ip info = None)
        (Hmatch : MigrationInfo.hostname m = source_host
                  \/ MigrationInfo.hostname m = target_host)
        (Hempty : MigrationInfo.ip m = []) :
  (exists info',
      MigrationInfo.from_vm_list machines source_host target_host = Returns info'
      /\ MigrationInfo.local_vm_count info' = length machines)
  /\ MigrationInfo.from_vm_list (pre ++ m :: post) source_host target_host
     = Raises IndexError.
Proof.
  split.
  - destruct (scan_total source_host target_host machines Hwf None None)
      as [[a b] Hscan].
    unfold MigrationInfo.from_vm_list. rewrite Hscan. by eexists.
  - unfold MigrationInfo.from_vm_list in *.
    destruct (MigrationInfo.scan source_host target_host pre None None)
      as [[a b]|e] eqn:Hscan; [|done].
    injection Hpre as <-. simpl in Hopen.
    rewrite (scan_app_open source_host target_host pre (m :: post) _ _ _ _ Hscan Hopen).
    by rewrite scan_cons_empty.
Qed.

Lemma from_vm_list_total_on_addresses_raises_on_empty_witness :
  let listing :=
    [MigrationInfo.mkMachine "a" ["1.1.1.1"]; MigrationInfo.mkMachine "b" ["2.2.2.2"]] in
  let pre := [MigrationInfo.mkMachine "a" ["1.1.1.1"]] in
  let m := MigrationInfo.mkMachine "b" [] in
  Forall (fun m => MigrationInfo.ip m ≠ []) listing
  /\ MigrationInfo.from_vm_list pre "a" "b"
     = Returns (MigrationInfo.mk 1 (Some "1.1.1.1") None)
  /\ (exists info',
         MigrationInfo.from_vm_list listing "a" "b" = Returns info'
         /\ MigrationInfo.local_vm_count info' = 2)
  /\ MigrationInfo.from_vm_list (pre ++ m :: listing) "a" "b" = Raises IndexError.
Proof.
  intros listing pre m.
  assert (Hwf : Forall (fun m => MigrationInfo.ip m ≠ []) listing)
    by (repeat constructor; discriminate).
  split; [exact Hwf|]. split; [reflexivity|].
  exact (from_vm_list_total_on_addresses_raises_on_empty
           listing pre listing m "a" "b" (MigrationInfo.mk 1 (Some "1.1.1.1") None)
           Hwf eq_refl (or_intror eq_refl) (or_intror eq_refl) eq_refl).
Defined.

(** ** Waiting for a response *)

Section PollFacts.

Context {Time : Type}.
Variable add : Time -> Time -> Time.
Variable ge : Time -> Time -> bool.
Variable format : Time -> string.
Variable monotonic : nat -> Time.
Variable http_get : nat -> string -> option RequestsHelper.response.

Abbreviation poll := (RequestsHelper.poll ge monotonic http_get).

Lemma after_attempts_zero (url : string) (w : World) :
  after_attempts 0 0 url w = w.
Proof.
  destruct w. unfold after_attempts. simpl.
  by rewrite app_nil_r, Nat.add_0_r.
Qed.

Lemma after_attempts_step (n m : nat) (url : string) (w : World) :
  after_attempts n m url (after_attempts 1 1 url w)
  = after_attempts (S n) (S m) url w.
Proof.
  unfold after_attempts. simpl. rewrite <- app_assoc. simpl.
  f_equal. lia.
Qed.

(** While requests fail and the clock reads less than the deadline,
    the loop goes round: [n] such rounds use up [n] units of fuel and
    leave [n] more requests and clock readings behind. *)
Lemma poll_retries (n : nat) :
  forall (fuel : nat) (url fail_msg : string) (deadline : Time) (w : World),
    (forall i, i < n ->
               http_get (length (requested w) + i) url = None
               /\ ge (monotonic (clock_reads w + i)) deadline = false) ->
    poll (n + fuel) url fail_msg deadline w
    = poll fuel url fail_msg deadline (after_attempts n n url w).
Proof.
  induction n as [|n IH]; intros fuel url fail_msg deadline w Hretry.
  - by rewrite after_attempts_zero.
  - destruct (Hretry 0 ltac:(lia)) as [Hget Hclock].
    rewrite Nat.add_0_r in Hget, Hclock.
    cbn [Nat.add RequestsHelper.poll].
    unfold RequestsHelper.requests_get, RequestsHelper.time_monotonic.
    cbn [requested clock_reads spawned printed].
    rewrite Hget, Hclock.
    change (mkWorld (spawned w) (requested w ++ [url]) (S (clock_reads w)) (printed w))
      with (mkWorld (spawned w) (requested w ++ replicate 1 url)
                    (S (clock_reads w)) (printed w)).
    replace (S (clock_reads w)) with (clock_reads w + 1) by lia.
    fold (after_attempts 1 1 url w).
    rewrite IH, after_attempts_step; [done|].
    intros i Hi. unfold after_attempts. cbn [requested clock_reads].
    rewrite length_app. simpl.
    replace (length (requested w) + 1 + i) with (length (requested w) + S i) by lia.
    replace (clock_reads w + 1 + i) with (clock_reads w + S i) by lia.
    apply Hretry. lia.
Qed.

(** The round that decides: the request is answered, or it fails and
    the clock has reached the deadline. *)
Lemma poll_decides (fuel : nat) (url fail_msg : string) (deadline : Time) (w : World) :
  is_Some (http_get (length (requested w)) url)
  \/ ge (monotonic (clock_reads w)) deadline = true ->
  poll (S fuel) url fail_msg deadline w
  = Some (match http_get (length (requested w)) url with
          | Some r => (Returns r, after_attempts 1 0 url w)
          | None => (Raises (AssertionError fail_msg), after_attempts 1 1 url w)
          end).
Proof.
  intros Hlast. cbn [RequestsHelper.poll].
  unfold RequestsHelper.requests_get, RequestsHelper.time_monotonic, after_attempts.
  cbn [requested clock_reads spawned printed replicate].
  destruct (http_get (length (requested w)) url) as [r|].
  - by rewrite Nat.add_0_r.
  - destruct Hlast as [[r Hr]|Hclock]; [done|]. rewrite Hclock.
    by replace (clock_reads w + 1) with (S (clock_reads w)) by lia.
Qed.

(** [n] failed rounds before the deadline, then the deciding round. *)
Lemma poll_outcome (n fuel : nat) (url fail_msg : string) (deadline : Time)
      (w : World) :
  (forall i, i < n ->
             http_get (length (requested w) + i) url = None
             /\ ge (monotonic (clock_reads w + i)) deadline = false) ->
  is_Some (http_get (length (requested w) + n) url)
  \/ ge (monotonic (clock_reads w + n)) deadline = true ->
  n < fuel ->
  poll fuel url fail_msg deadline w
  = Some (match http_get (length (requested w) + n) url with
          | Some r => (Returns r, after_attempts (S n) n url w)
          | None => (Raises (AssertionError fail_msg), after_attempts (S n) (S n) url w)
          end).
Proof.
  intros Hretry Hlast Hfuel.
  replace fuel with (n + S (fuel - S n)) by lia.
  rewrite poll_retries by exact Hretry.
  assert (Hlen : length (requested (after_attempts n n url w))
                 = length (requested w) + n).
  { unfold after_attempts. cbn [requested]. by rewrite length_app, length_replicate. }
  rewrite poll_decides; cbn [clock_reads after_attempts]; rewrite Hlen; [|exact Hlast].
  destruct (http_get (length (requested w) + n) url); do 2 f_equal.
  - unfold after_attempts. cbn [spawned requested clock_reads printed].
    f_equal; [|lia].
    rewrite <- app_assoc. f_equal.
    change (S n) with (1 + n). by rewrite Nat.add_comm, replicate_add.
  - unfold after_attempts. cbn [spawned requested clock_reads printed].
    f_equal; [|lia].
    rewrite <- app_assoc. f_equal.
    change (S n) with (1 + n). by rewrite Nat.add_comm, replicate_add.
Qed.

End PollFacts.

(** C7.  [get_response] with a wait: as long as requests fail and the
    clock, read after each failure, is below [start + wait], the
    request is repeated.  If the request of round [n] is answered,
    that response is returned ([n + 1] requests were made).  If it
    fails and the clock has then reached [start + wait], the call
    raises the assertion error whose message carries the wait, after
    exactly [n + 1] requests: it does not give up in an earlier round,
    and it makes no further request.  The comparison and the addition
    are the ones the code applies to its time values. *)
Theorem get_response_retries_until_deadline
        {Time : Type} (add : Time -> Time -> Time) (ge : Time -> Time -> bool)
        (format : Time -> string) (monotonic : nat -> Time)
        (http_get : nat -> string -> option RequestsHelper.response)
        (service_url : string) (wait : Time) (w : World) (n fuel : nat)
        (Hretry : forall i, i < n ->
            http_get (length (requested w) + i) service_url = None
            /\ ge (monotonic (S (clock_reads w) + i))
                  (add (monotonic (clock_reads w)) wait) = false)
        (Hlast : is_Some (http_get (length (requested w) + n) service_url)
                 \/ ge (monotonic (S (clock_reads w) + n))
                       (add (monotonic (clock_reads w)) wait) = true)
        (Hfuel : n < fuel) :
  RequestsHelper.get_response add ge format monotonic http_get
                              fuel service_url (Some wait) w
  = Some (match http_get (length (requested w) + n) service_url with
          | Some r => (Returns r, after_attempts (S n) (S n) service_url w)
          | None =>
              (Raises (AssertionError ("No response from service within "
                                         +:+ format wait +:+ " seconds")),
               after_attempts (S n) (S (S n)) service_url w)
          end).
Proof.
  unfold RequestsHelper.get_response, RequestsHelper.time_monotonic.
  rewrite (poll_outcome ge monotonic http_get n fuel);
    cbn [requested clock_reads]; [|exact Hretry|exact Hlast|exact Hfuel].
  destruct (http_get _ _); do 2 f_equal;
    unfold after_attempts; cbn [spawned requested clock_reads printed];
    f_equal; lia.
Qed.

Lemma get_response_retries_until_deadline_witness :
  let get := RequestsHelper.get_response
               Z.add Z.geb pretty sample_clock in
  get (sample_service "hello") 10 "http://10.0.0.2:80" (Some 30%Z) fresh_world
  = Some (Returns (RequestsHelper.mkResponse 200 "hello"),
          after_attempts 4 4 "http://10.0.0.2:80" fresh_world)
  /\ get no_service 10 "http://10.0.0.2:80" (Some 3%Z) fresh_world
     = Some (Raises (AssertionError "No response from service within 3 seconds"),
             after_attempts 3 4 "http://10.0.0.2:80" fresh_world).
Proof.
  intros get. split.
  - refine (get_response_retries_until_deadline
              Z.add Z.geb pretty sample_clock (sample_service "hello")
              "http://10.0.0.2:80" 30%Z fresh_world 3 10 _ _ _).
    + intros i Hi.
      destruct i as [|[|[|i]]]; [split; reflexivity..|lia].
    + left. by eexists.
    + lia.
  - refine (get_response_retries_until_deadline
              Z.add Z.geb pretty sample_clock no_service
              "http://10.0.0.2:80" 3%Z fresh_world 2 10 _ _ _).
    + intros i Hi.
      destruct i as [|[|i]]; [split; reflexivity..|lia].
    + right. reflexivity.
    + lia.
Defined.

(** C8.  [get_response] without a wait makes exactly one request.  If
    it is answered, the response is returned; if it fails, the call
    raises the assertion error "No response from service" without a
    second request.  The deadline is the first clock reading, which
    the next reading of a clock that does not run backwards has
    reached. *)
Theorem get_response_without_wait_tries_once
        {Time : Type} (add : Time -> Time -> Time) (ge : Time -> Time -> bool)
        (format : Time -> string) (monotonic : nat -> Time)
        (http_get : nat -> string -> option RequestsHelper.response)
        (service_url : string) (w : World) (fuel : nat)
        (Hclock : ge (monotonic (S (clock_reads w))) (monotonic (clock_reads w)) = true)
        (Hfuel : 0 < fuel) :
  RequestsHelper.get_response add ge format monotonic http_get
                              fuel service_url None w
  = Some (match http_get (length (requested w)) service_url with
          | Some r => (Returns r, after_attempts 1 1 service_url w)
          | None =>
              (Raises (AssertionError "No response from service"),
               after_attempts 1 2 service_url w)
          end).
Proof.
  unfold RequestsHelper.get_response, RequestsHelper.time_monotonic.
  rewrite (poll_outcome ge monotonic http_get 0 fuel);
    cbn [requested clock_reads]; rewrite ?Nat.add_0_r;
    [|intros i Hi; lia|by right|exact Hfuel].
  destruct (http_get _ _); do 2 f_equal;
    unfold after_attempts; cbn [spawned requested clock_reads printed];
    f_equal; lia.
Qed.

Lemma get_response_without_wait_tries_once_witness :
  let get := RequestsHelper.get_response
               Z.add Z.geb pretty sample_clock in
  Z.geb (sample_clock 1) (sample_clock 0) = true
  /\ 0 < 10
  /\ get no_service 10 "http://10.0.0.2:80" None fresh_world
     = Some (Raises (AssertionError "No response from service"),
             after_attempts 1 2 "http://10.0.0.2:80" fresh_world)
  /\ get (sample_service "hello") 10 "http://10.0.0.1:80" None fresh_world
     = Some (Returns (RequestsHelper.mkResponse 200 "hello"),
             after_attempts 1 1 "http://10.0.0.1:80" fresh_world).
Proof.
  intros get.
  assert (Hclock : Z.geb (sample_clock 1) (sample_clock 0) = true) by reflexivity.
  assert (Hfuel : 0 < 10) by lia.
  split; [exact Hclock|]. split; [exact Hfuel|]. split.
  - exact (get_response_without_wait_tries_once
             Z.add Z.geb pretty sample_clock no_service
             "http://10.0.0.2:80" fresh_world 10 Hclock Hfuel).
  - exact (get_response_without_wait_tries_once
             Z.add Z.geb pretty sample_clock (sample_service "hello")
             "http://10.0.0.1:80" fresh_world 10 Hclock Hfuel).
Defined.

(** ** Comparing the original and the redeployed response *)

(** C9.  [compare_redeployed_response] checks in a fixed order and
    stops at the first check that fails: the original must answer
    (else the error of [get_response] is raised and nothing more is
    requested); its status must be the expected one (else "Original
    status", and the redeployed address is not requested); the
    redeployed address must answer within the wait (else the error of
    [get_response]); the two statuses must agree (else "Redeployed
    status", whatever the bodies); the two bodies must agree (else
    "Same response").  With both addresses answering, the expected
    status on the original, equal statuses and equal bodies, the
    comparison returns; with equal statuses and different bodies it
    raises "Same response" and not "Redeployed status". *)
Theorem compare_redeployed_checks_in_order
        {Time : Type} (add : Time -> Time -> Time) (ge : Time -> Time -> bool)
        (format : Time -> string) (monotonic : nat -> Time)
        (http_get : nat -> string -> option RequestsHelper.response)
        (fuel : nat) (original_ip redeployed_ip tcp_port : string) (status : Z)
        (wait_for_target : option Time) (w : World) :
  let original_url := RequestsHelper.url_of original_ip tcp_port in
  let redeployed_url := RequestsHelper.url_of redeployed_ip tcp_port in
  let get := RequestsHelper.get_response add ge format monotonic http_get fuel in
  let compare :=
    RequestsHelper.compare_redeployed_response
      add ge format monotonic http_get
      fuel original_ip redeployed_ip tcp_port status wait_for_target w in
  (forall e w1,
      get original_url None w = Some (Raises e, w1) ->
      compare = Some (Raises e, w1))
  /\ (forall r1 w1,
         get original_url None w = Some (Returns r1, w1) ->
         let w1' := with_line ("Response received from " +:+ original_url) w1 in
         (RequestsHelper.status_code r1 <> status ->
          compare = Some (Raises (AssertionError "Original status"), w1'))
         /\ (RequestsHelper.status_code r1 = status ->
             (forall e w2,
                 get redeployed_url wait_for_target w1' = Some (Raises e, w2) ->
                 compare = Some (Raises e, w2))
             /\ (forall r2 w2,
                    get redeployed_url wait_for_target w1' = Some (Returns r2, w2) ->
                    let w2' :=
                      with_line ("Response received from " +:+ redeployed_url) w2 in
                    (RequestsHelper.status_code r2 <> RequestsHelper.status_code r1 ->
                     compare = Some (Raises (AssertionError "Redeployed status"), w2'))
                    /\ (RequestsHelper.status_code r2 = RequestsHelper.status_code r1 ->
                        RequestsHelper.text r2 <> RequestsHelper.text r1 ->
                        compare = Some (Raises (AssertionError "Same response"), w2'))
                    /\ (RequestsHelper.status_code r2 = RequestsHelper.status_code r1 ->
                        RequestsHelper.text r2 = RequestsHelper.text r1 ->
                        compare = Some (Returns tt, w2'))))).
Proof.
  intros original_url redeployed_url get compare.
  assert (Hcompare :
            compare
            = match get original_url None w with
              | None => None
              | Some (Raises e, w1) => Some (Raises e, w1)
              | Some (Returns r1, w1) =>
                  let w1' := with_line ("Response received from " +:+ original_url) w1 in
                  if decide (RequestsHelper.status_code r1 = status) then
                    match get redeployed_url wait_for_target w1' with
                    | None => None
                    | Some (Raises e, w2) => Some (Raises e, w2)
                    | Some (Returns r2, w2) =>
                        let w2' :=
                          with_line ("Response received from " +:+ redeployed_url) w2 in
                        if decide (RequestsHelper.status_code r2
                                   = RequestsHelper.status_code r1) then
                          if decide (RequestsHelper.text r2 = RequestsHelper.text r1)
                          then Some (Returns tt, w2')
                          else Some (Raises (AssertionError "Same response"), w2')
                        else Some (Raises (AssertionError "Redeployed status"), w2')
                    end
                  else Some (Raises (AssertionError "Original status"), w1')
              end).
  { subst compare. unfold RequestsHelper.compare_redeployed_response.
    fold original_url redeployed_url get.
    destruct (get original_url None w) as [[[r1|e] w1]|]; [|done..].
    unfold RequestsHelper.assert_that_equal_to, bind, print, ret, raise, with_line.
    destruct (decide (RequestsHelper.status_code r1 = status)); [|done].
    destruct (get redeployed_url wait_for_target _) as [[[r2|e'] w2]|]; [|done..].
    destruct (decide (RequestsHelper.status_code r2 = RequestsHelper.status_code r1));
      [|done].
    by destruct (decide (RequestsHelper.text r2 = RequestsHelper.text r1)). }
  rewrite Hcompare. clear Hcompare compare.
  split.
  - by intros e w1 ->.
  - intros r1 w1 ->. cbv zeta. split.
    + intros Hne. by rewrite decide_False.
    + intros Heq. rewrite decide_True by done. split.
      * by intros e w2 ->.
      * intros r2 w2 ->. split; [|split].
        -- intros Hne. by rewrite decide_False.
        -- intros Hs Hne. by rewrite decide_True, decide_False.
        -- intros Hs Ht. by rewrite !decide_True.
Qed.

Lemma compare_redeployed_checks_in_order_witness :
  let compare service :=
    RequestsHelper.compare_redeployed_response
      Z.add Z.geb pretty sample_clock service
      10 "10.0.0.1" "10.0.0.2" "80" 200 (Some 30%Z) fresh_world in
  let final :=
    with_line "Response received from http://10.0.0.2:80"
      (after_attempts 3 3 "http://10.0.0.2:80"
         (with_line "Response received from http://10.0.0.1:80"
            (after_attempts 1 1 "http://10.0.0.1:80" fresh_world))) in
  compare (sample_service "hello") = Some (Returns tt, final)
  /\ compare (sample_service "changed")
     = Some (Raises (AssertionError "Same response"), final).
Proof.
  intros compare final. split.
  - destruct (compare_redeployed_checks_in_order
                Z.add Z.geb pretty sample_clock (sample_service "hello")
                10 "10.0.0.1" "10.0.0.2" "80" 200 (Some 30%Z) fresh_world)
      as [_ Hreach].
    destruct (Hreach (RequestsHelper.mkResponse 200 "hello")
                     (after_attempts 1 1 "http://10.0.0.1:80" fresh_world)
                     eq_refl) as [_ Hstatus].
    destruct (Hstatus eq_refl) as [_ Hredeployed].
    destruct (Hredeployed
                (RequestsHelper.mkResponse 200 "hello")
                (after_attempts 3 3 "http://10.0.0.2:80"
                   (with_line "Response received from http://10.0.0.1:80"
                      (after_attempts 1 1 "http://10.0.0.1:80" fresh_world)))
                eq_refl) as (_ & _ & Hsame).
    exact (Hsame eq_refl eq_refl).
  - destruct (compare_redeployed_checks_in_order
                Z.add Z.geb pretty sample_clock (sample_service "changed")
                10 "10.0.0.1" "10.0.0.2" "80" 200 (Some 30%Z) fresh_world)
      as [_ Hreach].
    destruct (Hreach (RequestsHelper.mkResponse 200 "hello")
                     (after_attempts 1 1 "http://10.0.0.1:80" fresh_world)
                     eq_refl) as [_ Hstatus].
    destruct (Hstatus eq_refl) as [_ Hredeployed].
    destruct (Hredeployed
                (RequestsHelper.mkResponse 200 "changed")
                (after_attempts 3 3 "http://10.0.0.2:80"
                   (with_line "Response received from http://10.0.0.1:80"
                      (after_attempts 1 1 "http://10.0.0.1:80" fresh_world)))
                eq_refl) as (_ & Hdiffer & _).
    refine (Hdiffer eq_refl _). discriminate.
Defined.

(** * Further properties *)

(** ** Acquiring and releasing machines *)

(** X2.  [ensure_local_vm] with a definition that has no entry in
    [_VM_DEFS] raises [ValueError] naming the definition; no command is
    run and the helper is unchanged, with or without [destroy]. *)
Theorem ensure_unknown_definition_raises
        (defs : gmap string string) (spawn : list Call -> Call -> Completed)
        (name definition : string) (destroy : bool)
        (self : VirtualMachineHelper.t) (w : World)
        (Hunknown : defs !! (_VM_HOSTNAME_PREFIX +:+ definition) = None) :
  VirtualMachineHelper.ensure_local_vm defs spawn name definition destroy (self, w)
  = (Raises (ValueError ("Unknown VM image: " +:+ definition)), (self, w)).
Proof.
  unfold VirtualMachineHelper.ensure_local_vm. unfold bind at 1.
  rewrite decide_False; [done|]. rewrite Hunknown. by intros [? ?].
Qed.

Lemma ensure_unknown_definition_raises_witness :
  sample_defs !! (_VM_HOSTNAME_PREFIX +:+ "d9") = None
  /\ VirtualMachineHelper.ensure_local_vm
       sample_defs all_succeed "src" "d9" true (VirtualMachineHelper.init, fresh_world)
     = (Raises (ValueError "Unknown VM image: d9"),
        (VirtualMachineHelper.init, fresh_world)).
Proof.
  split; [reflexivity|].
  exact (ensure_unknown_definition_raises
           sample_defs all_succeed "src" "d9" true
           VirtualMachineHelper.init fresh_world eq_refl).
Defined.

(** X3.  When [vagrant up] exits with a status other than zero,
    [ensure_local_vm] (without [destroy]) raises [CalledProcessError]
    with that status; the name is not entered in the name map and no
    teardown callback is registered, so a machine that did not start
    is not halted later. *)
Theorem ensure_failed_up_registers_nothing
        (defs : gmap string string) (spawn : list Call -> Call -> Completed)
        (name definition vm_dir : string)
        (self : VirtualMachineHelper.t) (w : World)
        (Hdef : defs !! (_VM_HOSTNAME_PREFIX +:+ definition) = Some vm_dir)
        (Hfail : returncode (spawn (spawned w) (mkCall ["vagrant"; "up"] (Some vm_dir)))
                 <> 0%Z) :
  let status :=
    returncode (spawn (spawned w) (mkCall ["vagrant"; "up"] (Some vm_dir))) in
  let '(r, (self', w')) :=
    VirtualMachineHelper.ensure_local_vm defs spawn name definition false (self, w) in
  r = Raises (CalledProcessError status ["vagrant"; "up"])
  /\ self' = self
  /\ spawned w' = spawned w ++ [mkCall ["vagrant"; "up"] (Some vm_dir)].
Proof.
  intros status. subst status.
  unfold VirtualMachineHelper.ensure_local_vm, VirtualMachineHelper._vm_up,
    VirtualMachineHelper._run_vagrant.
  rewrite Hdef. unfold _run_command. unfold_monad.
  rewrite decide_True by eauto.
  cbn [VirtualMachineHelper._machines VirtualMachineHelper._resource_manager
       spawned requested clock_reads printed].
  rewrite decide_False by exact Hfail.
  by destruct self.
Qed.

Lemma ensure_failed_up_registers_nothing_witness :
  sample_defs !! (_VM_HOSTNAME_PREFIX +:+ "d1") = Some "/vmdefs/d1"
  /\ (let '(r, (self', w')) :=
        VirtualMachineHelper.ensure_local_vm
          sample_defs all_fail "src" "d1" false
          (VirtualMachineHelper.init, fresh_world) in
      r = Raises (CalledProcessError 1 ["vagrant"; "up"])
      /\ self' = VirtualMachineHelper.init
      /\ spawned w' = [mkCall ["vagrant"; "up"] (Some "/vmdefs/d1")]).
Proof.
  split; [reflexivity|].
  refine (ensure_failed_up_registers_nothing
            sample_defs all_fail "src" "d1" "/vmdefs/d1"
            VirtualMachineHelper.init fresh_world eq_refl _).
  discriminate.
Defined.

(** X4.  After [close], in any state reached by [ensure_local_vm],
    [get_hostname] and [close] calls on a fresh helper, no name is
    known any more: [get_hostname] raises [KeyError] for every
    name. *)
Theorem get_hostname_after_close_raises
        (defs : gmap string string) (spawn : list Call -> Call -> Completed)
        (ops : list VirtualMachineHelper.op) (w : World) (name : string) :
  let s := VirtualMachineHelper.run_ops defs spawn ops (VirtualMachineHelper.init, w) in
  fst (VirtualMachineHelper.get_hostname
         name (snd (VirtualMachineHelper.close defs spawn s)))
  = Raises (KeyError name).
Proof.
  intros s.
  assert (Hinv : VirtualMachineHelper.teardown_registered (fst s)).
  { apply run_ops_preserve. intros n Hn. simpl in Hn.
    rewrite lookup_empty in Hn. by destruct Hn. }
  destruct s as [self w0]. simpl in Hinv.
  destruct (close_releases defs spawn self w0 Hinv) as [Hm _].
  destruct (VirtualMachineHelper.close defs spawn (self, w0)) as [r [self' w']].
  simpl in *. by rewrite Hm, lookup_empty.
Qed.

(** X5.  [close] may be called again: on the state left by a [close],
    a second [close] returns normally, runs no command and changes
    nothing, whatever the first one did or raised. *)
Theorem close_twice_is_close_once
        (defs : gmap string string) (spawn : list Call -> Call -> Completed)
        (self : VirtualMachineHelper.t) (w : World) :
  let s1 := snd (VirtualMachineHelper.close defs spawn (self, w)) in
  VirtualMachineHelper.close defs spawn s1 = (Returns tt, s1).
Proof.
  intros s1. subst s1.
  pose proof (close_helper defs spawn self w) as Hself.
  destruct (VirtualMachineHelper.close defs spawn (self, w)) as [r [self' w']].
  simpl in *. subst self'. reflexivity.
Qed.

(** X6.  [ensure_local_vm] with [destroy=True] raises [KeyError] for
    the hostname whenever the hostname is not itself a key of the name
    map, in any state of the helper; no command is run and nothing
    changes.  It can only get past the preliminary destroy when a
    machine was acquired under a name equal to the hostname. *)
Theorem ensure_destroy_needs_hostname_as_name
        (defs : gmap string string) (spawn : list Call -> Call -> Completed)
        (name definition : string) (self : VirtualMachineHelper.t) (w : World)
        (Hknown : is_Some (defs !! (_VM_HOSTNAME_PREFIX +:+ definition)))
        (Hname : VirtualMachineHelper._machines self
                   !! (_VM_HOSTNAME_PREFIX +:+ definition) = None) :
  VirtualMachineHelper.ensure_local_vm defs spawn name definition true (self, w)
  = (Raises (KeyError (_VM_HOSTNAME_PREFIX +:+ definition)), (self, w)).
Proof.
  unfold VirtualMachineHelper.ensure_local_vm.
  unfold bind at 1. destruct (decide _) as [_|Hno]; [|done].
  unfold ret at 1. unfold bind at 1 2.
  unfold VirtualMachineHelper.on_machines at 1.
  rewrite vm_destroy_unregistered by exact Hname. by destruct self.
Qed.

Lemma ensure_destroy_needs_hostname_as_name_witness :
  let s :=
    snd (VirtualMachineHelper.ensure_local_vm
           sample_defs all_succeed "src" "d1" false
           (VirtualMachineHelper.init, fresh_world)) in
  is_Some (sample_defs !! (_VM_HOSTNAME_PREFIX +:+ "d1"))
  /\ VirtualMachineHelper._machines (fst s) !! (_VM_HOSTNAME_PREFIX +:+ "d1") = None
  /\ VirtualMachineHelper.ensure_local_vm
       sample_defs all_succeed "src" "d1" true s
     = (Raises (KeyError "leapp-tests-d1"), s).
Proof.
  intros s.
  assert (Hknown : is_Some (sample_defs !! (_VM_HOSTNAME_PREFIX +:+ "d1")))
    by (vm_compute; eauto).
  assert (Hname : VirtualMachineHelper._machines (fst s)
                    !! (_VM_HOSTNAME_PREFIX +:+ "d1") = None)
    by (vm_compute; reflexivity).
  split; [exact Hknown|]. split; [exact Hname|].
  exact (ensure_destroy_needs_hostname_as_name
           sample_defs all_succeed "src" "d1" (fst s) (snd s) Hknown Hname).
Defined.

Section SafetyFacts.

Variable _VM_DEFS : gmap string string.
Variable spawn : list Call -> Call -> Completed.

Abbreviation hostnames_known := (VirtualMachineHelper.hostnames_known _VM_DEFS).
Abbreviation calls_ok :=
  (fun w : World => Forall (VirtualMachineHelper.vagrant_call _VM_DEFS) (spawned w)).

Lemma run_command_spawned (cmd : list string) (work_dir : string)
      (ignore_errors : bool) (w : World) :
  spawned (snd (_run_command spawn cmd work_dir ignore_errors w))
  = spawned w ++ [mkCall cmd (Some work_dir)].
Proof.
  unfold _run_command. unfold_monad. cbn [spawned requested clock_reads printed].
  destruct (decide _); [done|]. by destruct ignore_errors.
Qed.

Lemma run_vagrant_calls_ok (hostname sub : string) (ignore_errors : bool) (w : World) :
  sub ∈ ["up"; "halt"; "destroy"] ->
  calls_ok w ->
  calls_ok (snd (VirtualMachineHelper._run_vagrant
                   _VM_DEFS spawn hostname [sub] ignore_errors w)).
Proof.
  intros Hsub Hok. unfold VirtualMachineHelper._run_vagrant.
  destruct (_VM_DEFS !! hostname) as [vm_dir|] eqn:Hdef; [|exact Hok].
  rewrite run_command_spawned. apply Forall_app. split; [exact Hok|].
  apply Forall_singleton. by exists sub, hostname, vm_dir.
Qed.

Lemma vm_up_calls_ok (name hostname : string) (machines : gmap string string)
      (w : World) :
  calls_ok w ->
  calls_ok (snd (snd (VirtualMachineHelper._vm_up
                        _VM_DEFS spawn name hostname (machines, w)))).
Proof.
  intros Hok.
  pose proof (run_vagrant_calls_ok hostname "up" false w
                ltac:(set_solver) Hok) as Hrun.
  unfold VirtualMachineHelper._vm_up. unfold_monad.
  by destruct (VirtualMachineHelper._run_vagrant _ _ _ _ _ _) as [[out|e] w1].
Qed.

Lemma invoke_calls_ok (cb : VirtualMachineHelper.teardown)
      (machines : gmap string string) (w : World) :
  calls_ok w ->
  calls_ok (snd (snd (VirtualMachineHelper.invoke _VM_DEFS spawn cb (machines, w)))).
Proof.
  intros Hok. destruct cb as [name|name]; simpl;
    unfold VirtualMachineHelper._vm_halt, VirtualMachineHelper._vm_destroy;
    unfold_monad; (destruct (machines !! name) as [hostname|]; [|exact Hok]).
  - pose proof (run_vagrant_calls_ok hostname "halt" true w
                  ltac:(set_solver) Hok) as Hrun.
    by destruct (VirtualMachineHelper._run_vagrant _ _ _ _ _ _) as [[out|e] w1].
  - pose proof (run_vagrant_calls_ok hostname "destroy" true w
                  ltac:(set_solver) Hok) as Hrun.
    by destruct (VirtualMachineHelper._run_vagrant _ _ _ _ _ _) as [[out|e] w1].
Qed.

Lemma unwind_calls_ok (todo : list VirtualMachineHelper.teardown) :
  forall (pending : option exn) (machines : gmap string string) (w : World),
    calls_ok w ->
    calls_ok (snd (snd (ExitStack.unwind (VirtualMachineHelper.invoke _VM_DEFS spawn)
                                         todo pending (machines, w)))).
Proof.
  induction todo as [|cb todo IH]; intros pending machines w Hok; simpl; [done|].
  pose proof (invoke_calls_ok cb machines w Hok) as Hcb.
  destruct (VirtualMachineHelper.invoke _ _ _ _) as [[[]|e] [m1 w1]]; by apply IH.
Qed.

Lemma close_calls_ok (self : VirtualMachineHelper.t) (w : World) :
  calls_ok w ->
  calls_ok (snd (snd (VirtualMachineHelper.close _VM_DEFS spawn (self, w)))).
Proof.
  intros Hok.
  pose proof (unwind_calls_ok (rev (VirtualMachineHelper._resource_manager self))
                              None (VirtualMachineHelper._machines self) w Hok) as Hun.
  unfold VirtualMachineHelper.close, VirtualMachineHelper.on_resource_manager,
    ExitStack.close.
  by destruct (ExitStack.unwind _ _ _ _) as [[e|] [m1 w1]].
Qed.

Lemma ensure_local_vm_calls_ok (name definition : string) (destroy : bool)
      (self : VirtualMachineHelper.t) (w : World) :
  calls_ok w ->
  calls_ok (snd (snd (VirtualMachineHelper.ensure_local_vm
                        _VM_DEFS spawn name definition destroy (self, w)))).
Proof.
  intros Hok. unfold VirtualMachineHelper.ensure_local_vm.
  set (hostname := _VM_HOSTNAME_PREFIX +:+ definition).
  unfold bind at 1. destruct (decide _) as [_|_]; [|exact Hok].
  unfold ret at 1.
  assert (Hup : forall machines stack w1,
             calls_ok w1 ->
             calls_ok (snd (snd ((VirtualMachineHelper.on_machines
                                    (VirtualMachineHelper._vm_up
                                       _VM_DEFS spawn name hostname);;;
                                  (if destroy
                                   then VirtualMachineHelper.on_resource_manager
                                          (ExitStack.callback
                                             (VirtualMachineHelper.Destroy name))
                                   else VirtualMachineHelper.on_resource_manager
                                          (ExitStack.callback
                                             (VirtualMachineHelper.Halt name))))
                                   (VirtualMachineHelper.mk machines stack, w1))))).
  { intros machines stack w1 Hok1.
    pose proof (vm_up_calls_ok name hostname machines w1 Hok1) as Hrun.
    unfold_monad. cbn [VirtualMachineHelper._machines
                         VirtualMachineHelper._resource_manager].
    destruct (VirtualMachineHelper._vm_up _ _ _ _ _) as [[out|e] [m1 w2]];
      [|done]. by destruct destroy. }
  destruct self as [machines stack]. destruct destroy.
  - pose proof (invoke_calls_ok (VirtualMachineHelper.Destroy hostname)
                                machines w Hok) as Hdes.
    simpl in Hdes. unfold bind in Hdes.
    unfold bind at 1 2. unfold VirtualMachineHelper.on_machines at 1.
    cbn [VirtualMachineHelper._machines VirtualMachineHelper._resource_manager].
    destruct (VirtualMachineHelper._vm_destroy _ _ _ _) as [[out|e] [m1 w1]];
      [|exact Hdes].
    unfold ret at 1. by apply Hup.
  - unfold bind at 1. unfold ret at 1. by apply Hup.
Qed.

Lemma run_ops_calls_ok (ops : list VirtualMachineHelper.op) :
  forall s : VirtualMachineHelper.t * World,
    calls_ok (snd s) ->
    calls_ok (snd (VirtualMachineHelper.run_ops _VM_DEFS spawn ops s)).
Proof.
  induction ops as [|o ops IH]; intros [self w] Hok; simpl; [done|].
  apply IH. destruct o as [name definition destroy|name|];
    unfold VirtualMachineHelper.run_op.
  - by apply ensure_local_vm_calls_ok.
  - by rewrite get_hostname_state.
  - by apply close_calls_ok.
Qed.

Lemma foldl_delete_subseteq (todo : list VirtualMachineHelper.teardown)
      (machines : gmap string string) (name hostname : string) :
  foldl (fun m cb => delete (VirtualMachineHelper.teardown_name cb) m) machines todo
    !! name = Some hostname ->
  machines !! name = Some hostname.
Proof. rewrite lookup_foldl_delete. by case_decide. Qed.

Lemma ensure_local_vm_hostnames_known (name definition : string) (destroy : bool)
      (self : VirtualMachineHelper.t) (w : World) :
  hostnames_known self ->
  hostnames_known
    (fst (snd (VirtualMachineHelper.ensure_local_vm
                 _VM_DEFS spawn name definition destroy (self, w)))).
Proof.
  intros Hinv.
  destruct (_VM_DEFS !! (_VM_HOSTNAME_PREFIX +:+ definition)) as [vm_dir|] eqn:Hdef.
  - pose proof (ensure_local_vm_cases _VM_DEFS spawn name definition destroy self w)
      as Hcases. simpl in Hcases.
    destruct (VirtualMachineHelper.ensure_local_vm _ _ _ _ _ _) as [r [self' w']].
    simpl. intros n h Hn.
    assert (Hbefore : forall m,
               (m = VirtualMachineHelper._machines self
                \/ m = (if destroy
                        then delete (_VM_HOSTNAME_PREFIX +:+ definition)
                                    (VirtualMachineHelper._machines self)
                        else VirtualMachineHelper._machines self)) ->
               m !! n = Some h -> is_Some (_VM_DEFS !! h)).
    { intros m [->| ->] Hm; [by eapply Hinv|]. destruct destroy; [|by eapply Hinv].
      apply lookup_delete_Some in Hm as [_ Hm]. by eapply Hinv. }
    destruct Hcases as [(_ & Hm & _)|(_ & [Hm|Hm] & _)]; rewrite Hm in Hn.
    + destruct (decide (n = name)) as [->|Hne].
      * rewrite lookup_insert_eq in Hn. injection Hn as <-. by rewrite Hdef.
      * rewrite lookup_insert_ne in Hn by done. by apply (Hbefore _ (or_intror eq_refl)).
    + by apply (Hbefore _ (or_introl eq_refl)).
    + by apply (Hbefore _ (or_intror eq_refl)).
  - unfold VirtualMachineHelper.ensure_local_vm. unfold bind at 1.
    rewrite decide_False; [done|]. rewrite Hdef. by intros [? ?].
Qed.

Lemma run_ops_hostnames_known (ops : list VirtualMachineHelper.op) :
  forall s : VirtualMachineHelper.t * World,
    hostnames_known (fst s) ->
    hostnames_known (fst (VirtualMachineHelper.run_ops _VM_DEFS spawn ops s)).
Proof.
  induction ops as [|o ops IH]; intros [self w] Hinv; simpl; [done|].
  apply IH. destruct o as [name definition destroy|name|];
    unfold VirtualMachineHelper.run_op.
  - by apply ensure_local_vm_hostnames_known.
  - by rewrite get_hostname_state.
  - rewrite close_helper. intros n h Hn. simpl in Hn.
    apply foldl_delete_subseteq in Hn. by eapply Hinv.
Qed.

End SafetyFacts.

(** X7.  In every state reached by [ensure_local_vm], [get_hostname]
    and [close] calls on a fresh helper, every hostname in the name
    map is a key of [_VM_DEFS]: a name never denotes a machine without
    a definition directory, so halting or destroying a registered
    machine never fails on the lookup of its directory. *)
Theorem registered_hostnames_have_definitions
        (defs : gmap string string) (spawn : list Call -> Call -> Completed)
        (ops : list VirtualMachineHelper.op) (w : World) (name hostname : string) :
  let s := VirtualMachineHelper.run_ops defs spawn ops (VirtualMachineHelper.init, w) in
  fst (VirtualMachineHelper.get_hostname name s) = Returns hostname ->
  is_Some (defs !! hostname)
  /\ fst (VirtualMachineHelper._run_vagrant defs spawn hostname ["halt"] true (snd s))
     = Returns (stdout (spawn (spawned (snd s))
                              (mkCall ["vagrant"; "halt"]
                                      (defs !! hostname)))).
Proof.
  intros s Hget.
  assert (Hinv : VirtualMachineHelper.hostnames_known defs (fst s)).
  { apply run_ops_hostnames_known. intros n h Hn. simpl in Hn.
    by rewrite lookup_empty in Hn. }
  destruct s as [self w0]. simpl in *.
  unfold VirtualMachineHelper.get_hostname in Hget.
  destruct (VirtualMachineHelper._machines self !! name) as [h|] eqn:Hname;
    [|discriminate Hget].
  injection Hget as ->.
  destruct (Hinv name hostname Hname) as [vm_dir Hdir].
  split; [by eexists|].
  unfold VirtualMachineHelper._run_vagrant. rewrite Hdir.
  by rewrite run_command_ignoring.
Qed.

Lemma registered_hostnames_have_definitions_witness :
  let s :=
    VirtualMachineHelper.run_ops
      sample_defs all_fail [VirtualMachineHelper.EnsureVM "src" "d1" false]
      (VirtualMachineHelper.init, fresh_world) in
  let s' :=
    VirtualMachineHelper.run_ops
      sample_defs all_succeed [VirtualMachineHelper.EnsureVM "src" "d1" false]
      (VirtualMachineHelper.init, fresh_world) in
  fst (VirtualMachineHelper.get_hostname "src" s) = Raises (KeyError "src")
  /\ fst (VirtualMachineHelper.get_hostname "src" s') = Returns "leapp-tests-d1"
  /\ is_Some (sample_defs !! "leapp-tests-d1").
Proof.
  intros s s'. split; [reflexivity|].
  assert (Hget : fst (VirtualMachineHelper.get_hostname "src" s')
                 = Returns "leapp-tests-d1") by reflexivity.
  split; [exact Hget|].
  exact (proj1 (registered_hostnames_have_definitions
                  sample_defs all_succeed
                  [VirtualMachineHelper.EnsureVM "src" "d1" false]
                  fresh_world "src" "leapp-tests-d1" Hget)).
Defined.

(** X8.  The helper runs nothing but [vagrant up], [vagrant halt] and
    [vagrant destroy], each from the directory of a VM definition:
    every process spawned by any sequence of [ensure_local_vm],
    [get_hostname] and [close] calls is such a call. *)
Theorem helper_spawns_only_vagrant_calls
        (defs : gmap string string) (spawn : list Call -> Call -> Completed)
        (ops : list VirtualMachineHelper.op) (self : VirtualMachineHelper.t) :
  Forall (VirtualMachineHelper.vagrant_call defs)
         (spawned (snd (VirtualMachineHelper.run_ops
                          defs spawn ops (self, fresh_world)))).
Proof.
  apply (run_ops_calls_ok defs spawn ops (self, fresh_world)).
  simpl. constructor.
Qed.

Section AcquireFacts.

Variable _VM_DEFS : gmap string string.
Variable spawn : list Call -> Call -> Completed.

(** A machine to acquire: its name, its definition and the directory
    of the definition. *)
Abbreviation vm_name := (fun v : string * string * string => v.1.1).
Abbreviation vm_hostname :=
  (fun v : string * string * string => _VM_HOSTNAME_PREFIX +:+ v.1.2).
Abbreviation vm_call :=
  (fun (sub : string) (v : string * string * string) =>
     mkCall ["vagrant"; sub] (Some v.2)).
Abbreviation enter :=
  (fun (m : gmap string string) (v : string * string * string) =>
     <[vm_name v := vm_hostname v]> m).

Lemma acquire_all_up (vms : list (string * string * string)) :
  forall (self : VirtualMachineHelper.t) (w : World),
    Forall (fun v => _VM_DEFS !! vm_hostname v = Some v.2) vms ->
    (forall history vm_dir,
        returncode (spawn history (mkCall ["vagrant"; "up"] (Some vm_dir))) = 0%Z) ->
    exists w1,
      VirtualMachineHelper.acquire_all _VM_DEFS spawn (map fst vms) (self, w)
      = (Returns tt,
         (VirtualMachineHelper.mk
            (foldl enter (VirtualMachineHelper._machines self) vms)
            (VirtualMachineHelper._resource_manager self
             ++ map (fun v => VirtualMachineHelper.Halt (vm_name v)) vms),
          w1))
      /\ spawned w1 = spawned w ++ map (vm_call "up") vms.
Proof.
  induction vms as [|[[name definition] vm_dir] vms IH]; intros self w Hdefs Hup.
  - exists w. simpl. rewrite !app_nil_r. by destruct self.
  - apply Forall_cons in Hdefs as [Hdef Hdefs]. simpl in Hdef.
    cbn [map fst VirtualMachineHelper.acquire_all]. unfold bind.
    rewrite (ensure_local_vm_up _VM_DEFS spawn name definition vm_dir self w
               Hdef (Hup _ _)).
    destruct (IH (VirtualMachineHelper.mk
                    (<[name := _VM_HOSTNAME_PREFIX +:+ definition]>
                       (VirtualMachineHelper._machines self))
                    (VirtualMachineHelper._resource_manager self
                     ++ [VirtualMachineHelper.Halt name]))
                 (after_up (_VM_HOSTNAME_PREFIX +:+ definition) vm_dir w)
                 Hdefs Hup) as (w1 & Hrun & Hsp).
    exists w1. rewrite Hrun.
    cbn [VirtualMachineHelper._machines VirtualMachineHelper._resource_manager].
    split.
    + simpl. by rewrite <- app_assoc.
    + rewrite Hsp. unfold after_up. cbn [spawned]. by rewrite <- app_assoc.
Qed.

Lemma lookup_entered_other (vms : list (string * string * string)) :
  forall (machines : gmap string string) (name : string),
    name ∉ map vm_name vms ->
    foldl enter machines vms !! name = machines !! name.
Proof.
  induction vms as [|v vms IH]; intros machines name Hnin; simpl; [done|].
  apply not_elem_of_cons in Hnin as [Hne Hnin].
  rewrite IH by done. by rewrite lookup_insert_ne.
Qed.

Lemma lookup_entered (vms : list (string * string * string)) :
  forall (machines : gmap string string) (v : string * string * string),
    NoDup (map vm_name vms) ->
    v ∈ vms ->
    foldl enter machines vms !! vm_name v = Some (vm_hostname v).
Proof.
  induction vms as [|v0 vms IH]; intros machines v Hnodup Hin.
  - by apply elem_of_nil in Hin.
  - simpl in Hnodup. apply NoDup_cons in Hnodup as [Hfresh Hnodup].
    apply elem_of_cons in Hin as [->|Hin]; simpl.
    + rewrite lookup_entered_other by done. by rewrite lookup_insert_eq.
    + by apply IH.
Qed.

Lemma omap_map_some {A B C : Type} (f : B -> option C) (g : A -> B) (h : A -> C)
      (l : list A) :
  Forall (fun x => f (g x) = Some (h x)) l -> omap f (map g l) = map h l.
Proof.
  induction 1 as [|x l Hx _ IH]; simpl; [done|]. rewrite Hx. f_equal. exact IH.
Qed.

End AcquireFacts.

(** X9.  Machines acquired under distinct names without [destroy],
    with [vagrant up] succeeding, are each halted exactly once by
    [close], the one acquired last first: the commands run are the
    [vagrant up] calls in the order of acquisition followed by the
    [vagrant halt] calls in the reverse order.  [close] returns
    normally whatever the exit statuses of the halt commands are, and
    leaves the name map and the stack empty. *)
Theorem acquired_machines_halted_in_reverse
        (defs : gmap string string) (spawn : list Call -> Call -> Completed)
        (vms : list (string * string * string)) (w : World)
        (Hnodup : NoDup (map (fun v : string * string * string => v.1.1) vms))
        (Hdefs : Forall (fun v : string * string * string =>
                           defs !! (_VM_HOSTNAME_PREFIX +:+ v.1.2) = Some v.2) vms)
        (Hup : forall history vm_dir,
            returncode (spawn history (mkCall ["vagrant"; "up"] (Some vm_dir))) = 0%Z) :
  exists w',
    (VirtualMachineHelper.acquire_all defs spawn (map fst vms) ;;;
     VirtualMachineHelper.close defs spawn) (VirtualMachineHelper.init, w)
    = (Returns tt, (VirtualMachineHelper.mk ∅ [], w'))
    /\ spawned w'
       = spawned w
         ++ map (fun v => mkCall ["vagrant"; "up"] (Some v.2)) vms
         ++ map (fun v => mkCall ["vagrant"; "halt"] (Some v.2)) (rev vms).
Proof.
  destruct (acquire_all_up defs spawn vms VirtualMachineHelper.init w Hdefs Hup)
    as (w1 & Hrun & Hsp).
  unfold bind. rewrite Hrun. simpl VirtualMachineHelper._machines.
  simpl VirtualMachineHelper._resource_manager. rewrite app_nil_l.
  set (machines := foldl _ ∅ vms).
  set (stack := map _ vms).
  assert (Hcall : Forall (fun v : string * string * string =>
                            VirtualMachineHelper.teardown_call
                              defs machines (VirtualMachineHelper.Halt v.1.1)
                            = Some (mkCall ["vagrant"; "halt"] (Some v.2)))
                         (rev vms)).
  { apply Forall_forall. intros v Hin.
    apply list_elem_of_In, in_rev in Hin.
    apply list_elem_of_In in Hin.
    unfold VirtualMachineHelper.teardown_call. simpl. subst machines.
    rewrite (lookup_entered vms ∅ v Hnodup Hin).
    rewrite Forall_forall in Hdefs. by rewrite (Hdefs v Hin). }
  assert (Hrev : rev stack
                 = map (fun v : string * string * string =>
                          VirtualMachineHelper.Halt v.1.1) (rev vms))
    by (subst stack; by rewrite map_rev).
  destruct (unwind_resolvable defs spawn (rev stack) machines w1 None)
    as (w2 & Hunwind & Hsp2 & _).
  { rewrite Hrev, map_map. simpl. rewrite map_rev.
    by apply NoDup_ListNoDup, NoDup_rev, NoDup_ListNoDup. }
  { rewrite Hrev. apply Forall_map. eapply Forall_impl; [exact Hcall|].
    intros v Hv. simpl. rewrite Hv. by eexists. }
  exists w2.
  unfold VirtualMachineHelper.close, VirtualMachineHelper.on_resource_manager,
    ExitStack.close.
  cbn [VirtualMachineHelper._machines VirtualMachineHelper._resource_manager].
  rewrite Hunwind. split.
  - do 3 f_equal. apply map_eq. intros name.
    rewrite lookup_empty, lookup_foldl_delete. case_decide as Hin; [done|].
    subst machines. rewrite lookup_entered_other, lookup_empty; [done|].
    intros Hname. apply Hin. rewrite Hrev, map_map. simpl.
    rewrite map_rev. apply list_elem_of_In, in_rev.
    rewrite rev_involutive. by apply list_elem_of_In.
  - rewrite Hsp2, Hsp, <- app_assoc. do 2 f_equal.
    rewrite Hrev. by apply omap_map_some.
Qed.

Lemma acquired_machines_halted_in_reverse_witness :
  let vms := [("src", "d1", "/vmdefs/d1"); ("dst", "d2", "/vmdefs/d2")] in
  NoDup (map (fun v : string * string * string => v.1.1) vms)
  /\ Forall (fun v : string * string * string =>
               sample_defs !! (_VM_HOSTNAME_PREFIX +:+ v.1.2) = Some v.2) vms
  /\ exists w',
      (VirtualMachineHelper.acquire_all sample_defs teardowns_fail
                                        [("src", "d1"); ("dst", "d2")] ;;;
       VirtualMachineHelper.close sample_defs teardowns_fail)
        (VirtualMachineHelper.init, fresh_world)
      = (Returns tt, (VirtualMachineHelper.mk ∅ [], w'))
      /\ spawned w'
         = [mkCall ["vagrant"; "up"] (Some "/vmdefs/d1");
            mkCall ["vagrant"; "up"] (Some "/vmdefs/d2");
            mkCall ["vagrant"; "halt"] (Some "/vmdefs/d2");
            mkCall ["vagrant"; "halt"] (Some "/vmdefs/d1")].
Proof.
  intros vms.
  assert (Hnodup : NoDup (map (fun v : string * string * string => v.1.1) vms)).
  { apply NoDup_cons. split; [|apply NoDup_singleton].
    intros [Heq|Hin]%elem_of_cons; [discriminate Heq|by apply elem_of_nil in Hin]. }
  assert (Hdefs : Forall (fun v : string * string * string =>
                            sample_defs !! (_VM_HOSTNAME_PREFIX +:+ v.1.2)
                            = Some v.2) vms).
  { repeat constructor. }
  split; [exact Hnodup|]. split; [exact Hdefs|].
  exact (acquired_machines_halted_in_reverse
           sample_defs teardowns_fail vms fresh_world Hnodup Hdefs
           (fun _ _ => eq_refl)).
Defined.

(** ** A whole run *)

Section RunFacts.

Variable _VM_DEFS : gmap string string.
Variable spawn : list Call -> Call -> Completed.

Abbreviation registered := VirtualMachineHelper.teardown_registered.
Abbreviation release :=
  (fun (objs : list VirtualMachineHelper.t) (cb : Hooks.cleanup) =>
     match cb with Hooks.HelperClose id => <[id := released]> objs end).

Lemma released_registered : registered released.
Proof. intros name Hname. simpl in Hname. rewrite lookup_empty in Hname. by destruct Hname. Qed.

(** Closing a helper through its callback leaves it released. *)
Lemma hook_invoke_objects (cb : Hooks.cleanup)
      (objs : list VirtualMachineHelper.t) (w : World) :
  Forall registered objs ->
  fst (snd (Hooks.invoke _VM_DEFS spawn cb (objs, w))) = release objs cb.
Proof.
  intros Hall. destruct cb as [id]. unfold Hooks.invoke, Hooks.on_object.
  destruct (objs !! id) as [self|] eqn:Hid.
  - assert (Hself : registered self) by (by eapply Forall_lookup_1).
    destruct (close_releases _VM_DEFS spawn self w Hself) as [Hm Hs].
    destruct (VirtualMachineHelper.close _ _ _) as [r [[machines stack] w']].
    simpl in *. by subst.
  - simpl. rewrite list_insert_ge; [done|]. by apply lookup_ge_None.
Qed.

Lemma release_registered (objs : list VirtualMachineHelper.t) (cb : Hooks.cleanup) :
  Forall registered objs -> Forall registered (release objs cb).
Proof.
  intros Hall. destruct cb as [id].
  destruct (decide (id < length objs)) as [Hlt|Hge].
  - apply Forall_insert; [done|apply released_registered].
  - rewrite list_insert_ge by lia. done.
Qed.

Lemma release_length (objs : list VirtualMachineHelper.t) (cb : Hooks.cleanup) :
  length (release objs cb) = length objs.
Proof. destruct cb. apply length_insert. Qed.

Lemma hook_unwind_objects (todo : list Hooks.cleanup) :
  forall (pending : option exn) (objs : list VirtualMachineHelper.t) (w : World),
    Forall registered objs ->
    fst (snd (ExitStack.unwind (Hooks.invoke _VM_DEFS spawn) todo pending (objs, w)))
    = foldl release objs todo.
Proof.
  induction todo as [|cb todo IH]; intros pending objs w Hall; simpl; [done|].
  pose proof (hook_invoke_objects cb objs w Hall) as Hcb.
  pose proof (release_registered objs cb Hall) as Hall'.
  destruct (Hooks.invoke _ _ _ _) as [[[]|e] [objs1 w1]]; simpl in Hcb;
    subst objs1; by apply IH.
Qed.

Lemma foldl_release_registered (todo : list Hooks.cleanup) :
  forall objs, Forall registered objs -> Forall registered (foldl release objs todo).
Proof.
  induction todo as [|cb todo IH]; intros objs Hall; simpl; [done|].
  by apply IH, release_registered.
Qed.

Lemma foldl_release_length (todo : list Hooks.cleanup) :
  forall objs, length (foldl release objs todo) = length objs.
Proof.
  induction todo as [|cb todo IH]; intros objs; simpl; [done|].
  by rewrite IH, release_length.
Qed.

Lemma foldl_release_stays (todo : list Hooks.cleanup) :
  forall objs i, objs !! i = Some released -> foldl release objs todo !! i = Some released.
Proof.
  induction todo as [|[id] todo IH]; intros objs i Hi; simpl; [done|].
  apply IH. destruct (decide (id = i)) as [->|Hne].
  - apply list_lookup_insert_eq. by eapply lookup_lt_Some.
  - by rewrite list_lookup_insert_ne.
Qed.

Lemma foldl_release_lookup (todo : list Hooks.cleanup) :
  forall objs i,
    i < length objs ->
    Hooks.HelperClose i ∈ todo ->
    foldl release objs todo !! i = Some released.
Proof.
  induction todo as [|[id] todo IH]; intros objs i Hi Hin.
  - by apply elem_of_nil in Hin.
  - simpl. apply elem_of_cons in Hin as [[= <-]|Hin].
    + apply foldl_release_stays. by apply list_lookup_insert_eq.
    + apply IH; [by rewrite length_insert|done].
Qed.

(** Closing a stack of the context leaves it empty, keeps the number
    of helpers and keeps them consistent. *)
Lemma hook_close (stack : list Hooks.cleanup)
      (objs : list VirtualMachineHelper.t) (w : World) :
  Forall registered objs ->
  fst (snd (ExitStack.close (Hooks.invoke _VM_DEFS spawn) (stack, (objs, w)))) = []
  /\ fst (snd (snd (ExitStack.close (Hooks.invoke _VM_DEFS spawn) (stack, (objs, w)))))
     = foldl release objs (rev stack).
Proof.
  intros Hall. unfold ExitStack.close.
  pose proof (hook_unwind_objects (rev stack) None objs w Hall) as Hun.
  by destruct (ExitStack.unwind _ _ _ _) as [[e|] [objs1 w1]].
Qed.

Lemma before_scenario_consistent (ctx : Hooks.context) (w : World) :
  context_consistent ctx ->
  context_consistent (fst (snd (Hooks.before_scenario (ctx, w))))
  /\ length (Hooks.objects (fst (snd (Hooks.before_scenario (ctx, w)))))
     = S (length (Hooks.objects ctx)).
Proof.
  intros [Hglobal Hall]. unfold Hooks.before_scenario. rewrite Hglobal.
  cbn [fst snd]. split; [split|]; cbn [Hooks._global_cleanup Hooks.objects].
  - rewrite length_app. simpl. rewrite Nat.add_1_r, seq_S, map_app. done.
  - apply Forall_app. split; [done|]. apply Forall_singleton.
    intros name Hname. simpl in Hname. rewrite lookup_empty in Hname.
    by destruct Hname.
  - rewrite length_app. simpl. lia.
Qed.

Lemma run_step_consistent (st : Hooks.step) (ctx : Hooks.context) (w : World) :
  context_consistent ctx ->
  context_consistent (fst (snd (Hooks.run_step _VM_DEFS spawn st (ctx, w))))
  /\ length (Hooks.objects (fst (snd (Hooks.run_step _VM_DEFS spawn st (ctx, w)))))
     = length (Hooks.objects ctx).
Proof.
  intros [Hglobal Hall]. unfold Hooks.run_step.
  destruct (Hooks.vm_helper ctx) as [id|]; [|done].
  destruct st as [name definition destroy|].
  - unfold Hooks.on_objects, Hooks.on_object.
    destruct (Hooks.objects ctx !! id) as [self|] eqn:Hid; [|done].
    pose proof (ensure_local_vm_preserves _VM_DEFS spawn name definition destroy
                  self w ltac:(by eapply Forall_lookup_1)) as Hself.
    destruct (VirtualMachineHelper.ensure_local_vm _ _ _ _ _ _) as [r [self' w']].
    cbn [fst snd] in *. unfold context_consistent.
    cbn [Hooks._global_cleanup Hooks.objects]. rewrite length_insert.
    split; [split|done]; [done|].
    apply Forall_insert; [done|exact Hself].
  - by destruct (Hooks.scenario_cleanup ctx).
Qed.

Lemma run_steps_consistent (steps : list Hooks.step) :
  forall (ctx : Hooks.context) (w : World),
    context_consistent ctx ->
    context_consistent (fst (snd (Hooks.run_steps _VM_DEFS spawn steps (ctx, w))))
    /\ length (Hooks.objects
                 (fst (snd (Hooks.run_steps _VM_DEFS spawn steps (ctx, w)))))
       = length (Hooks.objects ctx).
Proof.
  induction steps as [|st steps IH]; intros ctx w Hcons; cbn [Hooks.run_steps]; [done|].
  unfold bind.
  destruct (run_step_consistent st ctx w Hcons) as [Hcons1 Hlen1].
  destruct (Hooks.run_step _ _ _ _) as [[[]|e] [ctx1 w1]]; simpl in *; [|done].
  destruct (IH ctx1 w1 Hcons1) as [Hcons2 Hlen2]. split; [done|]. lia.
Qed.

Lemma after_scenario_consistent (ctx : Hooks.context) (w : World) :
  context_consistent ctx ->
  context_consistent (fst (snd (Hooks.after_scenario _VM_DEFS spawn (ctx, w))))
  /\ length (Hooks.objects
               (fst (snd (Hooks.after_scenario _VM_DEFS spawn (ctx, w)))))
     = length (Hooks.objects ctx).
Proof.
  intros [Hglobal Hall]. unfold Hooks.after_scenario.
  destruct (Hooks.scenario_cleanup ctx) as [stack|]; [|done].
  destruct (hook_close stack (Hooks.objects ctx) w Hall) as [_ Hobjs].
  destruct (ExitStack.close _ _) as [r [stack' [objs w']]]. cbn [fst snd] in *. subst objs.
  unfold context_consistent. cbn [Hooks._global_cleanup Hooks.objects].
  rewrite foldl_release_length. split; [split|done]; [done|].
  by apply foldl_release_registered.
Qed.

Lemma run_scenario_consistent (steps : list Hooks.step) (ctx : Hooks.context)
      (w : World) :
  context_consistent ctx ->
  context_consistent (fst (snd (Hooks.run_scenario _VM_DEFS spawn steps (ctx, w))))
  /\ length (Hooks.objects
               (fst (snd (Hooks.run_scenario _VM_DEFS spawn steps (ctx, w)))))
     = S (length (Hooks.objects ctx)).
Proof.
  intros Hcons. unfold Hooks.run_scenario.
  destruct (before_scenario_consistent ctx w Hcons) as [Hcons1 Hlen1].
  destruct (Hooks.before_scenario (ctx, w)) as [r1 [ctx1 w1]]. cbn [fst snd] in *.
  destruct (run_steps_consistent steps ctx1 w1 Hcons1) as [Hcons2 Hlen2].
  destruct (Hooks.run_steps _ _ _ _) as [r2 [ctx2 w2]]. cbn [fst snd] in *.
  destruct (after_scenario_consistent ctx2 w2 Hcons2) as [Hcons3 Hlen3].
  destruct (Hooks.after_scenario _ _ _) as [r3 [ctx3 w3]]. cbn [fst snd] in *.
  split; [done|]. lia.
Qed.

Lemma run_scenarios_consistent (scenarios : list (list Hooks.step)) :
  forall s : Hooks.context * World,
    context_consistent (fst s) ->
    context_consistent (fst (Hooks.run_scenarios _VM_DEFS spawn scenarios s))
    /\ length (Hooks.objects (fst (Hooks.run_scenarios _VM_DEFS spawn scenarios s)))
       = length (Hooks.objects (fst s)) + length scenarios.
Proof.
  unfold Hooks.run_scenarios.
  induction scenarios as [|steps scenarios IH]; intros [ctx w] Hcons;
    cbn [foldl fst snd length].
  - split; [done|]. lia.
  - destruct (run_scenario_consistent steps ctx w Hcons) as [Hcons1 Hlen1].
    destruct (Hooks.run_scenario _ _ _ _) as [r [ctx1 w1]]. cbn [fst snd] in *.
    destruct (IH (ctx1, w1) Hcons1) as [Hcons2 Hlen2]. cbn [fst snd] in *.
    split; [done|]. lia.
Qed.

End RunFacts.

(** X10.  After a run-start hook that succeeded, whatever the
    scenarios do (acquire machines with or without [destroy], fail in
    any step, opt in to eager cleanup or not), the run-end hook closes
    the helper of every scenario: there is one helper per scenario,
    each ends with an empty name map and an empty stack, and the
    process-wide stack is empty. *)
Theorem after_all_releases_every_helper
        (defs : gmap string string) (spawn : list Call -> Call -> Completed)
        (scenarios : list (list Hooks.step)) (w : World) :
  let started := (Hooks.mk (Some []) None None [], w) in
  let ended := snd (Hooks.after_all defs spawn
                      (Hooks.run_scenarios defs spawn scenarios started)) in
  Hooks._global_cleanup (fst ended) = Some []
  /\ length (Hooks.objects (fst ended)) = length scenarios
  /\ Forall (fun self => self = released) (Hooks.objects (fst ended)).
Proof.
  intros started ended. subst ended.
  destruct (run_scenarios_consistent defs spawn scenarios started) as [[Hglobal Hall] Hlen].
  { split; [reflexivity|constructor]. }
  destruct (Hooks.run_scenarios defs spawn scenarios started) as [ctx w1].
  subst started. cbn [fst snd Hooks.objects length Nat.add] in *.
  unfold Hooks.after_all. rewrite Hglobal.
  destruct (hook_close defs spawn
              (map Hooks.HelperClose (seq 0 (length (Hooks.objects ctx))))
              (Hooks.objects ctx) w1 Hall) as [Hstack Hobjs].
  destruct (ExitStack.close _ _) as [r [stack' [objs w']]].
  cbn [fst snd Hooks.objects Hooks._global_cleanup] in *. subst stack' objs.
  split; [done|]. rewrite foldl_release_length. split; [done|].
  apply Forall_lookup. intros i self Hi.
  assert (Hlt : i < length (Hooks.objects ctx)).
  { apply lookup_lt_Some in Hi. by rewrite foldl_release_length in Hi. }
  rewrite foldl_release_lookup in Hi; [by injection Hi|done|].
  apply list_elem_of_In, in_rev. rewrite rev_involutive.
  apply in_map, in_seq. lia.
Qed.

(** ** The migration helper *)

(** X11.  [redeploy_as_macrocontainer] looks both names up before it
    runs anything: if the source name is not acquired it raises
    [KeyError] for it, and if only the target name is not acquired it
    raises [KeyError] for that one; no command is run and nothing
    changes. *)
Theorem redeploy_unknown_name_raises
        (spawn : list Call -> Call -> Completed) (tool repo : string)
        (loads : string -> outcome (list MigrationInfo.machine))
        (source_vm target_vm : string) (self : VirtualMachineHelper.t) (w : World)
        (Hunknown : VirtualMachineHelper._machines self !! source_vm = None
                    \/ VirtualMachineHelper._machines self !! target_vm = None) :
  MigrationHelper.redeploy_as_macrocontainer
    spawn tool repo loads source_vm target_vm (self, w)
  = (Raises (KeyError (match VirtualMachineHelper._machines self !! source_vm with
                       | Some _ => target_vm
                       | None => source_vm
                       end)),
     (self, w)).
Proof.
  unfold MigrationHelper.redeploy_as_macrocontainer,
    VirtualMachineHelper.get_hostname, bind.
  destruct (VirtualMachineHelper._machines self !! source_vm) as [source_host|];
    [|done].
  destruct Hunknown as [Hs|Ht]; [done|]. by rewrite Ht.
Qed.

Lemma redeploy_unknown_name_raises_witness :
  let s :=
    snd (VirtualMachineHelper.ensure_local_vm
           sample_defs all_succeed "src" "d1" false
           (VirtualMachineHelper.init, fresh_world)) in
  VirtualMachineHelper._machines (fst s) !! "dst" = None
  /\ MigrationHelper.redeploy_as_macrocontainer
       all_succeed "/repo/leapp-tool.py" "/repo" (fun _ => Returns [])
       "src" "dst" s
     = (Raises (KeyError "dst"), s).
Proof.
  intros s.
  assert (Hdst : VirtualMachineHelper._machines (fst s) !! "dst" = None)
    by reflexivity.
  split; [exact Hdst|].
  exact (redeploy_unknown_name_raises
           all_succeed "/repo/leapp-tool.py" "/repo" (fun _ => Returns [])
           "src" "dst" (fst s) (snd s) (or_intror Hdst)).
Defined.

(** X12.  When the migration command exits with a status other than
    zero, [redeploy_as_macrocontainer] raises [CalledProcessError]
    with that status and the command; the machine listing is not
    queried (exactly one process was spawned), and the VM helper is
    unchanged. *)
Theorem redeploy_failed_migration_raises
        (spawn : list Call -> Call -> Completed) (tool repo : string)
        (loads : string -> outcome (list MigrationInfo.machine))
        (source_vm target_vm source_host target_host : string)
        (self : VirtualMachineHelper.t) (w : World) :
  let migrate :=
    ["sudo"; "/usr/bin/python2"; tool; "migrate-machine"; "-t";
     target_host; source_host] in
  let status := returncode (spawn (spawned w) (mkCall migrate (Some repo))) in
  VirtualMachineHelper._machines self !! source_vm = Some source_host ->
  VirtualMachineHelper._machines self !! target_vm = Some target_host ->
  status <> 0%Z ->
  let '(r, (self', w')) :=
    MigrationHelper.redeploy_as_macrocontainer
      spawn tool repo loads source_vm target_vm (self, w) in
  r = Raises (CalledProcessError status migrate)
  /\ self' = self
  /\ spawned w' = spawned w ++ [mkCall migrate (Some repo)].
Proof.
  intros migrate status Hs Ht Hfail.
  unfold MigrationHelper.redeploy_as_macrocontainer,
    MigrationHelper._convert_vm_to_macrocontainer, MigrationHelper._run_leapp,
    VirtualMachineHelper.get_hostname, _run_command.
  unfold_monad. rewrite Hs, Ht.
  cbn [app spawned requested clock_reads printed]. fold migrate. fold status.
  by rewrite decide_False.
Qed.

Lemma redeploy_failed_migration_raises_witness :
  let self :=
    VirtualMachineHelper.mk
      {[ "src" := "leapp-tests-d1"; "dst" := "leapp-tests-d2" ]} [] in
  let migrate :=
    ["sudo"; "/usr/bin/python2"; "/repo/leapp-tool.py"; "migrate-machine"; "-t";
     "leapp-tests-d2"; "leapp-tests-d1"] in
  let '(r, (self', w')) :=
    MigrationHelper.redeploy_as_macrocontainer
      all_fail "/repo/leapp-tool.py" "/repo" (fun _ => Returns [])
      "src" "dst" (self, fresh_world) in
  r = Raises (CalledProcessError 1 migrate)
  /\ self' = self
  /\ spawned w' = [mkCall migrate (Some "/repo")].
Proof.
  intros self migrate.
  refine (redeploy_failed_migration_raises
            all_fail "/repo/leapp-tool.py" "/repo" (fun _ => Returns [])
            "src" "dst" "leapp-tests-d1" "leapp-tests-d2" self fresh_world
            eq_refl eq_refl _).
  discriminate.
Defined.

(** X13.  When the migration command succeeds,
    [redeploy_as_macrocontainer] spawns exactly two processes, the
    migration with the target hostname as destination and the source
    hostname as subject, then the shallow machine listing, both run
    from the repository directory.  If the listing command fails the
    call raises [CalledProcessError]; otherwise the result is
    [from_vm_list] of the parsed listing for the two hostnames, or the
    error of the parser.  The VM helper is unchanged. *)
Theorem redeploy_runs_migration_then_listing
        (spawn : list Call -> Call -> Completed) (tool repo : string)
        (loads : string -> outcome (list MigrationInfo.machine))
        (source_vm target_vm source_host target_host : string)
        (self : VirtualMachineHelper.t) (w : World) :
  let migrate :=
    mkCall ["sudo"; "/usr/bin/python2"; tool; "migrate-machine"; "-t";
            target_host; source_host] (Some repo) in
  let listing :=
    mkCall ["sudo"; "/usr/bin/python2"; tool; "list-machines"; "--shallow"]
           (Some repo) in
  let listed := spawn (spawned w ++ [migrate]) listing in
  VirtualMachineHelper._machines self !! source_vm = Some source_host ->
  VirtualMachineHelper._machines self !! target_vm = Some target_host ->
  returncode (spawn (spawned w) migrate) = 0%Z ->
  let '(r, (self', w')) :=
    MigrationHelper.redeploy_as_macrocontainer
      spawn tool repo loads source_vm target_vm (self, w) in
  self' = self
  /\ spawned w' = spawned w ++ [migrate; listing]
  /\ r = (if decide (returncode listed = 0%Z) then
            match loads (stdout listed) with
            | Returns machines =>
                MigrationInfo.from_vm_list machines source_host target_host
            | Raises e => Raises e
            end
          else Raises (CalledProcessError (returncode listed) (call_cmd listing))).
Proof.
  intros migrate listing listed Hs Ht Hok.
  unfold MigrationHelper.redeploy_as_macrocontainer,
    MigrationHelper._convert_vm_to_macrocontainer,
    MigrationHelper._get_migration_host_info, MigrationHelper._run_leapp,
    MigrationHelper.lift, VirtualMachineHelper.get_hostname, _run_command.
  unfold_monad. rewrite Hs, Ht.
  cbn [app spawned requested clock_reads printed]. fold migrate.
  rewrite decide_True by exact Hok.
  cbn [app spawned requested clock_reads printed]. fold listing. fold listed.
  destruct (decide (returncode listed = 0%Z)) as [Hlisted|Hlisted].
  - destruct (loads (stdout listed)) as [machines|e];
      cbn [spawned]; rewrite <- app_assoc; by destruct self.
  - cbn [spawned]. rewrite <- app_assoc. by destruct self.
Qed.

Lemma redeploy_runs_migration_then_listing_witness :
  let self :=
    VirtualMachineHelper.mk
      {[ "src" := "leapp-tests-d1"; "dst" := "leapp-tests-d2" ]} [] in
  let loads (_ : string) :=
    Returns [MigrationInfo.mkMachine "leapp-tests-d1" ["10.0.0.1"];
             MigrationInfo.mkMachine "leapp-tests-d2" ["10.0.0.2"]] in
  let '(r, (self', w')) :=
    MigrationHelper.redeploy_as_macrocontainer
      all_succeed "/repo/leapp-tool.py" "/repo" loads "src" "dst"
      (self, fresh_world) in
  self' = self
  /\ spawned w'
     = [mkCall ["sudo"; "/usr/bin/python2"; "/repo/leapp-tool.py";
                "migrate-machine"; "-t"; "leapp-tests-d2"; "leapp-tests-d1"]
               (Some "/repo");
        mkCall ["sudo"; "/usr/bin/python2"; "/repo/leapp-tool.py";
                "list-machines"; "--shallow"] (Some "/repo")]
  /\ r = Returns (MigrationInfo.mk 2 (Some "10.0.0.1") (Some "10.0.0.2")).
Proof.
  intros self loads.
  exact (redeploy_runs_migration_then_listing
           all_succeed "/repo/leapp-tool.py" "/repo" loads
           "src" "dst" "leapp-tests-d1" "leapp-tests-d2" self fresh_world
           eq_refl eq_refl eq_refl).
Defined.

(** ** Checking several URLs *)

Section ResponsesFacts.

Context {Time : Type}.
Variable add : Time -> Time -> Time.
Variable ge : Time -> Time -> bool.
Variable format : Time -> string.
Variable monotonic : nat -> Time.
Variable http_get : nat -> string -> option RequestsHelper.response.

Abbreviation get_response :=
  (RequestsHelper.get_response add ge format monotonic http_get).
Abbreviation get_responses_loop :=
  (RequestsHelper.get_responses_loop add ge format monotonic http_get).

(** A request that is answered at once is returned, with or without a
    wait. *)
Lemma get_response_answered (fuel : nat) (url : string) (wait : option Time)
      (w : World) (r : RequestsHelper.response) :
  http_get (length (requested w)) url = Some r ->
  0 < fuel ->
  get_response fuel url wait w = Some (Returns r, after_attempts 1 1 url w).
Proof.
  intros Hget Hfuel.
  unfold RequestsHelper.get_response, RequestsHelper.time_monotonic.
  destruct wait as [wait|];
    rewrite (poll_outcome ge monotonic http_get 0 fuel);
    cbn [requested clock_reads]; rewrite ?Nat.add_0_r, ?Hget;
    try (intros i Hi; lia); try (left; by eexists); try exact Hfuel;
    do 2 f_equal; unfold after_attempts;
    cbn [spawned requested clock_reads printed]; f_equal; lia.
Qed.

(** The loop on a list that starts with targets that are all answered
    goes on with the rest of the list. *)
Lemma get_responses_loop_app (fuel : nat) (pre rest : list RequestsHelper.url_to_check) :
  forall (acc acc' : gmap string RequestsHelper.response) (w w1 : World),
    get_responses_loop fuel pre acc w = Some (Returns acc', w1) ->
    get_responses_loop fuel (pre ++ rest) acc w
    = get_responses_loop fuel rest acc' w1.
Proof.
  induction pre as [|u pre IH]; intros acc acc' w w1; simpl.
  - by intros [= -> ->].
  - destruct (RequestsHelper.get_response _ _ _ _ _ _ _ _ _)
      as [[[r|e] w0]|]; [|done..].
    apply IH.
Qed.

Lemma get_responses_loop_answered (fuel : nat) (urls : list string) :
  0 < fuel ->
  forall (acc : gmap string RequestsHelper.response) (w : World),
    (forall i url, urls !! i = Some url ->
                   is_Some (http_get (length (requested w) + i) url)) ->
    exists responses w',
      get_responses_loop fuel (map RequestsHelper.Url urls) acc w
      = Some (Returns responses, w')
      /\ requested w' = requested w ++ urls
      /\ (forall url, url ∉ urls -> responses !! url = acc !! url)
      /\ (forall i url,
             urls !! i = Some url ->
             url ∉ drop (S i) urls ->
             responses !! url = http_get (length (requested w) + i) url).
Proof.
  intros Hfuel. induction urls as [|u urls IH]; intros acc w Hall.
  - exists acc, w. split; [reflexivity|]. split; [by rewrite app_nil_r|].
    split; [done|]. intros i url Hi. by rewrite lookup_nil in Hi.
  - destruct (Hall 0 u eq_refl) as [r Hr]. rewrite Nat.add_0_r in Hr.
    cbn [map RequestsHelper.get_responses_loop RequestsHelper.url_of_check
             RequestsHelper.wait_of_check].
    rewrite (get_response_answered fuel u None w r Hr Hfuel).
    assert (Hlen : length (requested (after_attempts 1 1 u w))
                   = S (length (requested w))).
    { unfold after_attempts. cbn [requested]. rewrite length_app. simpl. lia. }
    destruct (IH (<[u := r]> acc) (after_attempts 1 1 u w))
      as (responses & w' & Hrun & Hreq & Hother & Hat).
    { intros i url Hi. rewrite Hlen.
      replace (S (length (requested w)) + i) with (length (requested w) + S i) by lia.
      by apply (Hall (S i)). }
    exists responses, w'. split; [exact Hrun|]. split; [|split].
    + rewrite Hreq. unfold after_attempts. cbn [requested replicate].
      by rewrite <- app_assoc.
    + intros url [Hne Hnin]%not_elem_of_cons.
      rewrite Hother by done. by rewrite lookup_insert_ne.
    + intros [|i] url Hi Hlater; simpl in Hi, Hlater.
      * injection Hi as ->. rewrite drop_0 in Hlater.
        rewrite Hother by done. by rewrite lookup_insert_eq, Nat.add_0_r.
      * rewrite (Hat i url Hi Hlater), Hlen. f_equal. lia.
Qed.

End ResponsesFacts.

(** X14.  [get_responses] stops at the first target whose
    [get_response] raises: it raises that exception, in the world
    that target left behind, so none of the later targets is
    requested and no partial dictionary is returned. *)
Theorem get_responses_stops_at_first_failure
        {Time : Type} (add : Time -> Time -> Time) (ge : Time -> Time -> bool)
        (format : Time -> string) (monotonic : nat -> Time)
        (http_get : nat -> string -> option RequestsHelper.response)
        (fuel : nat) (pre post : list RequestsHelper.url_to_check)
        (u : RequestsHelper.url_to_check)
        (responses : gmap string RequestsHelper.response)
        (w w1 w2 : World) (e : exn)
        (Hpre : RequestsHelper.get_responses add ge format monotonic http_get
                                             fuel pre w
                = Some (Returns responses, w1))
        (Hfail : RequestsHelper.get_response add ge format monotonic http_get
                   fuel (RequestsHelper.url_of_check u)
                   (RequestsHelper.wait_of_check u) w1
                 = Some (Raises e, w2)) :
  RequestsHelper.get_responses add ge format monotonic http_get
                               fuel (pre ++ u :: post) w
  = Some (Raises e, w2).
Proof.
  unfold RequestsHelper.get_responses in *.
  rewrite (get_responses_loop_app add ge format monotonic http_get
             fuel pre (u :: post) ∅ responses w w1 Hpre).
  simpl. by rewrite Hfail.
Qed.

Lemma get_responses_stops_at_first_failure_witness :
  RequestsHelper.get_responses
    Z.add Z.geb pretty sample_clock (sample_service "hello") 10
    ([RequestsHelper.Url "http://10.0.0.1:80"]
       ++ RequestsHelper.Url "http://10.0.0.2:80"
       :: [RequestsHelper.Url "http://10.0.0.1:80"])
    fresh_world
  = Some (Raises (AssertionError "No response from service"),
          after_attempts 1 2 "http://10.0.0.2:80"
            (after_attempts 1 1 "http://10.0.0.1:80" fresh_world)).
Proof.
  exact (get_responses_stops_at_first_failure
           Z.add Z.geb pretty sample_clock (sample_service "hello") 10
           [RequestsHelper.Url "http://10.0.0.1:80"]
           [RequestsHelper.Url "http://10.0.0.1:80"]
           (RequestsHelper.Url "http://10.0.0.2:80")
           {[ "http://10.0.0.1:80" := RequestsHelper.mkResponse 200 "hello" ]}
           fresh_world
           (after_attempts 1 1 "http://10.0.0.1:80" fresh_world)
           (after_attempts 1 2 "http://10.0.0.2:80"
              (after_attempts 1 1 "http://10.0.0.1:80" fresh_world))
           (AssertionError "No response from service")
           eq_refl eq_refl).
Defined.

(** X15.  When every URL of a list of plain URLs is answered at its
    first request, [get_responses] returns a dictionary after exactly
    one request per URL, made in the order of the list; the dictionary
    has no entry for a URL outside the list, and the entry of a URL is
    the response to its last occurrence in the list. *)
Theorem get_responses_one_request_per_url
        {Time : Type} (add : Time -> Time -> Time) (ge : Time -> Time -> bool)
        (format : Time -> string) (monotonic : nat -> Time)
        (http_get : nat -> string -> option RequestsHelper.response)
        (fuel : nat) (urls : list string) (w : World)
        (Hfuel : 0 < fuel)
        (Hall : forall i url, urls !! i = Some url ->
                              is_Some (http_get (length (requested w) + i) url)) :
  exists responses w',
    RequestsHelper.get_responses add ge format monotonic http_get
                                 fuel (map RequestsHelper.Url urls) w
    = Some (Returns responses, w')
    /\ requested w' = requested w ++ urls
    /\ (forall url, url ∉ urls -> responses !! url = None)
    /\ (forall i url,
           urls !! i = Some url ->
           url ∉ drop (S i) urls ->
           responses !! url = http_get (length (requested w) + i) url).
Proof.
  destruct (get_responses_loop_answered add ge format monotonic http_get
              fuel urls Hfuel ∅ w Hall)
    as (responses & w' & Hrun & Hreq & Hother & Hat).
  exists responses, w'. split; [exact Hrun|]. split; [exact Hreq|].
  split; [|exact Hat]. intros url Hnin. by rewrite Hother.
Qed.

Lemma get_responses_one_request_per_url_witness :
  let urls := ["http://10.0.0.1:80"; "http://10.0.0.1:80"] in
  0 < 5
  /\ exists responses w',
      RequestsHelper.get_responses
        Z.add Z.geb pretty sample_clock (sample_service "hello") 5
        (map RequestsHelper.Url urls) fresh_world
      = Some (Returns responses, w')
      /\ requested w' = urls
      /\ responses !! "http://10.0.0.1:80"
         = Some (RequestsHelper.mkResponse 200 "hello").
Proof.
  intros urls.
  assert (Hfuel : 0 < 5) by lia.
  split; [exact Hfuel|].
  destruct (get_responses_one_request_per_url
              Z.add Z.geb pretty sample_clock (sample_service "hello") 5
              urls fresh_world Hfuel)
    as (responses & w' & Hrun & Hreq & _ & Hat).
  { intros [|[|i]] url Hi; simpl in Hi; [injection Hi as <-; by eexists..|done]. }
  exists responses, w'. split; [exact Hrun|]. split; [exact Hreq|].
  apply (Hat 1 "http://10.0.0.1:80" eq_refl). simpl.
  intros Hin. by apply elem_of_nil in Hin.
Defined.

(** ** More on the migration listing *)

Section ListingMoreFacts.

Variables source_host target_host : string.

Abbreviation scan' := (MigrationInfo.scan source_host target_host).

(** One iteration, whatever the record: it raises, or it updates the
    two addresses from the record's first address. *)
Lemma scan_cons_cases (m : MigrationInfo.machine) (rest : list MigrationInfo.machine)
      (source_ip target_ip : option string) (found : option string * option string) :
  scan' (m :: rest) source_ip target_ip = Returns found ->
  let source_ip' :=
    if decide (MigrationInfo.hostname m = source_host)
    then head (MigrationInfo.ip m) else source_ip in
  let target_ip' :=
    if decide (MigrationInfo.hostname m = target_host)
    then head (MigrationInfo.ip m) else target_ip in
  (MigrationInfo.hostname m = source_host -> is_Some (head (MigrationInfo.ip m)))
  /\ (MigrationInfo.hostname m = target_host -> is_Some (head (MigrationInfo.ip m)))
  /\ ((is_Some source_ip' /\ is_Some target_ip' /\ found = (source_ip', target_ip'))
      \/ ((source_ip' = None \/ target_ip' = None)
          /\ scan' rest source_ip' target_ip' = Returns found)).
Proof.
  simpl. unfold MigrationInfo.first_ip.
  destruct (MigrationInfo.ip m) as [|addr addrs]; simpl.
  - destruct (decide (MigrationInfo.hostname m = source_host)); [done|].
    destruct (decide (MigrationInfo.hostname m = target_host)); [done|].
    intros Hscan. split; [done|]. split; [done|].
    destruct source_ip as [a|], target_ip as [b|]; simpl in Hscan;
      first [ left; repeat split; try (by eexists); by injection Hscan
            | right; split; [auto|exact Hscan] ].
  - intros Hscan. split; [by eexists|]. split; [by eexists|].
    destruct (decide (MigrationInfo.hostname m = source_host)),
             (decide (MigrationInfo.hostname m = target_host));
      destruct source_ip as [a|], target_ip as [b|]; simpl in Hscan;
      first [ left; repeat split; try (by eexists); by injection Hscan
            | right; split; [auto|exact Hscan] ].
Qed.

(** Once both addresses are found the loop has ended: records that
    follow are not looked at. *)
Lemma scan_app_found (pre post : list MigrationInfo.machine) (a b : string) :
  forall source_ip target_ip,
    source_ip = None \/ target_ip = None ->
    scan' pre source_ip target_ip = Returns (Some a, Some b) ->
    scan' (pre ++ post) source_ip target_ip = Returns (Some a, Some b).
Proof.
  induction pre as [|m pre IH]; intros source_ip target_ip Hopen Hscan.
  - simpl in Hscan. injection Hscan as -> ->. by destruct Hopen.
  - simpl in *.
    destruct (if decide (MigrationInfo.hostname m = source_host) then _ else _)
      as [s1|e]; [|done].
    destruct (if decide (MigrationInfo.hostname m = target_host) then _ else _)
      as [t1|e]; [|done].
    destruct (bool_decide (s1 ≠ None) && bool_decide (t1 ≠ None)) eqn:Hboth;
      [done|].
    apply IH; [|done].
    apply andb_false_iff in Hboth as [Hs|Ht].
    + left. apply bool_decide_eq_false in Hs. by destruct s1; [destruct Hs|].
    + right. apply bool_decide_eq_false in Ht. by destruct t1; [destruct Ht|].
Qed.

(** What the two addresses of a result say about the listing. *)
Lemma scan_found (machines : list MigrationInfo.machine) :
  forall source_ip target_ip found,
    scan' machines source_ip target_ip = Returns found ->
    (forall a, found.1 = Some a ->
               source_ip = Some a
               \/ exists m, m ∈ machines /\ MigrationInfo.hostname m = source_host
                            /\ head (MigrationInfo.ip m) = Some a)
    /\ (forall b, found.2 = Some b ->
                  target_ip = Some b
                  \/ exists m, m ∈ machines /\ MigrationInfo.hostname m = target_host
                               /\ head (MigrationInfo.ip m) = Some b)
    /\ (is_Some source_ip
        \/ Exists (fun m => MigrationInfo.hostname m = source_host) machines ->
        is_Some found.1)
    /\ (is_Some target_ip
        \/ Exists (fun m => MigrationInfo.hostname m = target_host) machines ->
        is_Some found.2).
Proof.
  induction machines as [|m rest IH]; intros source_ip target_ip found Hscan.
  - simpl in Hscan. injection Hscan as <-. simpl.
    split; [auto|]. split; [auto|].
    split; (intros [?|Hex]; [done|by apply Exists_nil in Hex]).
  - destruct (scan_cons_cases m rest source_ip target_ip found Hscan)
      as (Hs & Ht & Hcases).
    set (s1 := if decide (MigrationInfo.hostname m = source_host)
               then head (MigrationInfo.ip m) else source_ip) in *.
    set (t1 := if decide (MigrationInfo.hostname m = target_host)
               then head (MigrationInfo.ip m) else target_ip) in *.
    assert (Hs1 : forall a, s1 = Some a ->
                            source_ip = Some a
                            \/ exists m', m' ∈ m :: rest
                                          /\ MigrationInfo.hostname m' = source_host
                                          /\ head (MigrationInfo.ip m') = Some a).
    { intros a Ha. subst s1. case_decide; [|by left].
      right. exists m. split; [by left|done]. }
    assert (Ht1 : forall b, t1 = Some b ->
                            target_ip = Some b
                            \/ exists m', m' ∈ m :: rest
                                          /\ MigrationInfo.hostname m' = target_host
                                          /\ head (MigrationInfo.ip m') = Some b).
    { intros b Hb. subst t1. case_decide; [|by left].
      right. exists m. split; [by left|done]. }
    assert (Hs2 : is_Some source_ip
                  \/ MigrationInfo.hostname m = source_host -> is_Some s1).
    { intros [Hsome|Heq]; subst s1; case_decide; auto; done. }
    assert (Ht2 : is_Some target_ip
                  \/ MigrationInfo.hostname m = target_host -> is_Some t1).
    { intros [Hsome|Heq]; subst t1; case_decide; auto; done. }
    destruct Hcases as [(Hsome1 & Hsome2 & ->)|(_ & Hrest)]; simpl.
    + split; [exact Hs1|]. split; [exact Ht1|]. done.
    + destruct (IH s1 t1 found Hrest) as (Hfs & Hft & Hcs & Hct).
      split; [|split; [|split]].
      * intros a Ha. destruct (Hfs a Ha) as [Hprev|(m' & Hin & Hm')];
          [by apply Hs1|].
        right. exists m'. split; [by right|done].
      * intros b Hb. destruct (Hft b Hb) as [Hprev|(m' & Hin & Hm')];
          [by apply Ht1|].
        right. exists m'. split; [by right|done].
      * intros [Hsome|[Hm|Hex]%Exists_cons]; apply Hcs; auto.
      * intros [Hsome|[Hm|Hex]%Exists_cons]; apply Hct; auto.
Qed.

End ListingMoreFacts.

(** X16.  [from_vm_list] stops scanning once both addresses are found:
    if a listing already yields both addresses, any records appended to
    it (also duplicates of the two hostnames, or records without
    addresses) change nothing but the count. *)
Theorem from_vm_list_ignores_records_after_both_found
        (pre post : list MigrationInfo.machine) (source_host target_host : string)
        (count : nat) (a b : string)
        (Hpre : MigrationInfo.from_vm_list pre source_host target_host
                = Returns (MigrationInfo.mk count (Some a) (Some b))) :
  MigrationInfo.from_vm_list (pre ++ post) source_host target_host
  = Returns (MigrationInfo.mk (count + length post) (Some a) (Some b)).
Proof.
  unfold MigrationInfo.from_vm_list in *.
  destruct (MigrationInfo.scan source_host target_host pre None None)
    as [[sa sb]|e] eqn:Hscan; [|done].
  injection Hpre as <- -> ->.
  rewrite (scan_app_found source_host target_host pre post a b None None
             (or_introl eq_refl) Hscan).
  by rewrite length_app.
Qed.

Lemma from_vm_list_ignores_records_after_both_found_witness :
  let pre :=
    [MigrationInfo.mkMachine "a" ["1.1.1.1"]; MigrationInfo.mkMachine "b" ["2.2.2.2"]] in
  let post :=
    [MigrationInfo.mkMachine "a" []; MigrationInfo.mkMachine "b" ["3.3.3.3"]] in
  MigrationInfo.from_vm_list (pre ++ post) "a" "b"
  = Returns (MigrationInfo.mk 4 (Some "1.1.1.1") (Some "2.2.2.2")).
Proof.
  intros pre post.
  exact (from_vm_list_ignores_records_after_both_found
           pre post "a" "b" 2 "1.1.1.1" "2.2.2.2" eq_refl).
Defined.

(** X17.  Whenever [from_vm_list] returns, an address in the result is
    the first address of a record of the listing that carries the
    hostname in question, and an address is present exactly when some
    record carries that hostname. *)
Theorem from_vm_list_addresses_come_from_listing
        (machines : list MigrationInfo.machine) (source_host target_host : string)
        (info : MigrationInfo.t)
        (Hret : MigrationInfo.from_vm_list machines source_host target_host
                = Returns info) :
  (forall a, MigrationInfo.source_ip info = Some a ->
             exists m, m ∈ machines /\ MigrationInfo.hostname m = source_host
                       /\ head (MigrationInfo.ip m) = Some a)
  /\ (forall b, MigrationInfo.target_ip info = Some b ->
                exists m, m ∈ machines /\ MigrationInfo.hostname m = target_host
                          /\ head (MigrationInfo.ip m) = Some b)
  /\ (is_Some (MigrationInfo.source_ip info)
      <-> Exists (fun m => MigrationInfo.hostname m = source_host) machines)
  /\ (is_Some (MigrationInfo.target_ip info)
      <-> Exists (fun m => MigrationInfo.hostname m = target_host) machines).
Proof.
  unfold MigrationInfo.from_vm_list in Hret.
  destruct (MigrationInfo.scan source_host target_host machines None None)
    as [[sa sb]|e] eqn:Hscan; [|done].
  injection Hret as <-. simpl.
  destruct (scan_found source_host target_host machines None None (sa, sb) Hscan)
    as (Hfs & Hft & Hcs & Hct). simpl in *.
  assert (Hs : forall a, sa = Some a ->
                         exists m, m ∈ machines
                                   /\ MigrationInfo.hostname m = source_host
                                   /\ head (MigrationInfo.ip m) = Some a).
  { intros a Ha. by destruct (Hfs a Ha). }
  assert (Ht : forall b, sb = Some b ->
                         exists m, m ∈ machines
                                   /\ MigrationInfo.hostname m = target_host
                                   /\ head (MigrationInfo.ip m) = Some b).
  { intros b Hb. by destruct (Hft b Hb). }
  split; [exact Hs|]. split; [exact Ht|]. split; split.
  - intros [a Ha]. destruct (Hs a Ha) as (m & Hin & Hm & _).
    apply Exists_exists. by exists m.
  - intros Hex. apply Hcs. by right.
  - intros [b Hb]. destruct (Ht b Hb) as (m & Hin & Hm & _).
    apply Exists_exists. by exists m.
  - intros Hex. apply Hct. by right.
Qed.

Lemma from_vm_list_addresses_come_from_listing_witness :
  let machines :=
    [MigrationInfo.mkMachine "c" []; MigrationInfo.mkMachine "a" ["1.1.1.1"; "9.9.9.9"]] in
  MigrationInfo.from_vm_list machines "a" "b"
  = Returns (MigrationInfo.mk 2 (Some "1.1.1.1") None)
  /\ Exists (fun m => MigrationInfo.hostname m = "a") machines
  /\ ~ Exists (fun m => MigrationInfo.hostname m = "b") machines.
Proof.
  intros machines.
  assert (Hret : MigrationInfo.from_vm_list machines "a" "b"
                 = Returns (MigrationInfo.mk 2 (Some "1.1.1.1") None))
    by reflexivity.
  destruct (from_vm_list_addresses_come_from_listing machines "a" "b" _ Hret)
    as (_ & _ & Hsource & Htarget).
  split; [exact Hret|]. split.
  - apply Hsource. by eexists.
  - intros Hex. apply Htarget in Hex. simpl in Hex. by destruct Hex.
Defined.

(** ** What waiting for a response touches *)

Section FootprintFacts.

Context {Time : Type}.
Variable ge : Time -> Time -> bool.
Variable monotonic : nat -> Time.
Variable http_get : nat -> string -> option RequestsHelper.response.

Lemma poll_footprint (fuel : nat) (url fail_msg : string) (deadline : Time) :
  forall (w w' : World) (r : outcome RequestsHelper.response),
    RequestsHelper.poll ge monotonic http_get fuel url fail_msg deadline w
    = Some (r, w') ->
    spawned w' = spawned w
    /\ printed w' = printed w
    /\ (exists k, 0 < k <= fuel /\ requested w' = requested w ++ replicate k url)
    /\ (forall e, r = Raises e -> e = AssertionError fail_msg).
Proof.
  induction fuel as [|fuel IH]; intros w w' r Hpoll; [discriminate Hpoll|].
  cbn [RequestsHelper.poll] in Hpoll.
  unfold RequestsHelper.requests_get, RequestsHelper.time_monotonic in Hpoll.
  cbn [spawned requested clock_reads printed] in Hpoll.
  destruct (http_get (length (requested w)) url) as [resp|].
  - injection Hpoll as <- <-. cbn [spawned requested printed].
    split; [done|]. split; [done|]. split; [|done].
    exists 1. split; [lia|done].
  - destruct (ge _ deadline).
    + injection Hpoll as <- <-. cbn [spawned requested printed].
      split; [done|]. split; [done|]. split; [|by intros e [= <-]].
      exists 1. split; [lia|done].
    + destruct (IH _ _ _ Hpoll) as (Hsp & Hpr & (k & Hk & Hreq) & Hexn).
      cbn [spawned requested printed] in *.
      split; [done|]. split; [done|]. split; [|done].
      exists (S k). split; [lia|]. rewrite Hreq, <- app_assoc. done.
Qed.

End FootprintFacts.

(** X18.  Whatever [get_response] ends with, it has spawned no process
    and printed nothing, and it has made at least one request, all of
    them for the given URL.  The only exception it raises is the
    assertion error with its "No response" message: a failure of a
    request itself never reaches the caller. *)
Theorem get_response_only_requests_its_url
        {Time : Type} (add : Time -> Time -> Time) (ge : Time -> Time -> bool)
        (format : Time -> string) (monotonic : nat -> Time)
        (http_get : nat -> string -> option RequestsHelper.response)
        (fuel : nat) (service_url : string) (wait_for_connection : option Time)
        (w w' : World) (r : outcome RequestsHelper.response)
        (Hrun : RequestsHelper.get_response add ge format monotonic http_get
                  fuel service_url wait_for_connection w
                = Some (r, w')) :
  spawned w' = spawned w
  /\ printed w' = printed w
  /\ (exists k, 0 < k /\ requested w' = requested w ++ replicate k service_url)
  /\ (forall e, r = Raises e ->
                e = AssertionError
                      (match wait_for_connection with
                       | None => "No response from service"
                       | Some wait =>
                           "No response from service within "
                             +:+ format wait +:+ " seconds"
                       end)).
Proof.
  unfold RequestsHelper.get_response, RequestsHelper.time_monotonic in Hrun.
  destruct wait_for_connection as [wait|];
    apply poll_footprint in Hrun as (Hsp & Hpr & (k & Hk & Hreq) & Hexn);
    cbn [spawned requested printed] in *;
    (split; [done|]); (split; [done|]); (split; [|done]);
    exists k; (split; [lia|done]).
Qed.

Lemma get_response_only_requests_its_url_witness :
  let w' := after_attempts 3 4 "http://10.0.0.2:80" fresh_world in
  RequestsHelper.get_response
    Z.add Z.geb pretty sample_clock no_service 10 "http://10.0.0.2:80" (Some 3%Z)
    fresh_world
  = Some (Raises (AssertionError "No response from service within 3 seconds"), w')
  /\ spawned w' = [] /\ printed w' = []
  /\ exists k, 0 < k /\ requested w' = [] ++ replicate k "http://10.0.0.2:80".
Proof.
  intros w'.
  assert (Hrun : RequestsHelper.get_response
                   Z.add Z.geb pretty sample_clock no_service 10
                   "http://10.0.0.2:80" (Some 3%Z) fresh_world
                 = Some (Raises (AssertionError
                                   "No response from service within 3 seconds"), w'))
    by reflexivity.
  split; [exact Hrun|].
  destruct (get_response_only_requests_its_url
              Z.add Z.geb pretty sample_clock no_service 10
              "http://10.0.0.2:80" (Some 3%Z) fresh_world w' _ Hrun)
    as (Hsp & Hpr & Hreq & _).
  split; [exact Hsp|]. split; [exact Hpr|]. exact Hreq.
Defined.

(** ** The run-start hook *)

(** X19.  [before_all] runs the elevation check and nothing else.  If
    the check exits with a status other than zero, the hook raises
    [CalledProcessError] with that status and the context is left as
    it was, without a process-wide stack; otherwise the context gets an
    empty process-wide stack and its other attributes are untouched. *)
Theorem before_all_checks_elevation_first
        (spawn : list Call -> Call -> Completed) (ctx : Hooks.context) (w : World) :
  let status := returncode (spawn (spawned w) sudo_check) in
  let '(r, (ctx', w')) := Hooks.before_all spawn (ctx, w) in
  spawned w' = spawned w ++ [sudo_check]
  /\ printed w' = printed w
  /\ (if decide (status = 0%Z)
      then r = Returns tt
           /\ ctx' = Hooks.mk (Some []) (Hooks.scenario_cleanup ctx)
                              (Hooks.vm_helper ctx) (Hooks.objects ctx)
      else r = Raises (CalledProcessError status (call_cmd sudo_check))
           /\ ctx' = ctx).
Proof.
  intros status. unfold Hooks.before_all, Hooks.check_output. unfold_monad.
  cbn [spawned requested clock_reads printed]. fold sudo_check. fold status.
  by destruct (decide (status = 0%Z)).
Qed.

(** ** Scenarios and the helpers of earlier scenarios *)

Section ScenarioFacts.

Variable _VM_DEFS : gmap string string.
Variable spawn : list Call -> Call -> Completed.

(** While a scenario runs: the current helper is the one at address
    [n], only its [close] is on the per-scenario stack, and the
    helpers before it are the given ones. *)
Abbreviation scenario_scoped :=
  (fun (n : nat) (earlier : list VirtualMachineHelper.t) (ctx : Hooks.context) =>
     Hooks.vm_helper ctx = Some n
     /\ (exists stack, Hooks.scenario_cleanup ctx = Some stack
                       /\ Forall (fun cb => cb = Hooks.HelperClose n) stack)
     /\ take n (Hooks.objects ctx) = earlier).

Lemma on_object_take {A : Type} (id : nat)
      (m : M (VirtualMachineHelper.t * World) A)
      (objs : list VirtualMachineHelper.t) (w : World) :
  take id (fst (snd (Hooks.on_object id m (objs, w)))) = take id objs.
Proof.
  unfold Hooks.on_object. destruct (objs !! id) as [self|]; [|done].
  destruct (m (self, w)) as [r [self' w']]. simpl. by rewrite take_insert_ge.
Qed.

Lemma run_step_scoped (st : Hooks.step) (n : nat)
      (earlier : list VirtualMachineHelper.t) (ctx : Hooks.context) (w : World) :
  scenario_scoped n earlier ctx ->
  scenario_scoped n earlier (fst (snd (Hooks.run_step _VM_DEFS spawn st (ctx, w)))).
Proof.
  intros (Hid & (stack & Hstack & Hall) & Htake). unfold Hooks.run_step.
  rewrite Hid. destruct st as [name definition destroy|].
  - unfold Hooks.on_objects.
    pose proof (on_object_take n (VirtualMachineHelper.ensure_local_vm
                                    _VM_DEFS spawn name definition destroy)
                               (Hooks.objects ctx) w) as Htake'.
    destruct (Hooks.on_object _ _ _) as [r [objs w']]. simpl in *.
    split; [done|]. split; [by exists stack|]. by rewrite Htake'.
  - rewrite Hstack. simpl. split; [done|]. split; [|done].
    exists (stack ++ [Hooks.HelperClose n]). split; [done|].
    apply Forall_app. split; [done|]. by apply Forall_singleton.
Qed.

Lemma run_steps_scoped (steps : list Hooks.step) (n : nat)
      (earlier : list VirtualMachineHelper.t) :
  forall (ctx : Hooks.context) (w : World),
    scenario_scoped n earlier ctx ->
    scenario_scoped n earlier
      (fst (snd (Hooks.run_steps _VM_DEFS spawn steps (ctx, w)))).
Proof.
  induction steps as [|st steps IH]; intros ctx w Hscoped;
    cbn [Hooks.run_steps]; [done|].
  unfold bind.
  pose proof (run_step_scoped st n earlier ctx w Hscoped) as Hstep.
  destruct (Hooks.run_step _ _ _ _) as [[[]|e] [ctx1 w1]]; cbn [fst snd] in *;
    [|done].
  by apply IH.
Qed.

Lemma hook_unwind_take (n : nat) (todo : list Hooks.cleanup) :
  Forall (fun cb => cb = Hooks.HelperClose n) todo ->
  forall (pending : option exn) (objs : list VirtualMachineHelper.t) (w : World),
    take n (fst (snd (ExitStack.unwind (Hooks.invoke _VM_DEFS spawn)
                                       todo pending (objs, w))))
    = take n objs.
Proof.
  induction 1 as [|cb todo -> _ IH]; intros pending objs w;
    cbn [ExitStack.unwind Hooks.invoke]; [done|].
  pose proof (on_object_take n (VirtualMachineHelper.close _VM_DEFS spawn) objs w)
    as Htake.
  destruct (Hooks.on_object _ _ _) as [[[]|e] [objs1 w1]]; cbn [fst snd] in Htake;
    by rewrite IH.
Qed.

End ScenarioFacts.

(** X20.  A scenario does not touch the helpers of earlier scenarios,
    whatever its steps are and whether or not it opts in to eager
    cleanup: after the scenario-end hook they are exactly as they were
    before the scenario-start hook, so their machines stay registered,
    to be halted or destroyed by the run-end hook. *)
Theorem scenario_leaves_earlier_helpers_alone
        (defs : gmap string string) (spawn : list Call -> Call -> Completed)
        (steps : list Hooks.step) (ctx : Hooks.context) (w : World) :
  take (length (Hooks.objects ctx))
       (Hooks.objects (fst (snd (Hooks.run_scenario defs spawn steps (ctx, w)))))
  = Hooks.objects ctx.
Proof.
  unfold Hooks.run_scenario.
  assert (Hstart : (fun n earlier ctx' =>
                      Hooks.vm_helper ctx' = Some n
                      /\ (exists stack, Hooks.scenario_cleanup ctx' = Some stack
                                        /\ Forall (fun cb => cb = Hooks.HelperClose n)
                                                  stack)
                      /\ take n (Hooks.objects ctx') = earlier)
                     (length (Hooks.objects ctx)) (Hooks.objects ctx)
                     (fst (snd (Hooks.before_scenario (ctx, w))))).
  { unfold Hooks.before_scenario.
    destruct (Hooks._global_cleanup ctx); simpl;
      (split; [done|]); (split; [by exists []|]); by rewrite take_app_length. }
  destruct (Hooks.before_scenario (ctx, w)) as [r1 [ctx1 w1]]. cbn [fst snd] in *.
  pose proof (run_steps_scoped defs spawn steps _ _ ctx1 w1 Hstart) as Hsteps.
  destruct (Hooks.run_steps _ _ _ _) as [r2 [ctx2 w2]]. cbn [fst snd] in *.
  destruct Hsteps as (_ & (stack & Hstack & Hall) & Htake).
  unfold Hooks.after_scenario. rewrite Hstack. unfold ExitStack.close.
  pose proof (hook_unwind_take defs spawn (length (Hooks.objects ctx)) (rev stack)
                (Forall_rev Hall) None (Hooks.objects ctx2) w2) as Hun.
  destruct (ExitStack.unwind _ _ _ _) as [[e|] [objs w3]]; cbn [fst snd] in *;
    cbn [Hooks.objects]; by rewrite Hun.
Qed.

(** X21.  The only way [ensure_local_vm] with [destroy=True] succeeds:
    the hostname of the definition is itself a registered name.  The
    machine destroyed beforehand is then the one registered under that
    name (its hostname is looked up in the name map), after which
    [vagrant up] runs for the definition; the name is mapped to the
    hostname and a destroy callback is registered for it. *)
Theorem ensure_destroy_success_path
        (defs : gmap string string) (spawn : list Call -> Call -> Completed)
        (name definition vm_dir old_hostname old_dir : string)
        (self : VirtualMachineHelper.t) (w : World) :
  let hostname := _VM_HOSTNAME_PREFIX +:+ definition in
  let destroy := mkCall ["vagrant"; "destroy"] (Some old_dir) in
  let up := mkCall ["vagrant"; "up"] (Some vm_dir) in
  defs !! hostname = Some vm_dir ->
  VirtualMachineHelper._machines self !! hostname = Some old_hostname ->
  defs !! old_hostname = Some old_dir ->
  returncode (spawn (spawned w ++ [destroy]) up) = 0%Z ->
  let '(r, (self', w')) :=
    VirtualMachineHelper.ensure_local_vm defs spawn name definition true (self, w) in
  r = Returns tt
  /\ VirtualMachineHelper._machines self'
     = <[name := hostname]> (delete hostname (VirtualMachineHelper._machines self))
  /\ VirtualMachineHelper._resource_manager self'
     = VirtualMachineHelper._resource_manager self
       ++ [VirtualMachineHelper.Destroy name]
  /\ spawned w' = spawned w ++ [destroy; up].
Proof.
  intros hostname destroy up Hdef Hname Hold Hup.
  unfold VirtualMachineHelper.ensure_local_vm. fold hostname.
  unfold bind at 1. rewrite decide_True by eauto. unfold ret at 1.
  unfold bind at 1 2. unfold VirtualMachineHelper.on_machines at 1.
  rewrite (vm_destroy_registered defs spawn hostname old_hostname old_dir
             _ w Hname Hold).
  unfold ret at 1. cbn [VirtualMachineHelper._machines
                          VirtualMachineHelper._resource_manager].
  unfold VirtualMachineHelper._vm_up, VirtualMachineHelper._run_vagrant.
  rewrite Hdef. unfold _run_command, after_teardown. unfold_monad.
  cbn [VirtualMachineHelper._machines VirtualMachineHelper._resource_manager
       spawned requested clock_reads printed].
  fold destroy. fold up. rewrite decide_True by exact Hup.
  cbn [spawned]. by rewrite <- app_assoc.
Qed.

Lemma ensure_destroy_success_path_witness :
  let self :=
    VirtualMachineHelper.mk {[ "leapp-tests-d1" := "leapp-tests-d2" ]}
                            [VirtualMachineHelper.Halt "leapp-tests-d1"] in
  let '(r, (self', w')) :=
    VirtualMachineHelper.ensure_local_vm
      sample_defs all_succeed "dst" "d1" true (self, fresh_world) in
  r = Returns tt
  /\ VirtualMachineHelper._machines self'
     = <["dst" := "leapp-tests-d1"]>
         (delete "leapp-tests-d1" (VirtualMachineHelper._machines self))
  /\ VirtualMachineHelper._resource_manager self'
     = [VirtualMachineHelper.Halt "leapp-tests-d1"; VirtualMachineHelper.Destroy "dst"]
  /\ spawned w'
     = [mkCall ["vagrant"; "destroy"] (Some "/vmdefs/d2");
        mkCall ["vagrant"; "up"] (Some "/vmdefs/d1")].
Proof.
  intros self.
  exact (ensure_destroy_success_path
           sample_defs all_succeed "dst" "d1" "/vmdefs/d1"
           "leapp-tests-d2" "/vmdefs/d2" self fresh_world
           eq_refl eq_refl eq_refl eq_refl).
Defined.
